(** * liballuris: the command/transport engine of the Alluris driver

    A shallow embedding of [liballuris/liballuris.c].

    Conventions of the embedding
    - C integers are [Z]; every conversion that can change a value
      ([int] from [size_t], [short] and [int] read back from bytes, a store
      into an [unsigned char]) is written out.
    - The target is the one the tools are built for: little-endian, 32-bit
      [int], 16-bit [short], 64-bit [size_t].
    - The two static buffers [out_buf] and [in_buf] are lists of byte values;
      a pointer [buf + k] is the suffix [drop k buf].
    - libusb is not part of the library: the outcome of the i-th call of
      [libusb_bulk_transfer] is read from an environment.
    - An automatic variable that the code reads before it has written all of
      it holds whatever the environment says it holds. *)

From Stdlib Require Import ZArith Lia Bool String Ascii DecimalString.
From stdpp Require Import base numbers list.

Local Open Scope Z_scope.

(** ** Machine integers *)

(** Value of a [w]-bit two's complement object whose bits, read unsigned,
    are [z mod 2^w]. *)
Definition signed (w : Z) (z : Z) : Z :=
  let u := z mod 2 ^ w in
  if u <? 2 ^ (w - 1) then u else u - 2 ^ w.

Definition to_short (z : Z) : Z := signed 16 z.
Definition to_int (z : Z) : Z := signed 32 z.
Definition to_uchar (z : Z) : Z := z mod 256.
Definition to_size_t (z : Z) : Z := z mod 2 ^ 64.

(** [buf[i]] for an array of [unsigned char]. Past the end of the list the
    read yields 0; in C such a read has no defined result, and no lemma below
    depends on one. *)
Definition load (buf : list Z) (i : nat) : Z := default 0 (buf !! i).

(** [buf[i] = v]. *)
Definition store (i : nat) (v : Z) (buf : list Z) : list Z := <[i := v]> buf.

(** The byte of index [k] in the object representation of the [int] [v]
    (least significant first). *)
Definition int_byte (v : Z) (k : nat) : Z := (v / 2 ^ (8 * Z.of_nat k)) mod 256.

(** [memcpy (dst + off, &v, 3)]: the three low-order bytes of the [int] [v]
    over [dst[off .. off+2]]. *)
Definition memcpy_int3 (off : nat) (v : Z) (dst : list Z) : list Z :=
  store (off + 2) (int_byte v 2)
    (store (off + 1) (int_byte v 1) (store off (int_byte v 0) dst)).

(** ** Frame codec: [char_to_uint16], [char_to_uint24], [char_to_int24] *)

(** [short ret; memcpy (&ret, in, 2); return ret;] *)
Definition char_to_uint16 (inp : list Z) : Z :=
  to_short (load inp 0 + 256 * load inp 1).

(** [int ret; memcpy (&ret, in, 3); return ret;]

    [ret] has four bytes and is not initialised; [memcpy] writes the three
    low-order ones. [hi] is the value the fourth byte of [ret] happens to
    hold. *)
Definition char_to_uint24 (hi : Z) (inp : list Z) : Z :=
  to_int (load inp 0 + 256 * load inp 1 + 65536 * load inp 2 + 16777216 * hi).

(** [int ret = char_to_uint24 (in); if (ret > 8388607) ret = ret - 16777216;] *)
Definition char_to_int24 (hi : Z) (inp : list Z) : Z :=
  let ret := char_to_uint24 hi inp in
  if 8388607 <? ret then ret - 16777216 else ret.

(** ** The declarations of [liballuris.h]

    The header is not among the sources. What [liballuris.c] takes from it
    is a parameter of the development: the capacities of the two static
    buffers (which the code uses without declaring them, and checks lengths
    against), the default timeouts, the three error codes of the library
    besides success, and the position of the [measuring] flag in the
    bit-field [struct liballuris_state] (given as the test the code applies
    to the decoded state word). *)
Class Header := {
  DEFAULT_SEND_BUF_LEN : Z;
  DEFAULT_RECV_BUF_LEN : Z;
  DEFAULT_SEND_TIMEOUT : Z;
  DEFAULT_RECEIVE_TIMEOUT : Z;
  LIBALLURIS_MALFORMED_REPLY : Z;
  LIBALLURIS_DEVICE_BUSY : Z;
  LIBALLURIS_OUT_OF_RANGE : Z;
  measuring : Z -> bool
}.

(** Modelled from the spec: [LIBALLURIS_SUCCESS] of the missing
    [enum liballuris_error]; the spec fixes success as 0, the value of
    [LIBUSB_SUCCESS], and the code tests [ret == LIBALLURIS_SUCCESS],
    [ret == LIBUSB_SUCCESS] and [!ret] interchangeably. *)
Definition LIBALLURIS_SUCCESS : Z := 0.

(** [enum libusb_error] of libusb-1.0, as far as the code names it. *)
Definition LIBUSB_SUCCESS : Z := 0.
Definition LIBUSB_ERROR_TIMEOUT : Z := -7.
Definition LIBUSB_ERROR_OVERFLOW : Z := -8.

(** ** The world the driver runs in *)

(** What one call of [libusb_bulk_transfer] reports: its return code, the
    value it leaves in [*transferred], and, for an IN transfer, the bytes the
    device delivered. *)
Record xfer := Xfer { rc : Z; actual : Z; payload : list Z }.

(** Everything the code does not decide itself.
    - [usb i]: the outcome of the [i]-th bulk transfer of the run;
    - [junk i]: the high-order byte found in the uninitialised [ret] of
      [char_to_uint24] at the [i]-th decode of a command;
    - [junk_state]: the content of an uninitialised
      [struct liballuris_state], as a state word. *)
Record env := Env {
  usb : nat -> xfer;
  junk : nat -> Z;
  junk_state : Z
}.

(** Lines written to [stderr], by the place that writes them. *)
Inductive message :=
| SendLenError
| ReplyLenError
| WriteError
| OverflowError
| ReadError
| MalformedReplyError
| PacketlenError
| ModeError.

(** What the outside can observe of a run, oldest event last. *)
Inductive event :=
| BulkOut (data : list Z) (timeout : Z)
| BulkIn (len : Z) (timeout : Z)
| Usleep (usec : Z)
| Stderr (m : message).

(** The static buffers, the number of bulk transfers made so far, and the
    observable trace. *)
Record world := World {
  out_buf : list Z;
  in_buf : list Z;
  xfers : nat;
  trace : list event
}.

Definition set_out_buf (f : list Z -> list Z) (w : world) : world :=
  World (f (out_buf w)) (in_buf w) (xfers w) (trace w).

Definition log (e : event) (w : world) : world :=
  World (out_buf w) (in_buf w) (xfers w) (e :: trace w).

(** How a call ends: it returns, the process leaves through [exit], or an
    [assert] fails. *)
Inductive outcome (A : Type) :=
| Ret (a : A) (w : world)
| Exit (code : Z) (w : world)
| AssertFail (w : world).

Arguments Ret {A} a w.
Arguments Exit {A} code w.
Arguments AssertFail {A} w.

Definition bind {A B : Type} (m : outcome A) (k : A -> world -> outcome B) : outcome B :=
  match m with
  | Ret a w => k a w
  | Exit c w => Exit c w
  | AssertFail w => AssertFail w
  end.

(** [src] over the first cells of [dst]; [dst] keeps its length. *)
Fixpoint blit (src dst : list Z) : list Z :=
  match src, dst with
  | s :: src', _ :: dst' => s :: blit src' dst'
  | _, _ => dst
  end.

(** [libusb_bulk_transfer (h, 0x01, out_buf, len, &actual, timeout)]:
    returns the code and [actual]. *)
Definition bulk_out (e : env) (len timeout : Z) (w : world) : Z * Z * world :=
  let x := usb e (xfers w) in
  (rc x, actual x,
   World (out_buf w) (in_buf w) (S (xfers w))
         (BulkOut (take (Z.to_nat len) (out_buf w)) timeout :: trace w)).

(** [libusb_bulk_transfer (h, 0x81, in_buf, len, &actual, timeout)]: the
    device's bytes, at most [len] of them, land in [in_buf]. *)
Definition bulk_in (e : env) (len timeout : Z) (w : world) : Z * Z * world :=
  let x := usb e (xfers w) in
  (rc x, actual x,
   World (out_buf w) (blit (take (Z.to_nat len) (payload x)) (in_buf w))
         (S (xfers w)) (BulkIn len timeout :: trace w)).

Section Driver.
Context `{Header}.

(** ** Transaction engine: [liballuris_device_bulk_transfer] *)

(** [sent] is the block under [if (send_len > 0)]: [inl] stands for the
    [return] (or the failed [assert]) inside it, [inr] for falling through
    with [r]. *)
Definition liballuris_device_bulk_transfer (e : env)
    (send_len send_timeout reply_len receive_timeout : Z) (w : world) : outcome Z :=
  let r := 0 in
  if DEFAULT_SEND_BUF_LEN <? send_len then Exit (-1) (log (Stderr SendLenError) w)
  else if DEFAULT_RECV_BUF_LEN <? reply_len then Exit (-1) (log (Stderr ReplyLenError) w)
  else
    let sent : outcome Z + Z * world :=
      if 0 <? send_len then
        if load (out_buf w) 1 =? send_len then
          let '(r, actual, w) := bulk_out e send_len send_timeout w in
          if negb (r =? LIBUSB_SUCCESS) || negb (actual =? send_len) then
            inl (Ret r (log (Stderr WriteError) w))
          else inr (r, w)
        else inl (AssertFail w)
      else inr (r, w) in
    match sent with
    | inl early => early
    | inr (r, w) =>
        if 0 <? reply_len then
          let '(r, actual, w) := bulk_in e reply_len receive_timeout w in
          let failed := negb (r =? LIBUSB_SUCCESS) || negb (actual =? reply_len) in
          if failed && (r =? LIBUSB_ERROR_OVERFLOW) then
            Ret r (log (Stderr OverflowError) w)
          else
            let w := if failed then log (Stderr ReadError) w else w in
            if (r =? 0) && (0 <? send_len)
               && (negb (load (in_buf w) 0 =? load (out_buf w) 0)
                   || negb (load (in_buf w) 1 =? actual))
            then Ret LIBALLURIS_MALFORMED_REPLY (log (Stderr MalformedReplyError) w)
            else Ret r w
        else Ret r w
    end.

(** ** Command set *)

(** [out_buf[0] = a; out_buf[1] = b; out_buf[2] = c;] *)
Definition frame3 (a b c : Z) (buf : list Z) : list Z :=
  store 2 c (store 1 b (store 0 a buf)).

(** The characters of a string, as [char] values. *)
Definition chars (s : string) : list Z :=
  map (fun a => Z.of_N (N_of_ascii a)) (list_ascii_of_string s).

(** [snprintf (buf, length, "%c.%i", c, i)]: the formatted text, cut to
    [length - 1] characters and closed by a NUL; nothing for [length = 0]. *)
Definition snprintf_c_dot_i (buf : list Z) (length : Z) (c i : Z) : list Z :=
  if length =? 0 then buf
  else
    let text := to_uchar c :: chars "." ++ chars (NilZero.string_of_int (Z.to_int i)) in
    blit (take (Z.to_nat (length - 1)) text ++ [0]) buf.

(** [liballuris_clear_RX]: one read of 64 bytes into a local array, its
    result dropped. *)
Definition liballuris_clear_RX (e : env) (timeout : Z) (w : world) : outcome unit :=
  Ret tt (World (out_buf w) (in_buf w) (S (xfers w)) (BulkIn 64 timeout :: trace w)).

Definition liballuris_serial_number (e : env) (buf : list Z) (length : Z)
    (w : world) : outcome (Z * list Z) :=
  let w := set_out_buf (frame3 8 3 6) w in
  bind (liballuris_device_bulk_transfer e 3 DEFAULT_SEND_TIMEOUT 6 DEFAULT_RECEIVE_TIMEOUT w)
    (fun ret w =>
       if ret =? LIBALLURIS_SUCCESS then
         let tmp := char_to_uint16 (drop 3 (in_buf w)) in
         if tmp =? -1 then Ret (LIBALLURIS_DEVICE_BUSY, buf) w
         else Ret (ret, snprintf_c_dot_i buf length (load (in_buf w) 5 + 65) tmp) w
       else Ret (ret, buf) w).

Definition liballuris_digits (e : env) (v : Z) (w : world) : outcome (Z * Z) :=
  let w := set_out_buf (frame3 8 3 3) w in
  bind (liballuris_device_bulk_transfer e 3 DEFAULT_SEND_TIMEOUT 6 DEFAULT_RECEIVE_TIMEOUT w)
    (fun ret w =>
       if ret =? LIBALLURIS_SUCCESS then
         let v := char_to_int24 (junk e 0) (drop 3 (in_buf w)) in
         if v =? -1 then Ret (LIBALLURIS_DEVICE_BUSY, v) w
         else Ret (ret, v) w
       else Ret (ret, v) w).

(** The value queries: each sends its three-byte frame, reads six bytes
    and, on success, decodes a 24-bit value at offset 3 into the output
    location, which holds the argument [value] / [peak] / [limit] before the
    call. *)
Definition liballuris_raw_value (e : env) (value : Z) (w : world) : outcome (Z * Z) :=
  let w := set_out_buf (frame3 70 3 3) w in
  bind (liballuris_device_bulk_transfer e 3 DEFAULT_SEND_TIMEOUT 6 DEFAULT_RECEIVE_TIMEOUT w)
    (fun ret w =>
       if ret =? LIBALLURIS_SUCCESS then
         Ret (ret, char_to_int24 (junk e 0) (drop 3 (in_buf w))) w
       else Ret (ret, value) w).

Definition liballuris_raw_pos_peak (e : env) (peak : Z) (w : world) : outcome (Z * Z) :=
  let w := set_out_buf (frame3 70 3 4) w in
  bind (liballuris_device_bulk_transfer e 3 DEFAULT_SEND_TIMEOUT 6 DEFAULT_RECEIVE_TIMEOUT w)
    (fun ret w =>
       if ret =? LIBALLURIS_SUCCESS then
         Ret (ret, char_to_int24 (junk e 0) (drop 3 (in_buf w))) w
       else Ret (ret, peak) w).

Definition liballuris_raw_neg_peak (e : env) (peak : Z) (w : world) : outcome (Z * Z) :=
  let w := set_out_buf (frame3 70 3 5) w in
  bind (liballuris_device_bulk_transfer e 3 DEFAULT_SEND_TIMEOUT 6 DEFAULT_RECEIVE_TIMEOUT w)
    (fun ret w =>
       if ret =? LIBALLURIS_SUCCESS then
         Ret (ret, char_to_int24 (junk e 0) (drop 3 (in_buf w))) w
       else Ret (ret, peak) w).

(** [state] is the caller's [struct liballuris_state], kept as the state
    word its bits are taken from ([tmp._int = char_to_int24 (in_buf + 3);
    *state = tmp.bits;]); [k] numbers the decode within the calling
    command. *)
Definition liballuris_read_state (e : env) (k : nat) (state : Z) (timeout : Z)
    (w : world) : outcome (Z * Z) :=
  let w := set_out_buf (frame3 70 3 2) w in
  bind (liballuris_device_bulk_transfer e 3 DEFAULT_SEND_TIMEOUT 6 timeout w)
    (fun ret w =>
       if ret =? LIBALLURIS_SUCCESS then
         Ret (ret, char_to_int24 (junk e k) (drop 3 (in_buf w))) w
       else Ret (ret, state) w).

Definition liballuris_cyclic_measurement (e : env) (enable : Z) (length : Z)
    (w : world) : outcome Z :=
  if (length <? 0) || (19 <? length) then
    Ret LIBALLURIS_OUT_OF_RANGE (log (Stderr PacketlenError) w)
  else
    let w := set_out_buf
      (fun b => store 3 (to_uchar length)
                  (store 2 (if enable =? 0 then 0 else 2) (store 1 4 (store 0 1 b)))) w in
    liballuris_device_bulk_transfer e 4 DEFAULT_SEND_TIMEOUT 4 DEFAULT_RECEIVE_TIMEOUT w.

(** [for (k = 0; k < length; k++) buf[k] = char_to_int24 (in_buf + 5 + k*3);]
    with [n] iterations left. The model is that of the C loop as long as the
    cells written exist in the caller's array and the bytes read lie within
    [in_buf]; past either, the C loop has no defined behaviour. *)
Fixpoint poll_decode (e : env) (inb : list Z) (n : nat) (k : nat) (buf : list Z) : list Z :=
  match n with
  | O => buf
  | S n' =>
      poll_decode e inb n' (S k)
        (store k (char_to_int24 (junk e k) (drop (5 + k * 3) inb)) buf)
  end.

(** [buf] is the caller's array of [int], [length] a [size_t]. The length
    computed in [size_t] is passed as the [int] [reply_len]. *)
Definition liballuris_poll_measurement (e : env) (buf : list Z) (length : Z)
    (w : world) : outcome (Z * list Z) :=
  let len := to_size_t (5 + length * 3) in
  bind (liballuris_device_bulk_transfer e 0 0 (to_int len) 2100 w)
    (fun ret w => Ret (ret, poll_decode e (in_buf w) (Z.to_nat length) 0 buf) w).

Definition liballuris_tare (e : env) (w : world) : outcome Z :=
  liballuris_device_bulk_transfer e 3 DEFAULT_SEND_TIMEOUT 3 DEFAULT_RECEIVE_TIMEOUT
    (set_out_buf (frame3 21 3 0) w).

Definition liballuris_clear_pos_peak (e : env) (w : world) : outcome Z :=
  liballuris_device_bulk_transfer e 3 DEFAULT_SEND_TIMEOUT 3 DEFAULT_RECEIVE_TIMEOUT
    (set_out_buf (frame3 21 3 1) w).

Definition liballuris_clear_neg_peak (e : env) (w : world) : outcome Z :=
  liballuris_device_bulk_transfer e 3 DEFAULT_SEND_TIMEOUT 3 DEFAULT_RECEIVE_TIMEOUT
    (set_out_buf (frame3 21 3 2) w).

(** ** State poller *)

(** The [do ... while] of [liballuris_start_measurement], entered with
    [timeout] still to be decremented; returns [ret] and the final
    [timeout]. The function enters with 20, so the case 0 is never reached. *)
Fixpoint start_poll (e : env) (timeout : nat) (state : Z) (w : world) : outcome (Z * nat) :=
  match timeout with
  | O => Ret (0, O) w
  | S timeout =>
      bind (liballuris_read_state e timeout state 600 w)
        (fun '(ret, state) w =>
           let w := if negb (measuring state) then log (Usleep 20000) w else w in
           if (ret =? 0) && negb (Nat.eqb timeout 0) && negb (measuring state)
           then start_poll e timeout state w
           else Ret (ret, timeout) w)
  end.

Definition liballuris_start_measurement (e : env) (w : world) : outcome Z :=
  let w := set_out_buf (frame3 28 3 1) w in
  bind (liballuris_device_bulk_transfer e 3 DEFAULT_SEND_TIMEOUT 3 DEFAULT_RECEIVE_TIMEOUT w)
    (fun ret w =>
       if ret =? LIBALLURIS_SUCCESS then
         bind (start_poll e 20 (junk_state e) w)
           (fun '(ret, timeout) w =>
              if Nat.eqb timeout 0 then Ret LIBALLURIS_DEVICE_BUSY w else Ret ret w)
       else Ret ret w).

(** The loop of [liballuris_stop_measurement]; it enters with 10. *)
Fixpoint stop_poll (e : env) (timeout : nat) (state : Z) (w : world) : outcome (Z * nat) :=
  match timeout with
  | O => Ret (0, O) w
  | S timeout =>
      bind (liballuris_read_state e timeout state 200 w)
        (fun '(ret, state) w =>
           let w := if measuring state then log (Usleep 20000) w else w in
           if (ret =? 0) && negb (Nat.eqb timeout 0) && measuring state
           then stop_poll e timeout state w
           else Ret (ret, timeout) w)
  end.

Definition liballuris_stop_measurement (e : env) (w : world) : outcome Z :=
  let w := set_out_buf (frame3 28 3 0) w in
  bind (liballuris_device_bulk_transfer e 3 DEFAULT_SEND_TIMEOUT 3 DEFAULT_RECEIVE_TIMEOUT w)
    (fun ret w =>
       if ret =? LIBUSB_SUCCESS then
         bind (stop_poll e 10 (junk_state e) w)
           (fun '(ret, timeout) w =>
              if Nat.eqb timeout 0 then Ret LIBALLURIS_DEVICE_BUSY w else Ret ret w)
       else Ret ret w).

(** ** Limits and mode *)

(** The receive timeout is 500 ms: the device writes its EEPROM first. *)
Definition liballuris_set_pos_limit (e : env) (limit : Z) (w : world) : outcome Z :=
  let w := set_out_buf (fun b => memcpy_int3 3 limit (frame3 24 6 0 b)) w in
  liballuris_device_bulk_transfer e 6 DEFAULT_SEND_TIMEOUT 6 500 w.

Definition liballuris_set_neg_limit (e : env) (limit : Z) (w : world) : outcome Z :=
  let w := set_out_buf (fun b => memcpy_int3 3 limit (frame3 24 6 1 b)) w in
  liballuris_device_bulk_transfer e 6 DEFAULT_SEND_TIMEOUT 6 500 w.

Definition liballuris_get_pos_limit (e : env) (limit : Z) (w : world) : outcome (Z * Z) :=
  let w := set_out_buf (frame3 25 6 0) w in
  bind (liballuris_device_bulk_transfer e 6 DEFAULT_SEND_TIMEOUT 6 DEFAULT_RECEIVE_TIMEOUT w)
    (fun ret w =>
       if ret =? LIBALLURIS_SUCCESS then
         Ret (ret, char_to_int24 (junk e 0) (drop 3 (in_buf w))) w
       else Ret (ret, limit) w).

Definition liballuris_get_neg_limit (e : env) (limit : Z) (w : world) : outcome (Z * Z) :=
  let w := set_out_buf (frame3 25 6 1) w in
  bind (liballuris_device_bulk_transfer e 6 DEFAULT_SEND_TIMEOUT 6 DEFAULT_RECEIVE_TIMEOUT w)
    (fun ret w =>
       if ret =? LIBALLURIS_SUCCESS then
         Ret (ret, char_to_int24 (junk e 0) (drop 3 (in_buf w))) w
       else Ret (ret, limit) w).

Definition liballuris_set_mode (e : env) (mode : Z) (w : world) : outcome Z :=
  if (mode <? 0) || (3 <? mode) then
    Ret LIBALLURIS_OUT_OF_RANGE (log (Stderr ModeError) w)
  else
    let w := set_out_buf (frame3 4 3 (to_uchar mode)) w in
    bind (liballuris_device_bulk_transfer e 3 DEFAULT_SEND_TIMEOUT 3 DEFAULT_RECEIVE_TIMEOUT w)
      (fun ret w =>
         if negb (load (in_buf w) 2 =? mode) then Ret LIBALLURIS_DEVICE_BUSY w
         else Ret ret w).

(** [mode] is the content of the caller's output location before the call. *)
Definition liballuris_get_mode (e : env) (mode : Z) (w : world) : outcome (Z * Z) :=
  let w := set_out_buf (fun b => store 1 2 (store 0 5 b)) w in
  bind (liballuris_device_bulk_transfer e 2 DEFAULT_SEND_TIMEOUT 3 DEFAULT_RECEIVE_TIMEOUT w)
    (fun ret w =>
       if ret =? LIBALLURIS_SUCCESS then Ret (ret, load (in_buf w) 2) w
       else Ret (ret, mode) w).

(** ** The library as a whole *)

(** The calls a client can make on an open device, with their arguments
    (for an output parameter: what the location holds before the call). *)
Inductive command :=
| ClearRX (timeout : Z)
| SerialNumber (buf : list Z) (length : Z)
| Digits (v : Z)
| RawValue (value : Z)
| RawPosPeak (peak : Z)
| RawNegPeak (peak : Z)
| ReadState (state : Z) (timeout : Z)
| CyclicMeasurement (enable : Z) (length : Z)
| PollMeasurement (buf : list Z) (length : Z)
| Tare
| ClearPosPeak
| ClearNegPeak
| StartMeasurement
| StopMeasurement
| SetPosLimit (limit : Z)
| SetNegLimit (limit : Z)
| GetPosLimit (limit : Z)
| GetNegLimit (limit : Z)
| SetMode (mode : Z)
| GetMode (mode : Z).

Definition forget {A : Type} (o : outcome A) : outcome unit :=
  bind o (fun _ w => Ret tt w).

Definition run (e : env) (c : command) (w : world) : outcome unit :=
  match c with
  | ClearRX timeout => liballuris_clear_RX e timeout w
  | SerialNumber buf length => forget (liballuris_serial_number e buf length w)
  | Digits v => forget (liballuris_digits e v w)
  | RawValue value => forget (liballuris_raw_value e value w)
  | RawPosPeak peak => forget (liballuris_raw_pos_peak e peak w)
  | RawNegPeak peak => forget (liballuris_raw_neg_peak e peak w)
  | ReadState state timeout => forget (liballuris_read_state e 0 state timeout w)
  | CyclicMeasurement enable length => forget (liballuris_cyclic_measurement e enable length w)
  | PollMeasurement buf length => forget (liballuris_poll_measurement e buf length w)
  | Tare => forget (liballuris_tare e w)
  | ClearPosPeak => forget (liballuris_clear_pos_peak e w)
  | ClearNegPeak => forget (liballuris_clear_neg_peak e w)
  | StartMeasurement => forget (liballuris_start_measurement e w)
  | StopMeasurement => forget (liballuris_stop_measurement e w)
  | SetPosLimit limit => forget (liballuris_set_pos_limit e limit w)
  | SetNegLimit limit => forget (liballuris_set_neg_limit e limit w)
  | GetPosLimit limit => forget (liballuris_get_pos_limit e limit w)
  | GetNegLimit limit => forget (liballuris_get_neg_limit e limit w)
  | SetMode mode => forget (liballuris_set_mode e mode w)
  | GetMode mode => forget (liballuris_get_mode e mode w)
  end.

(** The call did not end in a failed [assert]. *)
Definition assert_holds {A : Type} (o : outcome A) : Prop :=
  match o with
  | AssertFail _ => False
  | _ => True
  end.

End Driver.

(** ** Concrete runs *)

(** A header of the expected shape, for running the model: 64-byte buffers
    (one full-speed bulk packet, the size [liballuris_clear_RX] reads),
    error codes 1, 2 and 4, and the [measuring] flag in bit 23 of the state
    word. *)
Definition sample_header : Header := {|
  DEFAULT_SEND_BUF_LEN := 64;
  DEFAULT_RECV_BUF_LEN := 64;
  DEFAULT_SEND_TIMEOUT := 50;
  DEFAULT_RECEIVE_TIMEOUT := 100;
  LIBALLURIS_MALFORMED_REPLY := 1;
  LIBALLURIS_DEVICE_BUSY := 2;
  LIBALLURIS_OUT_OF_RANGE := 4;
  measuring := fun state => Z.testbit state 23
|}.

(** The world at program start: zeroed static buffers, nothing done yet. *)
Definition boot : world := World (replicate 64 0) (replicate 64 0) 0 [].

(** An environment that plays the transfers of [script] in order and times
    out afterwards, with [hi] in every uninitialised high-order byte. *)
Definition scripted (hi : Z) (script : list xfer) : env :=
  Env (fun i => default (Xfer LIBUSB_ERROR_TIMEOUT 0 []) (script !! i)) (fun _ => hi) 0.

(** A complete write of [n] bytes, and a complete read delivering [data]. *)
Definition wrote (n : Z) : xfer := Xfer LIBUSB_SUCCESS n [].
Definition got (data : list Z) : xfer := Xfer LIBUSB_SUCCESS (Z.of_nat (length data)) data.

(** One state read answered with the state word bytes [b0 b1 b2]. *)
Definition state_reply (b0 b1 b2 : Z) : list xfer :=
  [wrote 3; got [70; 6; 2; b0; b1; b2]].

(** [n] state reads, all answered with an idle state. *)
Fixpoint idle_reads (n : nat) : list xfer :=
  match n with
  | O => []
  | S n => state_reply 0 0 0 ++ idle_reads n
  end.

(** Start is accepted; the device reports Measuring at the 20th state read
    and not before. *)
Definition measuring_at_read_20 : env :=
  scripted 0 ([wrote 3; got [28; 3; 1]] ++ idle_reads 19 ++ state_reply 0 0 128).

(** [n] state reads, all answered with a measuring state. *)
Fixpoint measuring_reads (n : nat) : list xfer :=
  match n with
  | O => []
  | S n => state_reply 0 0 128 ++ measuring_reads n
  end.

(** Stop is accepted while the device measures; it reports not-Measuring at
    the 10th state read and not before. *)
Definition idle_at_read_10 : env :=
  scripted 0 ([wrote 3; got [28; 3; 0]] ++ measuring_reads 9 ++ state_reply 0 0 0).

(** A device that takes two bytes of a three-byte frame while the write is
    reported as successful. *)
Definition short_write : env := scripted 0 [Xfer LIBUSB_SUCCESS 2 []].

(** A device that is measuring: it answers the serial-number and digits
    queries with the field of all ones. *)
Definition busy_device : env := scripted 0 [wrote 3; got [8; 6; 0; 255; 255; 255]].

(** A device whose reply to the digits query starts with another command
    byte than the one sent, in transfers that both succeed. *)
Definition wrong_echo : env := scripted 0 [wrote 3; got [9; 6; 0; 1; 0; 0]].

(** A device that acknowledges a mode change but still reports mode 1. *)
Definition mode_refused : env := scripted 0 [wrote 3; got [4; 3; 1]].

(** A device that acknowledges the cyclic-measurement command. *)
Definition cyclic_accepted : env := scripted 0 [wrote 4; got [1; 4; 2; 19]].

(** A device that delivers a block of two samples, 1 and -2. *)
Definition two_samples : env :=
  scripted 0 [got [2; 11; 0; 0; 0; 1; 0; 0; 254; 255; 255]].

(** Start is accepted and the device stays idle for 19 state reads; the
    20th read fails: its write times out. *)
Definition timeout_at_read_20 : env :=
  scripted 0 ([wrote 3; got [28; 3; 1]] ++ idle_reads 19).

(** A device that acknowledges the positive limit 5. *)
Definition limit_accepted : env := scripted 0 [wrote 6; got [24; 6; 0; 5; 0; 0]].


(** A device that is not there: every transfer times out. *)
Definition unplugged : env := scripted 0 [].

(** A device that takes a three-byte frame and then does not answer. *)
Definition silent_after_write : env := scripted 0 [wrote 3].

(** A device that answers the digits query with three digits. *)
Definition three_digits : env := scripted 0 [wrote 3; got [8; 6; 0; 3; 0; 0]].


(** The world after the digits query has been exchanged with
    [three_digits]. *)
Definition digits_exchanged : world :=
  World (frame3 8 3 3 (out_buf boot)) ([8; 6; 0; 3; 0; 0] ++ replicate 58 0) 2
    [BulkIn 6 100; BulkOut [8; 3; 3] 50].


(** ** Observations on runs *)

Section Observations.
Context `{Header}.

(** The [int] a command returns; [None] for [liballuris_clear_RX], which
    returns nothing. *)
Definition status (e : env) (c : command) (w : world) : outcome (option Z) :=
  match c with
  | ClearRX timeout => bind (liballuris_clear_RX e timeout w) (fun _ w => Ret None w)
  | SerialNumber buf length =>
      bind (liballuris_serial_number e buf length w) (fun p w => Ret (Some (fst p)) w)
  | Digits v => bind (liballuris_digits e v w) (fun p w => Ret (Some (fst p)) w)
  | RawValue value => bind (liballuris_raw_value e value w) (fun p w => Ret (Some (fst p)) w)
  | RawPosPeak peak => bind (liballuris_raw_pos_peak e peak w) (fun p w => Ret (Some (fst p)) w)
  | RawNegPeak peak => bind (liballuris_raw_neg_peak e peak w) (fun p w => Ret (Some (fst p)) w)
  | ReadState state timeout =>
      bind (liballuris_read_state e 0 state timeout w) (fun p w => Ret (Some (fst p)) w)
  | CyclicMeasurement enable length =>
      bind (liballuris_cyclic_measurement e enable length w) (fun r w => Ret (Some r) w)
  | PollMeasurement buf length =>
      bind (liballuris_poll_measurement e buf length w) (fun p w => Ret (Some (fst p)) w)
  | Tare => bind (liballuris_tare e w) (fun r w => Ret (Some r) w)
  | ClearPosPeak => bind (liballuris_clear_pos_peak e w) (fun r w => Ret (Some r) w)
  | ClearNegPeak => bind (liballuris_clear_neg_peak e w) (fun r w => Ret (Some r) w)
  | StartMeasurement => bind (liballuris_start_measurement e w) (fun r w => Ret (Some r) w)
  | StopMeasurement => bind (liballuris_stop_measurement e w) (fun r w => Ret (Some r) w)
  | SetPosLimit limit => bind (liballuris_set_pos_limit e limit w) (fun r w => Ret (Some r) w)
  | SetNegLimit limit => bind (liballuris_set_neg_limit e limit w) (fun r w => Ret (Some r) w)
  | GetPosLimit limit =>
      bind (liballuris_get_pos_limit e limit w) (fun p w => Ret (Some (fst p)) w)
  | GetNegLimit limit =>
      bind (liballuris_get_neg_limit e limit w) (fun p w => Ret (Some (fst p)) w)
  | SetMode mode => bind (liballuris_set_mode e mode w) (fun r w => Ret (Some r) w)
  | GetMode mode => bind (liballuris_get_mode e mode w) (fun p w => Ret (Some (fst p)) w)
  end.

(** An outgoing frame has at least two bytes and carries its own length
    in the second. *)
Definition wire_ok (ev : event) : Prop :=
  match ev with
  | BulkOut data _ => (2 <= length data)%nat /\ load data 1 = Z.of_nat (length data)
  | _ => True
  end.

(** A sleep lasts 20 ms. *)
Definition nap_ok (ev : event) : Prop :=
  match ev with
  | Usleep usec => usec = 20000
  | _ => True
  end.

(** The number of [usleep] calls in a stretch of trace. *)
Fixpoint sleeps (t : list event) : nat :=
  match t with
  | [] => O
  | Usleep _ :: t => S (sleeps t)
  | _ :: t => sleeps t
  end.

(** The most bus transfers and the most sleeps a command makes. *)
Definition transfer_budget (c : command) : nat :=
  match c with
  | ClearRX _ | PollMeasurement _ _ => 1
  | StartMeasurement => 42
  | StopMeasurement => 22
  | _ => 2
  end.

Definition sleep_budget (c : command) : nat :=
  match c with
  | StartMeasurement => 20
  | StopMeasurement => 10
  | _ => 0
  end.

(** What a stretch of a run from [w] to [w'] has done at most: [n]
    transfers and [s] sleeps of 20 ms each, with the buffers at their
    lengths, the trace only extended, and, on an [out_buf] of the declared
    capacity, every frame sent carrying its length. *)
Definition effect (n s : nat) (w w' : world) : Prop :=
  length (out_buf w') = length (out_buf w)
  /\ length (in_buf w') = length (in_buf w)
  /\ (xfers w <= xfers w' <= xfers w + n)%nat
  /\ exists later,
       trace w' = later ++ trace w
       /\ (Z.of_nat (length (out_buf w)) = DEFAULT_SEND_BUF_LEN -> Forall wire_ok later)
       /\ Forall nap_ok later
       /\ (sleeps later <= s)%nat.

(** [effect] for whatever world a call returns in. *)
Definition effect_of {A : Type} (n s : nat) (w : world) (o : outcome A) : Prop :=
  forall a w', o = Ret a w' -> effect n s w w'.

End Observations.


(** A device that accepts start and measures at the third state read. *)
Definition measuring_at_read_3 : env :=
  scripted 0 ([wrote 3; got [28; 3; 1]] ++ idle_reads 2 ++ state_reply 0 0 128).


Section Capacity.
Context `{Header}.

(** The call came back to its caller. *)
Definition returns {A : Type} (o : outcome A) : Prop := exists a w', o = Ret a w'.

(** The one command whose receive length depends on an argument asks for
    no more than [in_buf] holds. *)
Definition within_capacity (c : command) : Prop :=
  match c with
  | PollMeasurement _ length => 0 <= length /\ 5 + 3 * length <= DEFAULT_RECV_BUF_LEN
  | _ => True
  end.

End Capacity.


(** Which commands have a path to each of the library's own codes. *)
Definition may_be_malformed (c : command) : Prop :=
  match c with
  | PollMeasurement _ _ => False
  | _ => True
  end.

Definition may_be_busy (c : command) : Prop :=
  match c with
  | SerialNumber _ _ | Digits _ | StartMeasurement | StopMeasurement | SetMode _ => True
  | _ => False
  end.

Definition may_be_out_of_range (c : command) : Prop :=
  match c with
  | CyclicMeasurement _ _ | SetMode _ => True
  | _ => False
  end.


Section Outputs.
Context `{Header}.

(** The queries with an [int] output location: what the location holds
    before the call, and the call. *)
Definition int_query (e : env) (c : command) (w : world) : option (Z * outcome (Z * Z)) :=
  match c with
  | Digits v => Some (v, liballuris_digits e v w)
  | RawValue value => Some (value, liballuris_raw_value e value w)
  | RawPosPeak peak => Some (peak, liballuris_raw_pos_peak e peak w)
  | RawNegPeak peak => Some (peak, liballuris_raw_neg_peak e peak w)
  | ReadState state timeout => Some (state, liballuris_read_state e 0 state timeout w)
  | GetPosLimit limit => Some (limit, liballuris_get_pos_limit e limit w)
  | GetNegLimit limit => Some (limit, liballuris_get_neg_limit e limit w)
  | GetMode mode => Some (mode, liballuris_get_mode e mode w)
  | _ => None
  end.

(** The field of the reply in [in_buf] that such a query decodes. *)
Definition reply_field (e : env) (c : command) (w : world) : Z :=
  match c with
  | GetMode _ => load (in_buf w) 2
  | _ => char_to_int24 (junk e 0) (drop 3 (in_buf w))
  end.

End Outputs.




(** A device that answers the serial-number query with P.25412. *)
Definition serial_P_25412 : env := scripted 0 [wrote 3; got [8; 6; 0; 68; 99; 15]].


(** [r] is the code libusb gave for one of the transfers made between [w]
    and [w']. *)
Definition from_libusb (e : env) (w w' : world) (r : Z) : Prop :=
  exists i, (xfers w <= i < xfers w')%nat /\ r = rc (usb e i).


(** ** Error names: [liballuris_error_name] *)

Section ErrorNames.
Context `{Header}.

(** [libusb_error_name] is libusb's. The four [case] labels of the
    [switch] are tried in the order written; C requires them distinct, and
    then the order does not matter. *)
Definition liballuris_error_name (libusb_error_name : Z -> string) (error_code : Z) : string :=
  let error := error_code in
  if error <? 0 then libusb_error_name error
  else if error =? LIBALLURIS_SUCCESS then "LIBALLURIS_SUCCESS"%string
  else if error =? LIBALLURIS_MALFORMED_REPLY then "LIBALLURIS_MALFORMED_REPLY"%string
  else if error =? LIBALLURIS_DEVICE_BUSY then "LIBALLURIS_DEVICE_BUSY"%string
  else if error =? LIBALLURIS_OUT_OF_RANGE then "LIBALLURIS_OUT_OF_RANGE"%string
  else "**UNKNOWN**"%string.

End ErrorNames.

(** A [libusb_error_name] that knows the timeout code only. *)
Definition timeout_name (r : Z) : string :=
  if r =? LIBUSB_ERROR_TIMEOUT then "LIBUSB_ERROR_TIMEOUT"%string else "**UNKNOWN**"%string.


(** * Device enumeration: [liballuris_get_device_list], [liballuris_free_device_list], [liballuris_open_device], [liballuris_open_device_with_id] *)

(** A [libusb_device*], and the handle [libusb_open] gives for it. *)
Definition device := nat.

(** The parts of the missing [liballuris.h] that the enumeration uses: the
    length of the array on the stack of the two open functions and the sizes
    of the two [char] arrays of a [struct alluris_device_description]. *)
Class Descriptions := {
  MAX_NUM_DEVICES : nat;
  sizeof_product : nat;
  sizeof_serial_number : nat
}.

(** [struct alluris_device_description]; a null [dev] is [None]. *)
Record alluris_device_description := Description {
  dev : option device;
  product : list Z;
  serial_number : list Z
}.

(** What libusb answers during enumeration. The calls that can fail are
    given the number of libusb calls made before them, so that the same
    call may be answered differently at different times.
    - [get_device_list t]: the count [libusb_get_device_list] returns and
      the devices of the null-terminated array it hands out;
    - [get_device_descriptor d t]: the return code and the fields
      [idVendor], [idProduct] and [iProduct] of the descriptor;
    - [get_string_descriptor_ascii d t]: the return code and the bytes
      written into the caller's array. *)
Record libusb := Libusb {
  get_device_list : nat -> Z * list device;
  get_device_descriptor : device -> nat -> Z * (Z * Z * Z);
  open : device -> nat -> Z;
  claim_interface : device -> nat -> Z;
  get_string_descriptor_ascii : device -> nat -> Z * list Z;
  get_bus_number : device -> Z;
  get_device_address : device -> Z
}.

Definition LIBUSB_ERROR_NOT_FOUND : Z := -5.
Definition LIBUSB_ERROR_BUSY : Z := -6.

Inductive bus_message :=
| DescriptorError (r : Z)
| ClaimError (r : Z)
| OpenError (r : Z).

(** The libusb calls of the enumeration and what it prints, newest first. *)
Inductive bus_event :=
| GetDeviceList
| GetDeviceDescriptor (d : device) (r idVendor idProduct : Z)
| Open (d : device) (r : Z)
| ClaimInterface (d : device) (r : Z)
| GetStringDescriptor (d : device) (index : Z)
| ReleaseInterface (d : device)
| Close (d : device)
| UnrefDevice (d : device)
| BusStderr (m : bus_message).

Definition set_dev (d : option device) (s : alluris_device_description) :
    alluris_device_description :=
  Description d (product s) (serial_number s).

(** [strncpy (dst, src, n)] for a string [src] without embedded NUL: the
    characters of [src], padded with NULs, over exactly [n] cells. *)
Definition strncpy (dst src : list Z) (n : nat) : list Z :=
  blit (take n (src ++ replicate n 0)) dst.

(** [strncmp (a, b, n) == 0]. The characters past the end of a list are the
    NUL that closes a C string. *)
Fixpoint strncmp_equal (a b : list Z) (n : nat) : bool :=
  match n with
  | O => true
  | S n' =>
      if load a 0 =? load b 0 then
        if load a 0 =? 0 then true else strncmp_equal (tl a) (tl b) n'
      else false
  end.

Section Enumeration.
Context `{Header} `{Descriptions}.

(** One round of the [while] loop, for the device [d]. The result is
    [None] where the round writes [alluris_devs[num_alluris_devices]] outside
    the array, which has no defined behaviour. Otherwise it holds: whether
    the round reached the test at the end of the loop body ([continue] skips
    it), the new [num_alluris_devices], the array and the calls made.
    [else if (LIBUSB_ERROR_BUSY)] tests a constant. *)
Definition visit (bus : libusb) (e : env) (read_serial : Z) (d : device) (num : nat)
    (alluris_devs : list alluris_device_description) (t : list bus_event) (w : world)
    : outcome (option (bool * nat * list alluris_device_description * list bus_event)) :=
  let '(r, (idVendor, idProduct, iProduct)) := get_device_descriptor bus d (length t) in
  let t := GetDeviceDescriptor d r idVendor idProduct :: t in
  if r <? 0 then
    Ret (Some (false, num, alluris_devs, BusStderr (DescriptorError r) :: t)) w
  else if (idVendor =? 0x04d8) && (idProduct =? 0xfc30) then
    match alluris_devs !! num with
    | None => Ret None w
    | Some slot =>
        let slot := set_dev (Some d) slot in
        let alluris_devs := <[num := slot]> alluris_devs in
        let r := open bus d (length t) in
        let t := Open d r :: t in
        if r =? LIBUSB_SUCCESS then
          let r := claim_interface bus d (length t) in
          let t := ClaimInterface d r :: t in
          if r =? LIBUSB_SUCCESS then
            let '(product', t) :=
              if negb (iProduct =? 0) then
                (blit (take sizeof_product
                         (snd (get_string_descriptor_ascii bus d (length t))))
                   (product slot),
                 GetStringDescriptor d iProduct :: t)
              else
                (strncpy (product slot) (chars "No product information available")
                   sizeof_product, t) in
            bind
              (if negb (read_serial =? 0) then
                 bind (liballuris_serial_number e (serial_number slot)
                         (Z.of_nat sizeof_serial_number) w)
                   (fun p w => Ret (snd p) w)
               else Ret (serial_number slot) w)
              (fun serial w =>
                 Ret (Some (true, S num,
                            <[num := Description (Some d) product' serial]> alluris_devs,
                            Close d :: ReleaseInterface d :: t)) w)
          else if negb (LIBUSB_ERROR_BUSY =? 0) then
            Ret (Some (true, num, alluris_devs, t)) w
          else
            Ret (Some (true, num, alluris_devs, BusStderr (ClaimError r) :: t)) w
        else
          Ret (Some (true, num, alluris_devs, BusStderr (OpenError r) :: t)) w
    end
  else
    Ret (Some (true, num, alluris_devs, UnrefDevice d :: t)) w.

(** [while ((dev = devs[i++]) != NULL)] over the devices still to come,
    with [if (num_alluris_devices == length) return length;] at the end of
    the body; [length] is the number of elements of [alluris_devs]. *)
Fixpoint scan (bus : libusb) (e : env) (read_serial : Z) (devs : list device) (num : nat)
    (alluris_devs : list alluris_device_description) (t : list bus_event) (w : world)
    : outcome (option (nat * list alluris_device_description * list bus_event)) :=
  match devs with
  | [] => Ret (Some (num, alluris_devs, t)) w
  | d :: devs' =>
      bind (visit bus e read_serial d num alluris_devs t w)
        (fun round w =>
           match round with
           | None => Ret None w
           | Some (tested, num, alluris_devs, t) =>
               if tested && Nat.eqb num (length alluris_devs)
               then Ret (Some (num, alluris_devs, t)) w
               else scan bus e read_serial devs' num alluris_devs t w
           end)
  end.

(** [alluris_devs] is the caller's array of [length] elements. The result
    is the returned [int], the array and the calls made. *)
Definition liballuris_get_device_list (bus : libusb) (e : env)
    (alluris_devs : list alluris_device_description) (read_serial : Z)
    (t : list bus_event) (w : world)
    : outcome (option (Z * list alluris_device_description * list bus_event)) :=
  let alluris_devs := map (set_dev None) alluris_devs in
  let '(cnt, devs) := get_device_list bus (length t) in
  let t := GetDeviceList :: t in
  if 0 <? cnt then
    bind (scan bus e read_serial devs 0 alluris_devs t w)
      (fun found w =>
         match found with
         | None => Ret None w
         | Some (num, alluris_devs, t) =>
             Ret (Some (to_int (to_size_t (Z.of_nat num)), alluris_devs, t)) w
         end)
  else Ret (Some (to_int (to_size_t 0), alluris_devs, t)) w.

(** [alluris_devs] is the caller's array of [length] elements. *)
Fixpoint liballuris_free_device_list (alluris_devs : list alluris_device_description)
    (t : list bus_event) : list alluris_device_description * list bus_event :=
  match alluris_devs with
  | [] => ([], t)
  | slot :: rest =>
      match dev slot with
      | Some d =>
          let '(rest, t) := liballuris_free_device_list rest (UnrefDevice d :: t) in
          (set_dev None slot :: rest, t)
      | None =>
          let '(rest, t) := liballuris_free_device_list rest t in
          (slot :: rest, t)
      end
  end.

(** What the array [alluris_devs] on the stack of the open functions holds
    before it is written: [dev], [product] and [serial_number] of element
    [k]. *)
Record stack := Stack {
  stack_dev : nat -> option device;
  stack_product : nat -> nat -> Z;
  stack_serial_number : nat -> nat -> Z
}.

Definition on_stack (s : stack) : list alluris_device_description :=
  map (fun k => Description (stack_dev s k)
                  (map (stack_product s k) (seq 0 sizeof_product))
                  (map (stack_serial_number s k) (seq 0 sizeof_serial_number)))
    (seq 0 MAX_NUM_DEVICES).

(** [for (k = 0; k < cnt; k++) if (wanted (alluris_devs[k])) dev = alluris_devs[k].dev;]
    over the elements from [k] on, with [cnt - k] rounds left. *)
Fixpoint select (wanted : alluris_device_description -> bool)
    (alluris_devs : list alluris_device_description) (rounds : nat) (found : option device)
    : option device :=
  match rounds, alluris_devs with
  | S rounds', slot :: rest =>
      select wanted rest rounds' (if wanted slot then dev slot else found)
  | _, _ => found
  end.

(** The end of both open functions, from [if (! dev)] on. *)
Definition open_found (bus : libusb) (found : option device)
    (alluris_devs : list alluris_device_description) (t : list bus_event)
    : Z * list alluris_device_description * list bus_event :=
  match found with
  | None => (LIBUSB_ERROR_NOT_FOUND, alluris_devs, t)
  | Some d =>
      let ret := open bus d (length t) in
      let '(alluris_devs, t) := liballuris_free_device_list alluris_devs (Open d ret :: t) in
      (ret, alluris_devs, t)
  end.

(** [serial_number] is [None] for a null pointer, else the characters of
    the string. The result is the returned code, the array as the call leaves
    it and the calls made; the handle is that of the device of the last
    [Open]. *)
Definition liballuris_open_device (bus : libusb) (e : env) (s : stack)
    (serial : option (list Z)) (t : list bus_event) (w : world)
    : outcome (option (Z * list alluris_device_description * list bus_event)) :=
  bind (liballuris_get_device_list bus e (on_stack s)
          (match serial with Some _ => 1 | None => 0 end) t w)
    (fun listed w =>
       match listed with
       | None => Ret None w
       | Some (cnt, alluris_devs, t) =>
           let found :=
             if 1 <=? cnt then
               match serial with
               | None => alluris_devs !! 0%nat ≫= dev
               | Some text =>
                   select (fun slot => strncmp_equal text (serial_number slot)
                                         sizeof_serial_number)
                     alluris_devs (Z.to_nat cnt) None
               end
             else None in
           Ret (Some (open_found bus found alluris_devs t)) w
       end).

(** The two tests of the loop read the bus number and the address of
    [alluris_devs[k].dev]; for a null [dev] the model takes them as not
    matching. *)
Definition liballuris_open_device_with_id (bus : libusb) (e : env) (s : stack)
    (bus_id device_id : Z) (t : list bus_event) (w : world)
    : outcome (option (Z * list alluris_device_description * list bus_event)) :=
  bind (liballuris_get_device_list bus e (on_stack s) 0 t w)
    (fun listed w =>
       match listed with
       | None => Ret None w
       | Some (cnt, alluris_devs, t) =>
           let found :=
             if 1 <=? cnt then
               select (fun slot =>
                         match dev slot with
                         | Some d => (get_bus_number bus d =? bus_id)
                                     && (get_device_address bus d =? device_id)
                         | None => false
                         end)
                 alluris_devs (Z.to_nat cnt) None
             else None in
           Ret (Some (open_found bus found alluris_devs t)) w
       end).

End Enumeration.

(** The devices whose interface was claimed, and those whose handle was
    closed, oldest first. *)
Fixpoint claimed (t : list bus_event) : list device :=
  match t with
  | [] => []
  | ClaimInterface d r :: t' => if r =? 0 then claimed t' ++ [d] else claimed t'
  | _ :: t' => claimed t'
  end.

Fixpoint closed (t : list bus_event) : list device :=
  match t with
  | [] => []
  | Close d :: t' => closed t' ++ [d]
  | _ :: t' => closed t'
  end.

Fixpoint unreferenced (t : list bus_event) : list device :=
  match t with
  | [] => []
  | UnrefDevice d :: t' => unreferenced t' ++ [d]
  | _ :: t' => unreferenced t'
  end.


(** Four elements on the stack, thirty characters for each text. *)
Definition sample_descriptions : Descriptions := {|
  MAX_NUM_DEVICES := 4;
  sizeof_product := 30;
  sizeof_serial_number := 30
|}.

(** A bus with a hub (device 0) and two Alluris devices (1 and 2), where
    the interface of device 1 is in use by another program. *)
Definition sample_bus : libusb :=
  Libusb
    (fun _ => (3, [0; 1; 2]%nat))
    (fun d _ => if Nat.eqb d 0 then (0, (0x1d6b, 0x0002, 0)) else (0, (0x04d8, 0xfc30, 2)))
    (fun _ _ => LIBUSB_SUCCESS)
    (fun d _ => if Nat.eqb d 1 then LIBUSB_ERROR_BUSY else LIBUSB_SUCCESS)
    (fun _ _ => (7, chars "FMI-S30" ++ [0]))
    (fun _ => 1)
    (fun d => Z.of_nat d + 2).

(** A zeroed stack. *)
Definition zeroed_stack : stack := Stack (fun _ => None) (fun _ _ => 0) (fun _ _ => 0).


(** What the listing of [sample_bus] into a zeroed array returns. *)
Definition sample_listed : option (Z * list alluris_device_description * list bus_event) :=
  Eval vm_compute in
    match liballuris_get_device_list (H := sample_header) (H0 := sample_descriptions)
            sample_bus unplugged (on_stack (H0 := sample_descriptions) zeroed_stack) 0 []
            boot with
    | Ret res _ => res
    | _ => None
    end.


(** A measuring device as [busy_device], met while the uninitialised
    high-order byte of [char_to_uint24] holds 2. *)
Definition stale_busy_device : env := scripted 2 [wrote 3; got [8; 6; 0; 255; 255; 255]].


(** The world after a start on [measuring_at_read_3]. *)
Definition started : world :=
  Eval vm_compute in
    match liballuris_start_measurement (H := sample_header) measuring_at_read_3 boot with
    | Ret _ w => w
    | _ => boot
    end.


Section StateReads.
Context `{Header}.


End StateReads.


(** * Properties *)

(** ** Buffers *)

Lemma load_drop (buf : list Z) (n i : nat) : load (drop n buf) i = load buf (n + i).
Proof. unfold load. now rewrite lookup_drop. Qed.

Lemma load_store_eq (buf : list Z) (i : nat) (v : Z) :
  (i < length buf)%nat -> load (store i v buf) i = v.
Proof. intros Hi. unfold load, store. now rewrite list_lookup_insert_eq. Qed.

Lemma load_store_ne (buf : list Z) (i j : nat) (v : Z) :
  i <> j -> load (store i v buf) j = load buf j.
Proof. intros Hij. unfold load, store. now rewrite list_lookup_insert_ne. Qed.

Lemma length_store (buf : list Z) (i : nat) (v : Z) : length (store i v buf) = length buf.
Proof. apply length_insert. Qed.

Lemma length_frame3 (a b c : Z) (buf : list Z) : length (frame3 a b c buf) = length buf.
Proof. unfold frame3. now rewrite !length_store. Qed.

Lemma length_memcpy_int3 (off : nat) (v : Z) (buf : list Z) :
  length (memcpy_int3 off v buf) = length buf.
Proof. unfold memcpy_int3. now rewrite !length_store. Qed.

Lemma length_blit (src dst : list Z) : length (blit src dst) = length dst.
Proof.
  revert dst. induction src as [|s src IH]; intros [|d dst]; simpl; auto.
Qed.

(** ** Frame codec *)

(** The three bytes [memcpy] takes from an [int] are the 24 low-order bits. *)
Lemma int_bytes_low24 (v : Z) :
  int_byte v 0 + 256 * int_byte v 1 + 65536 * int_byte v 2 = v mod 16777216.
Proof.
  unfold int_byte. change (2 ^ (8 * Z.of_nat 0)) with 1.
  change (2 ^ (8 * Z.of_nat 1)) with 256. change (2 ^ (8 * Z.of_nat 2)) with 65536.
  Z.div_mod_to_equations. lia.
Qed.

(** What [char_to_int24] reads back from the three bytes a limit setter
    stored at [out_buf + 3], when the fourth byte of its [ret] is [hi]. *)
Lemma char_to_int24_memcpy (hi v : Z) (buf : list Z) :
  (6 <= length buf)%nat ->
  char_to_int24 hi (drop 3 (memcpy_int3 3 v buf)) =
    let ret := to_int (v mod 16777216 + 16777216 * hi) in
    if 8388607 <? ret then ret - 16777216 else ret.
Proof.
  intros Hlen. unfold char_to_int24, char_to_uint24.
  rewrite !load_drop. unfold memcpy_int3. simpl Nat.add.
  rewrite (load_store_ne _ 5 3), (load_store_ne _ 4 3), load_store_eq by (rewrite ?length_store; lia).
  rewrite (load_store_ne _ 5 4), load_store_eq by (rewrite ?length_store; lia).
  rewrite load_store_eq by (rewrite ?length_store; lia).
  now rewrite int_bytes_low24.
Qed.

(** With a zero in the fourth byte of [ret], decoding inverts the limit
    setters' encoding on the whole 24-bit signed range. *)
Lemma char_to_int24_round_trip_zeroed (v : Z) (buf : list Z) :
  -8388608 <= v <= 8388607 -> (6 <= length buf)%nat ->
  char_to_int24 0 (drop 3 (memcpy_int3 3 v buf)) = v.
Proof.
  intros Hv Hlen. rewrite char_to_int24_memcpy by assumption. cbv zeta.
  rewrite Z.mul_0_r, Z.add_0_r. unfold to_int, signed.
  change (2 ^ 32) with 4294967296. change (2 ^ (32 - 1)) with 2147483648.
  assert (H0 : 0 <= v mod 16777216 < 16777216) by (apply Z.mod_pos_bound; lia).
  rewrite (Z.mod_small (v mod 16777216)) by lia.
  destruct (Z.ltb_spec (v mod 16777216) 2147483648) as [_|Hge]; [|lia].
  destruct (Z.ltb_spec 8388607 (v mod 16777216)) as [Hhi|Hlo].
  - assert (Hneg : v < 0).
    { destruct (Z.lt_ge_cases v 0) as [|Hnn]; [assumption|].
      rewrite Z.mod_small in Hhi by lia. lia. }
    replace v with ((v + 16777216) + (-1) * 16777216) at 1 by ring.
    rewrite Z.mod_add by lia. rewrite Z.mod_small by lia. ring.
  - assert (Hnn : 0 <= v).
    { destruct (Z.lt_ge_cases v 0) as [Hneg|]; [|assumption].
      replace v with ((v + 16777216) + (-1) * 16777216) in Hlo at 1 by ring.
      rewrite Z.mod_add in Hlo by lia. rewrite Z.mod_small in Hlo by lia. lia. }
    apply Z.mod_small. lia.
Qed.

(** Any other value of that byte breaks the round trip somewhere in the
    range: at -1 when the byte is 1, at 5 otherwise. *)
Lemma char_to_int24_round_trip_needs_zero (hi : Z) :
  0 < hi < 256 ->
  exists v, -8388608 <= v <= 8388607
    /\ char_to_int24 hi (drop 3 (memcpy_int3 3 v [24; 6; 0; 0; 0; 0])) <> v.
Proof.
  intros Hhi. destruct (Z.eq_dec hi 1) as [->|Hne].
  - exists (-1). split; [lia|]. vm_compute. discriminate.
  - exists 5. split; [lia|].
    change (drop 3 (memcpy_int3 3 5 [24; 6; 0; 0; 0; 0])) with [5; 0; 0].
    unfold char_to_int24, char_to_uint24, to_int, signed, load. simpl lookup. simpl default.
    change (2 ^ 32) with 4294967296. change (2 ^ (32 - 1)) with 2147483648.
    rewrite Z.mod_small by lia.
    destruct (Z.ltb_spec (5 + 256 * 0 + 65536 * 0 + 16777216 * hi) 2147483648);
      match goal with
      | |- context [8388607 <? ?x] => destruct (Z.ltb_spec 8388607 x)
      end; lia.
Qed.

(** C3, at a failing input. The limit setters encode 5 as the bytes 5, 0, 0.
    [char_to_int24] reads them back into an [int] whose fourth byte it never
    writes: with a 2 left there it returns 5 + 2^24, with 255 it returns
    5 - 2^24, with 0 the encoded 5. *)
Theorem char_to_int24_stale_high_byte :
  drop 3 (memcpy_int3 3 5 [24; 6; 0; 0; 0; 0]) = [5; 0; 0]
  /\ char_to_int24 2 [5; 0; 0] = 16777221
  /\ char_to_int24 255 [5; 0; 0] = -16777211
  /\ char_to_int24 0 [5; 0; 0] = 5.
Proof. repeat split; vm_compute; reflexivity. Qed.

(** ** Transaction engine *)

Section TransactionEngine.
Context `{Header}.

Ltac engine :=
  unfold liballuris_device_bulk_transfer, bulk_in, bulk_out, log; simpl.

Ltac branch :=
  match goal with
  | |- context [if ?b then _ else _] => destruct b eqn:?; simpl
  end.

(** Within the capacities and with the frame length in place, a
    transaction returns; it leaves [out_buf] alone and [in_buf] at its
    length. *)
Lemma bulk_transfer_returns (e : env) (send_len st reply_len rt : Z) (w : world) :
  send_len <= DEFAULT_SEND_BUF_LEN -> reply_len <= DEFAULT_RECV_BUF_LEN ->
  (0 < send_len -> load (out_buf w) 1 = send_len) ->
  exists r w', liballuris_device_bulk_transfer e send_len st reply_len rt w = Ret r w'
    /\ out_buf w' = out_buf w /\ length (in_buf w') = length (in_buf w).
Proof.
  intros Hs Hr Hframe. engine.
  destruct (Z.ltb_spec DEFAULT_SEND_BUF_LEN send_len); [lia|].
  destruct (Z.ltb_spec DEFAULT_RECV_BUF_LEN reply_len); [lia|].
  destruct (Z.ltb_spec 0 send_len) as [Hpos|_].
  - rewrite (Hframe Hpos), Z.eqb_refl.
    repeat branch; eexists _, _; (split; [reflexivity|]); simpl;
      rewrite ?length_blit; auto.
  - repeat branch; eexists _, _; (split; [reflexivity|]); simpl;
      rewrite ?length_blit; auto.
Qed.

(** A call that returns leaves [out_buf] alone and [in_buf] at its length,
    whatever the lengths asked for. *)
Lemma bulk_transfer_frame (e : env) (send_len st reply_len rt : Z) (w w' : world) (r : Z) :
  liballuris_device_bulk_transfer e send_len st reply_len rt w = Ret r w' ->
  out_buf w' = out_buf w /\ length (in_buf w') = length (in_buf w).
Proof.
  engine. repeat branch; intros Heq; inversion Heq; subst; simpl;
    rewrite ?length_blit; auto.
Qed.

(** The [assert] of the engine holds as soon as the frame length is in
    place for every length the capacity check lets through. *)
Lemma bulk_transfer_assert (e : env) (send_len st reply_len rt : Z) (w : world) :
  (0 < send_len <= DEFAULT_SEND_BUF_LEN -> load (out_buf w) 1 = send_len) ->
  assert_holds (liballuris_device_bulk_transfer e send_len st reply_len rt w).
Proof.
  intros Hframe. engine.
  destruct (Z.ltb_spec DEFAULT_SEND_BUF_LEN send_len); [exact I|].
  destruct (Z.ltb_spec DEFAULT_RECV_BUF_LEN reply_len); [exact I|].
  destruct (Z.ltb_spec 0 send_len) as [Hpos|_].
  - rewrite Hframe, Z.eqb_refl by lia. repeat branch; exact I.
  - repeat branch; exact I.
Qed.

(** When libusb reports 0 or a negative code for every transfer, a
    transaction returns 0, a negative code, or the malformed-reply code. *)
Lemma bulk_transfer_codes (e : env) (send_len st reply_len rt : Z) (w w' : world) (r : Z) :
  (forall i, rc (usb e i) <= 0) ->
  liballuris_device_bulk_transfer e send_len st reply_len rt w = Ret r w' ->
  r = 0 \/ r < 0 \/ r = LIBALLURIS_MALFORMED_REPLY.
Proof.
  intros Hrc. engine.
  pose proof (Hrc (xfers w)). pose proof (Hrc (S (xfers w))).
  repeat branch; intros Heq; inversion Heq; subst; auto; lia.
Qed.

(** After a write that libusb reports as failed or short, nothing is
    read: the call returns libusb's code with one transfer made. *)
Lemma bulk_transfer_write_failure (e : env) (send_len st reply_len rt : Z) (w : world) :
  0 < send_len <= DEFAULT_SEND_BUF_LEN -> reply_len <= DEFAULT_RECV_BUF_LEN ->
  load (out_buf w) 1 = send_len ->
  rc (usb e (xfers w)) <> LIBUSB_SUCCESS \/ actual (usb e (xfers w)) <> send_len ->
  liballuris_device_bulk_transfer e send_len st reply_len rt w =
    Ret (rc (usb e (xfers w)))
      (World (out_buf w) (in_buf w) (S (xfers w))
         (Stderr WriteError :: BulkOut (take (Z.to_nat send_len) (out_buf w)) st :: trace w)).
Proof.
  intros Hs Hr Hframe Hfail. engine.
  destruct (Z.ltb_spec DEFAULT_SEND_BUF_LEN send_len); [lia|].
  destruct (Z.ltb_spec DEFAULT_RECV_BUF_LEN reply_len); [lia|].
  destruct (Z.ltb_spec 0 send_len); [|lia].
  rewrite Hframe, Z.eqb_refl.
  destruct (Z.eqb_spec (rc (usb e (xfers w))) LIBUSB_SUCCESS) as [Hrc|Hrc];
    destruct (Z.eqb_spec (actual (usb e (xfers w))) send_len) as [Hact|Hact];
    simpl; try reflexivity.
  destruct Hfail; contradiction.
Qed.

(** After a complete write the reply is read: two transfers, the bytes
    received in [in_buf], at most two lines on [stderr]. A return of 0 then
    tells that the read was reported successful and the reply framed. *)
Lemma bulk_transfer_exchange (e : env) (send_len st reply_len rt : Z) (w : world) :
  0 < send_len <= DEFAULT_SEND_BUF_LEN -> 0 < reply_len <= DEFAULT_RECV_BUF_LEN ->
  load (out_buf w) 1 = send_len ->
  rc (usb e (xfers w)) = LIBUSB_SUCCESS -> actual (usb e (xfers w)) = send_len ->
  exists r msgs,
    liballuris_device_bulk_transfer e send_len st reply_len rt w
    = Ret r
        (World (out_buf w)
           (blit (take (Z.to_nat reply_len) (payload (usb e (S (xfers w))))) (in_buf w))
           (S (S (xfers w)))
           (map Stderr msgs ++ BulkIn reply_len rt
              :: BulkOut (take (Z.to_nat send_len) (out_buf w)) st :: trace w))
    /\ (r = rc (usb e (S (xfers w))) \/ r = LIBALLURIS_MALFORMED_REPLY).
Proof.
  intros Hs Hr Hframe Hrc Hact.
  unfold liballuris_device_bulk_transfer, bulk_out, bulk_in, log. simpl.
  destruct (Z.ltb_spec DEFAULT_SEND_BUF_LEN send_len); [lia|].
  destruct (Z.ltb_spec DEFAULT_RECV_BUF_LEN reply_len); [lia|].
  destruct (Z.ltb_spec 0 send_len); [|lia].
  rewrite Hframe, Hrc, Hact, !Z.eqb_refl. simpl.
  destruct (Z.ltb_spec 0 reply_len); [|lia].
  repeat match goal with
         | |- context [if ?b then _ else _] => destruct b; simpl
         end;
    first
      [ exists (rc (usb e (S (xfers w)))), []; split; [reflexivity | now left]
      | eexists _, [_]; split; [reflexivity | first [now left | now right]]
      | eexists _, [_; _]; split; [reflexivity | first [now left | now right]] ].
Qed.

(** C1, at the failing input. A write that moves fewer bytes than asked,
    and that libusb reports with [LIBUSB_SUCCESS], makes the transaction
    print its write error and return 0, the success code: no read is made
    and no reply is validated, so a return of 0 does not tell that
    [send_len] bytes were sent. *)
Theorem short_write_returns_success (e : env) (send_len st reply_len rt : Z) (w : world) :
  0 < send_len <= DEFAULT_SEND_BUF_LEN -> reply_len <= DEFAULT_RECV_BUF_LEN ->
  load (out_buf w) 1 = send_len ->
  rc (usb e (xfers w)) = LIBUSB_SUCCESS ->
  actual (usb e (xfers w)) < send_len ->
  liballuris_device_bulk_transfer e send_len st reply_len rt w =
    Ret LIBALLURIS_SUCCESS
      (World (out_buf w) (in_buf w) (S (xfers w))
         (Stderr WriteError :: BulkOut (take (Z.to_nat send_len) (out_buf w)) st :: trace w)).
Proof.
  intros Hs Hr Hframe Hrc Hact.
  rewrite bulk_transfer_write_failure by (auto; right; lia).
  now rewrite Hrc.
Qed.

(** C2. In a transaction that sent its frame and whose read libusb reports
    with [LIBUSB_SUCCESS], a reply whose first byte is not the first byte
    sent, or whose second byte is not the number of bytes received, makes
    the call return [LIBALLURIS_MALFORMED_REPLY] in place of the 0 of the
    transport. *)
Theorem malformed_reply_precedence (e : env) (send_len st reply_len rt : Z) (w : world) :
  let sent := usb e (xfers w) in
  let reply := usb e (S (xfers w)) in
  let received := blit (take (Z.to_nat reply_len) (payload reply)) (in_buf w) in
  0 < send_len <= DEFAULT_SEND_BUF_LEN -> 0 < reply_len <= DEFAULT_RECV_BUF_LEN ->
  load (out_buf w) 1 = send_len ->
  rc sent = LIBUSB_SUCCESS -> actual sent = send_len ->
  rc reply = LIBUSB_SUCCESS ->
  load received 0 <> load (out_buf w) 0 \/ load received 1 <> actual reply ->
  exists w',
    liballuris_device_bulk_transfer e send_len st reply_len rt w
      = Ret LIBALLURIS_MALFORMED_REPLY w'
    /\ in_buf w' = received /\ xfers w' = S (S (xfers w))
    /\ head (trace w') = Some (Stderr MalformedReplyError).
Proof.
  intros sent reply received Hs Hr Hframe Hrc Hact Hrc' Hbad.
  subst sent reply received. engine.
  destruct (Z.ltb_spec DEFAULT_SEND_BUF_LEN send_len); [lia|].
  destruct (Z.ltb_spec DEFAULT_RECV_BUF_LEN reply_len); [lia|].
  destruct (Z.ltb_spec 0 send_len); [|lia].
  rewrite Hframe, Hrc, Hact, !Z.eqb_refl. simpl.
  destruct (Z.ltb_spec 0 reply_len); [|lia].
  rewrite Hrc'. simpl.
  set (inb := blit _ _) in *.
  assert (Hcheck : negb (load inb 0 =? load (out_buf w) 0)
                   || negb (load inb 1 =? actual (usb e (S (xfers w)))) = true).
  { apply orb_true_iff. destruct Hbad as [Hb|Hb]; [left|right];
      apply negb_true_iff, Z.eqb_neq; exact Hb. }
  destruct (negb (actual (usb e (S (xfers w))) =? reply_len)); simpl;
    rewrite Hcheck; eexists; repeat split.
Qed.

(** What a return of 0 does tell after a complete write and an attempted
    read: libusb reported the read with 0, and the reply carries the command
    byte sent and, in its length byte, the number of bytes received. *)
Lemma bulk_transfer_success_framing (e : env) (send_len st reply_len rt : Z) (w w' : world) :
  LIBALLURIS_MALFORMED_REPLY <> 0 ->
  0 < send_len -> 0 < reply_len ->
  liballuris_device_bulk_transfer e send_len st reply_len rt w = Ret 0 w' ->
  actual (usb e (xfers w)) = send_len ->
  rc (usb e (xfers w)) = 0
  /\ rc (usb e (S (xfers w))) = 0
  /\ load (in_buf w') 0 = load (out_buf w) 0
  /\ load (in_buf w') 1 = actual (usb e (S (xfers w))).
Proof.
  intros Hm Hs Hr. engine.
  destruct (Z.ltb_spec 0 send_len); [|lia]. destruct (Z.ltb_spec 0 reply_len); [|lia].
  repeat branch; intros Heq Hact; try discriminate Heq;
    injection Heq as Hr0 Hw'; rewrite <- Hw'; simpl in *;
    repeat match goal with
      | Hb : _ || _ = false |- _ => apply orb_false_iff in Hb as [? ?]
      | Hb : _ || _ = true |- _ => apply orb_true_iff in Hb as [?|?]
      | Hb : _ && _ = false |- _ => apply andb_false_iff in Hb as [?|?]
      | Hb : _ && _ = true |- _ => apply andb_true_iff in Hb as [? ?]
      | Hb : negb _ = false |- _ => apply negb_false_iff in Hb
      | Hb : negb _ = true |- _ => apply negb_true_iff in Hb
      | Hb : (_ =? _) = true |- _ => apply Z.eqb_eq in Hb
      | Hb : (_ =? _) = false |- _ => apply Z.eqb_neq in Hb
      end;
    unfold LIBUSB_SUCCESS, LIBUSB_ERROR_OVERFLOW in *; try discriminate;
    first [ exfalso; congruence | repeat split; congruence ].
Qed.

(** A transaction with a frame to send starts with the write of that
    frame. *)
Lemma bulk_transfer_sends (e : env) (send_len st reply_len rt : Z) (w : world) :
  0 < send_len <= DEFAULT_SEND_BUF_LEN -> reply_len <= DEFAULT_RECV_BUF_LEN ->
  load (out_buf w) 1 = send_len ->
  exists r w' later,
    liballuris_device_bulk_transfer e send_len st reply_len rt w = Ret r w'
    /\ trace w' = later ++ BulkOut (take (Z.to_nat send_len) (out_buf w)) st :: trace w
    /\ (xfers w < xfers w')%nat.
Proof.
  intros Hs Hr Hframe. engine.
  destruct (Z.ltb_spec DEFAULT_SEND_BUF_LEN send_len); [lia|].
  destruct (Z.ltb_spec DEFAULT_RECV_BUF_LEN reply_len); [lia|].
  destruct (Z.ltb_spec 0 send_len); [|lia].
  rewrite Hframe, Z.eqb_refl.
  repeat branch;
    first
      [ solve [eexists _, _, []; simpl; (split; [reflexivity|]); simpl;
               (split; [reflexivity | lia])]
      | solve [eexists _, _, [_]; simpl; (split; [reflexivity|]); simpl;
               (split; [reflexivity | lia])]
      | solve [eexists _, _, [_; _]; simpl; (split; [reflexivity|]); simpl;
               (split; [reflexivity | lia])]
      | solve [eexists _, _, [_; _; _]; simpl; (split; [reflexivity|]); simpl;
               (split; [reflexivity | lia])] ].
Qed.

(** A transaction with nothing to send and [reply_len] bytes to read makes
    one read of that length and returns libusb's code for it, after at most
    a line on [stderr]. *)
Lemma bulk_transfer_receive_only (e : env) (reply_len rt : Z) (w : world) :
  0 <= DEFAULT_SEND_BUF_LEN -> 0 < reply_len <= DEFAULT_RECV_BUF_LEN ->
  exists msgs,
    liballuris_device_bulk_transfer e 0 0 reply_len rt w =
      Ret (rc (usb e (xfers w)))
        (World (out_buf w)
           (blit (take (Z.to_nat reply_len) (payload (usb e (xfers w)))) (in_buf w))
           (S (xfers w))
           (map Stderr msgs ++ BulkIn reply_len rt :: trace w)).
Proof.
  intros Hs Hr. engine.
  destruct (Z.ltb_spec DEFAULT_SEND_BUF_LEN 0); [lia|].
  destruct (Z.ltb_spec DEFAULT_RECV_BUF_LEN reply_len); [lia|].
  destruct (Z.ltb_spec 0 reply_len); [|lia].
  rewrite andb_false_r. simpl.
  repeat branch;
    first [ now exists [] | now exists [OverflowError] | now exists [ReadError] ].
Qed.

End TransactionEngine.

(** The short write of three bytes by [short_write], under the digits
    query's frame. *)
Lemma short_write_returns_success_witness :
  liballuris_device_bulk_transfer (H := sample_header) short_write 3 50 6 100
      (set_out_buf (frame3 8 3 3) boot)
    = Ret 0 (World (frame3 8 3 3 (out_buf boot)) (in_buf boot) 1
               [Stderr WriteError; BulkOut [8; 3; 3] 50]).
Proof.
  apply (short_write_returns_success (H := sample_header) short_write 3 50 6 100
           (set_out_buf (frame3 8 3 3) boot));
    first [reflexivity | cbn; lia].
Defined.

(** The reply of [wrong_echo] to the digits query: both transfers succeed,
    the first byte received is 9 where 8 was sent. *)
Lemma malformed_reply_precedence_witness :
  exists w',
    liballuris_device_bulk_transfer (H := sample_header) wrong_echo 3 50 6 100
        (set_out_buf (frame3 8 3 3) boot) = Ret 1 w'
    /\ in_buf w' = [9; 6; 0; 1; 0; 0] ++ replicate 58 0
    /\ xfers w' = 2%nat
    /\ head (trace w') = Some (Stderr MalformedReplyError).
Proof.
  apply (malformed_reply_precedence (H := sample_header) wrong_echo 3 50 6 100
           (set_out_buf (frame3 8 3 3) boot));
    first [reflexivity | cbn; lia | left; vm_compute; discriminate].
Defined.

(** ** Command set *)

Section CommandSet.
Context `{Header}.

Lemma load_frame3_length (a b c : Z) (buf : list Z) :
  (2 <= length buf)%nat -> load (frame3 a b c buf) 1 = b.
Proof.
  intros Hlen. unfold frame3.
  rewrite load_store_ne by lia. apply load_store_eq. rewrite length_store. lia.
Qed.

Lemma serial_number_busy (e : env) (buf : list Z) (length : Z) (w w' : world) :
  liballuris_device_bulk_transfer e 3 DEFAULT_SEND_TIMEOUT 6 DEFAULT_RECEIVE_TIMEOUT
    (set_out_buf (frame3 8 3 6) w) = Ret LIBALLURIS_SUCCESS w' ->
  char_to_uint16 (drop 3 (in_buf w')) = -1 ->
  liballuris_serial_number e buf length w = Ret (LIBALLURIS_DEVICE_BUSY, buf) w'.
Proof.
  intros Hret Hfield. unfold liballuris_serial_number.
  rewrite Hret. simpl. now rewrite Hfield.
Qed.

Lemma digits_busy (e : env) (v : Z) (w w' : world) :
  liballuris_device_bulk_transfer e 3 DEFAULT_SEND_TIMEOUT 6 DEFAULT_RECEIVE_TIMEOUT
    (set_out_buf (frame3 8 3 3) w) = Ret LIBALLURIS_SUCCESS w' ->
  char_to_int24 (junk e 0) (drop 3 (in_buf w')) = -1 ->
  liballuris_digits e v w = Ret (LIBALLURIS_DEVICE_BUSY, -1) w'.
Proof.
  intros Hret Hfield. unfold liballuris_digits.
  rewrite Hret. simpl. now rewrite Hfield.
Qed.

(** The 24-bit field of all ones, as [char_to_int24] reads it with [hi]
    in the uninitialised byte. *)
Lemma char_to_int24_all_ones (hi : Z) (inp : list Z) :
  load inp 0 = 255 -> load inp 1 = 255 -> load inp 2 = 255 ->
  0 <= hi <= 255 ->
  char_to_int24 hi inp
  = if (hi =? 0) || (hi =? 255) then -1
    else if hi <? 128 then 16777216 * hi - 1
    else 16777216 * (hi - 255) - 1.
Proof.
  intros H0 H1 H2 Hhi. unfold char_to_int24, char_to_uint24, to_int, signed.
  rewrite H0, H1, H2.
  rewrite (Z.mod_small _ (2 ^ 32)) by lia.
  change (2 ^ (32 - 1)) with 2147483648. change (2 ^ 32) with 4294967296.
  destruct (Z.eqb_spec hi 0) as [->|Hz]; [reflexivity|].
  destruct (Z.eqb_spec hi 255) as [->|Hf]; [reflexivity|]. cbn [orb].
  destruct (Z.ltb_spec hi 128).
  - destruct (Z.ltb_spec (255 + 256 * 255 + 65536 * 255 + 16777216 * hi) 2147483648); [|lia].
    destruct (Z.ltb_spec 8388607 (255 + 256 * 255 + 65536 * 255 + 16777216 * hi)); lia.
  - destruct (Z.ltb_spec (255 + 256 * 255 + 65536 * 255 + 16777216 * hi) 2147483648); [lia|].
    destruct (Z.ltb_spec 8388607
                (255 + 256 * 255 + 65536 * 255 + 16777216 * hi - 4294967296)); lia.
Qed.

(** C5, at the failing input. The serial-number query answers the 16-bit
    field FF FF at offset 3 of a successful reply with
    [LIBALLURIS_DEVICE_BUSY]. The digits query does so for the 24-bit field
    FF FF FF only when the uninitialised byte of [ret] in [char_to_uint24]
    holds 0 or 255: with any other byte there the decoded value is not -1,
    the test [*v == -1] fails, and the query returns success with that value
    in the output location. *)
Theorem busy_sentinel_missed_on_stale_byte (e : env) (w : world) :
  (forall buf length w',
      liballuris_device_bulk_transfer e 3 DEFAULT_SEND_TIMEOUT 6 DEFAULT_RECEIVE_TIMEOUT
        (set_out_buf (frame3 8 3 6) w) = Ret LIBALLURIS_SUCCESS w' ->
      load (in_buf w') 3 = 255 -> load (in_buf w') 4 = 255 ->
      liballuris_serial_number e buf length w = Ret (LIBALLURIS_DEVICE_BUSY, buf) w')
  /\ (forall v w',
      liballuris_device_bulk_transfer e 3 DEFAULT_SEND_TIMEOUT 6 DEFAULT_RECEIVE_TIMEOUT
        (set_out_buf (frame3 8 3 3) w) = Ret LIBALLURIS_SUCCESS w' ->
      load (in_buf w') 3 = 255 -> load (in_buf w') 4 = 255 -> load (in_buf w') 5 = 255 ->
      0 <= junk e 0 <= 255 ->
      liballuris_digits e v w
      = if (junk e 0 =? 0) || (junk e 0 =? 255)
        then Ret (LIBALLURIS_DEVICE_BUSY, -1) w'
        else Ret (LIBALLURIS_SUCCESS,
                  if junk e 0 <? 128 then 16777216 * junk e 0 - 1
                  else 16777216 * (junk e 0 - 255) - 1) w').
Proof.
  split.
  - intros buf length w' Hret H3 H4. apply serial_number_busy; [exact Hret|].
    unfold char_to_uint16. rewrite !load_drop.
    change (3 + 0)%nat with 3%nat. change (3 + 1)%nat with 4%nat.
    rewrite H3, H4. reflexivity.
  - intros v w' Hret H3 H4 H5 Hhi.
    assert (Hfield : char_to_int24 (junk e 0) (drop 3 (in_buf w'))
                     = if (junk e 0 =? 0) || (junk e 0 =? 255) then -1
                       else if junk e 0 <? 128 then 16777216 * junk e 0 - 1
                       else 16777216 * (junk e 0 - 255) - 1).
    { apply char_to_int24_all_ones; rewrite ?load_drop; assumption. }
    destruct ((junk e 0 =? 0) || (junk e 0 =? 255)) eqn:Hclean.
    + now apply digits_busy.
    + unfold liballuris_digits. rewrite Hret. cbn [bind]. cbv zeta. rewrite Hfield.
      unfold LIBALLURIS_SUCCESS. cbn [Z.eqb].
      apply orb_false_elim in Hclean as [Hz Hf].
      apply Z.eqb_neq in Hz. apply Z.eqb_neq in Hf.
      destruct (Z.ltb_spec (junk e 0) 128);
        match goal with
        | |- context [?x =? -1] => destruct (Z.eqb_spec x (-1)); [lia | reflexivity]
        end.
Qed.

(** C10. On its busy path [liballuris_digits] has stored the decoded -1 in
    the output location, whatever it held; [liballuris_serial_number] on
    its busy path hands the output buffer back as it was. *)
Theorem busy_path_outputs (e : env) (w : world) :
  (forall v w',
      liballuris_device_bulk_transfer e 3 DEFAULT_SEND_TIMEOUT 6 DEFAULT_RECEIVE_TIMEOUT
        (set_out_buf (frame3 8 3 3) w) = Ret LIBALLURIS_SUCCESS w' ->
      char_to_int24 (junk e 0) (drop 3 (in_buf w')) = -1 ->
      liballuris_digits e v w = Ret (LIBALLURIS_DEVICE_BUSY, -1) w')
  /\ (forall buf length w',
      liballuris_device_bulk_transfer e 3 DEFAULT_SEND_TIMEOUT 6 DEFAULT_RECEIVE_TIMEOUT
        (set_out_buf (frame3 8 3 6) w) = Ret LIBALLURIS_SUCCESS w' ->
      char_to_uint16 (drop 3 (in_buf w')) = -1 ->
      liballuris_serial_number e buf length w = Ret (LIBALLURIS_DEVICE_BUSY, buf) w').
Proof.
  split.
  - intros v w'. apply digits_busy.
  - intros buf length w'. apply serial_number_busy.
Qed.

(** C6. A mode outside 0..3 and a packet length outside 0..19 are answered
    with [LIBALLURIS_OUT_OF_RANGE] after a line on [stderr] and nothing
    else: no transfer, no change to the buffers. With length 19 the frame
    1, 4, enable, 19 goes out on the bus. *)
Theorem out_of_range_is_local (e : env) (w : world) :
  (forall mode, mode < 0 \/ 3 < mode ->
     liballuris_set_mode e mode w
       = Ret LIBALLURIS_OUT_OF_RANGE (log (Stderr ModeError) w))
  /\ (forall enable length, length < 0 \/ 19 < length ->
     liballuris_cyclic_measurement e enable length w
       = Ret LIBALLURIS_OUT_OF_RANGE (log (Stderr PacketlenError) w))
  /\ (forall enable,
     4 <= DEFAULT_SEND_BUF_LEN -> 4 <= DEFAULT_RECV_BUF_LEN ->
     (4 <= length (out_buf w))%nat ->
     exists r w' later,
       liballuris_cyclic_measurement e enable 19 w = Ret r w'
       /\ trace w' = later
            ++ BulkOut [1; 4; if enable =? 0 then 0 else 2; 19] DEFAULT_SEND_TIMEOUT
            :: trace w
       /\ (xfers w < xfers w')%nat).
Proof.
  split; [|split].
  - intros mode Hmode. unfold liballuris_set_mode.
    destruct (Z.ltb_spec mode 0); destruct (Z.ltb_spec 3 mode); simpl;
      try reflexivity; lia.
  - intros enable length Hlen. unfold liballuris_cyclic_measurement.
    destruct (Z.ltb_spec length 0); destruct (Z.ltb_spec 19 length); simpl;
      try reflexivity; lia.
  - intros enable Hs Hr Hlen. unfold liballuris_cyclic_measurement. simpl.
    set (w1 := set_out_buf _ w).
    assert (Hout : take 4 (out_buf w1) = [1; 4; if enable =? 0 then 0 else 2; 19]).
    { subst w1. simpl. destruct (out_buf w) as [|a [|b [|c [|d l]]]]; simpl in Hlen; try lia.
      reflexivity. }
    assert (Hframe : load (out_buf w1) 1 = 4).
    { subst w1. simpl. rewrite !load_store_ne by lia.
      apply load_store_eq. rewrite length_store. lia. }
    destruct (bulk_transfer_sends e 4 DEFAULT_SEND_TIMEOUT 4 DEFAULT_RECEIVE_TIMEOUT w1)
      as (r & w' & later & Hret & Htrace & Hx); [lia | lia | exact Hframe |].
    exists r, w', later. change (Z.to_nat 4) with 4%nat in Htrace.
    rewrite Hout in Htrace. auto.
Qed.

(** C7. For a mode in 0..3 the call makes its transaction and then
    compares byte 2 of [in_buf] with the mode asked for: when they differ
    it returns [LIBALLURIS_DEVICE_BUSY], whatever the transaction
    returned, and the transaction's code when they agree. *)
Theorem set_mode_checks_echo (e : env) (mode : Z) (w : world) :
  0 <= mode <= 3 ->
  3 <= DEFAULT_SEND_BUF_LEN -> 3 <= DEFAULT_RECV_BUF_LEN ->
  (3 <= length (out_buf w))%nat ->
  exists ret w',
    liballuris_device_bulk_transfer e 3 DEFAULT_SEND_TIMEOUT 3 DEFAULT_RECEIVE_TIMEOUT
      (set_out_buf (frame3 4 3 mode) w) = Ret ret w'
    /\ (load (in_buf w') 2 <> mode ->
        liballuris_set_mode e mode w = Ret LIBALLURIS_DEVICE_BUSY w')
    /\ (load (in_buf w') 2 = mode -> liballuris_set_mode e mode w = Ret ret w').
Proof.
  intros Hmode Hs Hr Hlen.
  destruct (bulk_transfer_returns e 3 DEFAULT_SEND_TIMEOUT 3 DEFAULT_RECEIVE_TIMEOUT
              (set_out_buf (frame3 4 3 mode) w)) as (ret & w' & Hret & _);
    [lia | lia | intros _; apply load_frame3_length; lia |].
  exists ret, w'. split; [exact Hret|].
  unfold liballuris_set_mode, to_uchar.
  destruct (Z.ltb_spec mode 0); [lia|]. destruct (Z.ltb_spec 3 mode); [lia|]. simpl.
  rewrite Z.mod_small by lia. rewrite Hret. simpl.
  split; intros Hecho.
  - apply Z.eqb_neq in Hecho. now rewrite Hecho.
  - apply Z.eqb_eq in Hecho. now rewrite Hecho.
Qed.

End CommandSet.

(** ** Buffered-sample poll *)

Section Poll.
Context `{Header}.

Lemma length_poll_decode (e : env) (inb : list Z) (n : nat) :
  forall k buf, length (poll_decode e inb n k buf) = length buf.
Proof.
  induction n as [|n IH]; intros k buf; simpl; [reflexivity|].
  now rewrite IH, length_store.
Qed.

(** The decode loop fills the cells [k .. k+n-1] of the caller's array with
    the samples of those indices and leaves the others. *)
Lemma poll_decode_lookup (e : env) (inb : list Z) (n : nat) :
  forall k buf i,
    (k + n <= length buf)%nat ->
    poll_decode e inb n k buf !! i =
      if decide (k <= i < k + n)%nat
      then Some (char_to_int24 (junk e i) (drop (5 + i * 3) inb))
      else buf !! i.
Proof.
  induction n as [|n IH]; intros k buf i Hlen; simpl.
  - case_decide; [lia | reflexivity].
  - rewrite IH by (rewrite length_store; lia). unfold store.
    destruct (decide (i = k)) as [->|Hne].
    + rewrite list_lookup_insert_eq by lia. repeat case_decide; try lia; reflexivity.
    + rewrite list_lookup_insert_ne by congruence.
      repeat case_decide; try lia; reflexivity.
Qed.

(** The receive length reaches the engine unchanged when it fits an [int]. *)
Lemma poll_reply_len (n : nat) :
  5 + 3 * Z.of_nat n < 2147483648 ->
  to_int (to_size_t (5 + Z.of_nat n * 3)) = 5 + 3 * Z.of_nat n.
Proof.
  intros Hn. unfold to_int, to_size_t, signed.
  change (2 ^ 64) with 18446744073709551616. change (2 ^ 32) with 4294967296.
  change (2 ^ (32 - 1)) with 2147483648.
  rewrite (Z.mod_small (5 + Z.of_nat n * 3) 18446744073709551616) by lia.
  rewrite Z.mod_small by lia.
  destruct (Z.ltb_spec (5 + Z.of_nat n * 3) 2147483648); lia.
Qed.

(** Past the capacity of [in_buf] the engine leaves through [exit]: no
    transfer is made and no sample is decoded. *)
Lemma poll_measurement_over_capacity (e : env) (buf : list Z) (n : nat) (w : world) :
  0 <= DEFAULT_SEND_BUF_LEN ->
  DEFAULT_RECV_BUF_LEN < 5 + 3 * Z.of_nat n < 2147483648 ->
  liballuris_poll_measurement e buf (Z.of_nat n) w
    = Exit (-1) (log (Stderr ReplyLenError) w).
Proof.
  intros Hs Hn. unfold liballuris_poll_measurement.
  rewrite poll_reply_len by lia. unfold liballuris_device_bulk_transfer.
  destruct (Z.ltb_spec DEFAULT_SEND_BUF_LEN 0); [lia|].
  destruct (Z.ltb_spec DEFAULT_RECV_BUF_LEN (5 + 3 * Z.of_nat n)); [reflexivity | lia].
Qed.

(** A sample count whose receive length does not fit an [int] reaches the
    engine as another number: for 2^31 samples, [reply_len] is negative, and
    the engine reads nothing and returns 0. The decode loop that follows in
    the C code then runs past [in_buf] and the caller's array, which has no
    defined behaviour and is not stated here. *)
Lemma poll_measurement_length_wraps (e : env) (w : world) :
  0 <= DEFAULT_SEND_BUF_LEN -> -2147483643 <= DEFAULT_RECV_BUF_LEN ->
  to_int (to_size_t (5 + 2147483648 * 3)) = -2147483643
  /\ liballuris_device_bulk_transfer e 0 0 (to_int (to_size_t (5 + 2147483648 * 3))) 2100 w
     = Ret 0 w.
Proof.
  intros Hs Hr.
  assert (Hlen : to_int (to_size_t (5 + 2147483648 * 3)) = -2147483643) by reflexivity.
  split; [exact Hlen|].
  rewrite Hlen.
  unfold liballuris_device_bulk_transfer.
  destruct (Z.ltb_spec DEFAULT_SEND_BUF_LEN 0); [lia|].
  destruct (Z.ltb_spec DEFAULT_RECV_BUF_LEN (-2147483643)); [lia|].
  reflexivity.
Qed.

(** C8, amended. For a sample count [n] whose receive length [5 + 3 n]
    fits the capacity of [in_buf], the call makes one read of exactly
    [5 + 3 n] bytes and no write, and then stores in the cells [0 .. n-1] of
    the caller's array the 24-bit decodes of [in_buf + 5 + 3 k], whatever
    code the transaction returned; that code is what the call returns. *)
Theorem poll_measurement_in_capacity (e : env) (buf : list Z) (n : nat) (w : world) :
  let len := 5 + 3 * Z.of_nat n in
  let reply := usb e (xfers w) in
  let received := blit (take (Z.to_nat len) (payload reply)) (in_buf w) in
  0 <= DEFAULT_SEND_BUF_LEN ->
  len <= DEFAULT_RECV_BUF_LEN -> DEFAULT_RECV_BUF_LEN < 2147483648 ->
  (n <= length buf)%nat ->
  exists msgs buf',
    liballuris_poll_measurement e buf (Z.of_nat n) w =
      Ret (rc reply, buf')
        (World (out_buf w) received (S (xfers w))
           (map Stderr msgs ++ BulkIn len 2100 :: trace w))
    /\ length buf' = length buf
    /\ (forall k, (k < n)%nat ->
          buf' !! k = Some (char_to_int24 (junk e k) (drop (5 + k * 3) received)))
    /\ (forall k, (n <= k)%nat -> buf' !! k = buf !! k).
Proof.
  intros len reply received Hs Hr Hint Hbuf. subst len reply received.
  destruct (bulk_transfer_receive_only e (5 + 3 * Z.of_nat n) 2100 w)
    as [msgs Hret]; [lia | lia |].
  unfold liballuris_poll_measurement.
  rewrite poll_reply_len by lia. rewrite Hret. simpl. rewrite Nat2Z.id.
  eexists msgs, _. split; [reflexivity|]. split; [apply length_poll_decode|].
  split; intros k Hk; rewrite poll_decode_lookup by lia;
    case_decide; try lia; reflexivity.
Qed.

End Poll.

(** C8 as stated fails past the capacity: with 64-byte buffers a request
    for 20 samples asks for 65 bytes, and the call ends in [exit (-1)]
    with nothing read and nothing decoded. *)
Lemma poll_measurement_20_samples_exits :
  liballuris_poll_measurement (H := sample_header) two_samples (replicate 20 7) 20 boot
    = Exit (-1) (World (out_buf boot) (in_buf boot) 0 [Stderr ReplyLenError])
  /\ ~ (exists ret buf' w',
          liballuris_poll_measurement (H := sample_header) two_samples (replicate 20 7) 20 boot
            = Ret (ret, buf') w').
Proof.
  assert (Hexit : liballuris_poll_measurement (H := sample_header) two_samples
                    (replicate 20 7) 20 boot
                  = Exit (-1) (World (out_buf boot) (in_buf boot) 0 [Stderr ReplyLenError]))
    by (vm_compute; reflexivity).
  split; [exact Hexit|].
  intros (ret & buf' & w' & Hret). rewrite Hexit in Hret. discriminate Hret.
Qed.

(** Two samples from [two_samples] into an array of three cells. *)
Lemma poll_measurement_in_capacity_witness :
  exists msgs buf',
    liballuris_poll_measurement (H := sample_header) two_samples [7; 7; 7] 2 boot =
      Ret (0, buf')
        (World (out_buf boot)
           ([2; 11; 0; 0; 0; 1; 0; 0; 254; 255; 255] ++ replicate 53 0) 1
           (map Stderr msgs ++ [BulkIn 11 2100]))
    /\ length buf' = 3%nat
    /\ (forall k, (k < 2)%nat ->
          buf' !! k = Some (char_to_int24 0
                              (drop (5 + k * 3)
                                 ([2; 11; 0; 0; 0; 1; 0; 0; 254; 255; 255] ++ replicate 53 0))))
    /\ (forall k, (2 <= k)%nat -> buf' !! k = [7; 7; 7] !! k).
Proof.
  apply (poll_measurement_in_capacity (H := sample_header) two_samples [7; 7; 7] 2 boot);
    cbn; lia.
Defined.

(** ** The frame-length assertion *)

Section FrameLength.
Context `{Header}.

Lemma assert_holds_bind {A B : Type} (m : outcome A) (k : A -> world -> outcome B) :
  assert_holds m ->
  (forall a w, m = Ret a w -> assert_holds (k a w)) ->
  assert_holds (bind m k).
Proof.
  intros Hm Hk. destruct m as [a w|c w|w]; simpl in *; auto.
Qed.

Lemma assert_holds_forget {A : Type} (o : outcome A) :
  assert_holds o -> assert_holds (forget o).
Proof. destruct o; simpl; auto. Qed.

(** Stores made by the commands put the frame length in place: after them
    byte 1 of a buffer of at least [len] cells holds [len]. *)
Ltac frame_length :=
  intros;
  first
    [ lia
    | simpl; unfold frame3, memcpy_int3; simpl;
      rewrite ?load_store_ne by lia; apply load_store_eq; rewrite ?length_store; lia ].

(** A command that makes one transaction under a frame whose length byte is
    in place, and then only returns. *)
Ltac one_transaction :=
  apply assert_holds_forget;
  first
    [ apply bulk_transfer_assert; frame_length
    | apply assert_holds_bind;
      [ apply bulk_transfer_assert; frame_length
      | intros; simpl; repeat
          match goal with
          | |- context [if ?b then _ else _] => destruct b
          end; exact I ] ].

Lemma read_state_assert (e : env) (k : nat) (state timeout : Z) (w : world) :
  Z.of_nat (length (out_buf w)) = DEFAULT_SEND_BUF_LEN ->
  assert_holds (liballuris_read_state e k state timeout w).
Proof.
  intros Hlen. unfold liballuris_read_state. apply assert_holds_bind.
  - apply bulk_transfer_assert. frame_length.
  - intros a w' _. simpl. destruct (a =? LIBALLURIS_SUCCESS); exact I.
Qed.

Lemma read_state_out_buf (e : env) (k : nat) (state timeout : Z) (w w' : world) (a : Z * Z) :
  liballuris_read_state e k state timeout w = Ret a w' ->
  length (out_buf w') = length (out_buf w).
Proof.
  unfold liballuris_read_state.
  destruct (liballuris_device_bulk_transfer _ _ _ _ _ _) as [r w1|c w1|w1] eqn:Hret;
    simpl; try discriminate.
  apply bulk_transfer_frame in Hret as [Hout _].
  destruct (r =? LIBALLURIS_SUCCESS); intros Heq; inversion Heq; subst;
    rewrite Hout; simpl; apply length_frame3.
Qed.

Lemma start_poll_assert (e : env) (timeout : nat) :
  forall state w,
    Z.of_nat (length (out_buf w)) = DEFAULT_SEND_BUF_LEN ->
    assert_holds (start_poll e timeout state w).
Proof.
  induction timeout as [|timeout IH]; intros state w Hlen; simpl; [exact I|].
  apply assert_holds_bind; [now apply read_state_assert|].
  intros [ret state'] w' Hret. apply read_state_out_buf in Hret.
  destruct (_ && _); [|exact I].
  apply IH. destruct (negb (measuring state')); simpl; now rewrite Hret.
Qed.

Lemma stop_poll_assert (e : env) (timeout : nat) :
  forall state w,
    Z.of_nat (length (out_buf w)) = DEFAULT_SEND_BUF_LEN ->
    assert_holds (stop_poll e timeout state w).
Proof.
  induction timeout as [|timeout IH]; intros state w Hlen; simpl; [exact I|].
  apply assert_holds_bind; [now apply read_state_assert|].
  intros [ret state'] w' Hret. apply read_state_out_buf in Hret.
  destruct (_ && _); [|exact I].
  apply IH. destruct (measuring state'); simpl; now rewrite Hret.
Qed.

(** C9. Every command of the library that sends a frame has stored the
    frame's length in [out_buf[1]] before it calls the transaction engine
    with that length: run on buffers of the declared capacity, no command
    ends in the failed [assert (out_buf[1] == send_len)], whatever the
    device does. *)
Theorem frame_length_assertion_holds (e : env) (c : command) (w : world) :
  Z.of_nat (length (out_buf w)) = DEFAULT_SEND_BUF_LEN ->
  assert_holds (run e c w).
Proof.
  intros Hlen. destruct c; simpl;
    try (unfold liballuris_serial_number, liballuris_digits, liballuris_raw_value,
           liballuris_raw_pos_peak, liballuris_raw_neg_peak, liballuris_read_state,
           liballuris_poll_measurement, liballuris_tare, liballuris_clear_pos_peak,
           liballuris_clear_neg_peak, liballuris_set_pos_limit, liballuris_set_neg_limit,
           liballuris_get_pos_limit, liballuris_get_neg_limit, liballuris_get_mode;
         one_transaction).
  - exact I.
  - unfold liballuris_cyclic_measurement.
    destruct (_ || _); [exact I|]. one_transaction.
  - unfold liballuris_start_measurement. apply assert_holds_forget, assert_holds_bind.
    + apply bulk_transfer_assert. frame_length.
    + intros ret w' Hret. apply bulk_transfer_frame in Hret as [Hout _].
      destruct (ret =? LIBALLURIS_SUCCESS); [|exact I].
      apply assert_holds_bind.
      * apply start_poll_assert. rewrite Hout. simpl. now rewrite length_frame3.
      * intros [r t] w'' _. destruct (Nat.eqb t 0); exact I.
  - unfold liballuris_stop_measurement. apply assert_holds_forget, assert_holds_bind.
    + apply bulk_transfer_assert. frame_length.
    + intros ret w' Hret. apply bulk_transfer_frame in Hret as [Hout _].
      destruct (ret =? LIBUSB_SUCCESS); [|exact I].
      apply assert_holds_bind.
      * apply stop_poll_assert. rewrite Hout. simpl. now rewrite length_frame3.
      * intros [r t] w'' _. destruct (Nat.eqb t 0); exact I.
  - unfold liballuris_set_mode.
    destruct (_ || _); [exact I|]. one_transaction.
Qed.

End FrameLength.

(** [boot] has the buffers of [sample_header]; a limit setter run on it
    passes the assertion and makes its two transfers. *)
Lemma frame_length_assertion_holds_witness :
  assert_holds (run (H := sample_header) limit_accepted (SetPosLimit 5) boot)
  /\ exists w',
       run (H := sample_header) limit_accepted (SetPosLimit 5) boot = Ret tt w'
       /\ trace w' = [BulkIn 6 500; BulkOut [24; 6; 0; 5; 0; 0] 50].
Proof.
  split.
  - apply (frame_length_assertion_holds (H := sample_header) limit_accepted
             (SetPosLimit 5) boot).
    reflexivity.
  - eexists. split; vm_compute; reflexivity.
Defined.

(** ** State poller *)

Section StatePoller.
Context `{Header}.

(** The last pass of the start loop leaves [timeout] at 0, whatever the
    state read returns and reports. *)
Lemma start_poll_last_read (e : env) (state : Z) (w w' : world) (ret : Z) (t : nat) :
  start_poll e 1 state w = Ret (ret, t) w' -> t = 0%nat.
Proof.
  simpl. destruct (liballuris_read_state e 0 state 600 w) as [[r s] w1|c w1|w1];
    simpl; try discriminate.
  rewrite andb_false_r. simpl. intros Heq. now inversion Heq.
Qed.

Lemma stop_poll_last_read (e : env) (state : Z) (w w' : world) (ret : Z) (t : nat) :
  stop_poll e 1 state w = Ret (ret, t) w' -> t = 0%nat.
Proof.
  simpl. destruct (liballuris_read_state e 0 state 200 w) as [[r s] w1|c w1|w1];
    simpl; try discriminate.
  rewrite andb_false_r. simpl. intros Heq. now inversion Heq.
Qed.

(** Before the last pass the loop behaves as announced: a read that
    reports Measuring ends it with 0, and a read that fails ends it with the
    failure's code, both with [timeout] above 0. *)
Lemma start_poll_measuring (e : env) (t : nat) (state s : Z) (w w1 : world) :
  liballuris_read_state e (S t) state 600 w = Ret (0, s) w1 ->
  measuring s = true ->
  start_poll e (S (S t)) state w = Ret (0, S t) w1.
Proof.
  intros Hread Hm. cbn [start_poll]. rewrite Hread. cbn [bind].
  rewrite Hm. reflexivity.
Qed.

Lemma start_poll_read_error (e : env) (t : nat) (state s ret : Z) (w w1 : world) :
  liballuris_read_state e (S t) state 600 w = Ret (ret, s) w1 ->
  ret <> 0 ->
  start_poll e (S (S t)) state w
    = Ret (ret, S t) (if negb (measuring s) then log (Usleep 20000) w1 else w1).
Proof.
  intros Hread Hret. cbn [start_poll]. rewrite Hread. cbn [bind].
  apply Z.eqb_neq in Hret. rewrite Hret. reflexivity.
Qed.

(** A loop that comes back with [timeout] at 0 makes the command return
    [LIBALLURIS_DEVICE_BUSY], whatever [ret] the last state read left. *)
Lemma start_measurement_exhausted (e : env) (w w1 w' : world) (ret : Z) :
  liballuris_device_bulk_transfer e 3 DEFAULT_SEND_TIMEOUT 3 DEFAULT_RECEIVE_TIMEOUT
    (set_out_buf (frame3 28 3 1) w) = Ret LIBALLURIS_SUCCESS w1 ->
  start_poll e 20 (junk_state e) w1 = Ret (ret, 0%nat) w' ->
  liballuris_start_measurement e w = Ret LIBALLURIS_DEVICE_BUSY w'.
Proof.
  intros Hcmd Hpoll. unfold liballuris_start_measurement.
  rewrite Hcmd. cbn [bind]. rewrite Z.eqb_refl, Hpoll. reflexivity.
Qed.

End StatePoller.

(** C4, at failing inputs. Start is accepted and the device reports
    Measuring at the 20th state read, for the first time: the call has
    made its 20 reads (42 transfers), the last reply decodes to a measuring
    state, and the call returns [LIBALLURIS_DEVICE_BUSY], not 0. When the
    20th read fails with a timeout instead, the call returns
    [LIBALLURIS_DEVICE_BUSY] as well, not the timeout. Stop does the same
    at its 10th read. *)
Theorem measurement_poll_last_read :
  (exists w,
      liballuris_start_measurement (H := sample_header) measuring_at_read_20 boot
        = Ret (LIBALLURIS_DEVICE_BUSY (Header := sample_header)) w
      /\ xfers w = 42%nat
      /\ take 6 (in_buf w) = [70; 6; 2; 0; 0; 128]
      /\ measuring (Header := sample_header) (char_to_int24 0 (drop 3 (in_buf w))) = true)
  /\ (exists w,
      liballuris_start_measurement (H := sample_header) timeout_at_read_20 boot
        = Ret (LIBALLURIS_DEVICE_BUSY (Header := sample_header)) w
      /\ xfers w = 41%nat
      /\ rc (usb timeout_at_read_20 40) = LIBUSB_ERROR_TIMEOUT)
  /\ (exists w,
      liballuris_stop_measurement (H := sample_header) idle_at_read_10 boot
        = Ret (LIBALLURIS_DEVICE_BUSY (Header := sample_header)) w
      /\ xfers w = 22%nat
      /\ take 6 (in_buf w) = [70; 6; 2; 0; 0; 0]
      /\ measuring (Header := sample_header) (char_to_int24 0 (drop 3 (in_buf w))) = false).
Proof.
  split; [|split]; eexists; (split; [vm_compute; reflexivity|]);
    repeat split; vm_compute; reflexivity.
Qed.

(** ** The commands on concrete devices *)

(** [stale_busy_device] answers the digits query with the field of all
    ones while the uninitialised byte holds 2: the query returns success and
    stores 33554431. *)
Lemma busy_sentinel_missed_on_stale_byte_witness :
  exists w',
    liballuris_digits (H := sample_header) stale_busy_device 7 boot
    = Ret (0, 33554431) w'.
Proof.
  pose proof (busy_sentinel_missed_on_stale_byte (H := sample_header) stale_busy_device boot)
    as [_ Hdigits].
  eexists.
  rewrite (Hdigits 7 _ eq_refl eq_refl eq_refl eq_refl ltac:(cbn; lia)).
  reflexivity.
Defined.

(** On [busy_device] the digits query overwrites the 7 in its output
    location with -1, and the serial-number query returns the caller's
    buffer 1, 2, 3. *)
Lemma busy_path_outputs_witness :
  (exists w', liballuris_digits (H := sample_header) busy_device 7 boot = Ret (2, -1) w')
  /\ (exists w',
      liballuris_serial_number (H := sample_header) busy_device [1; 2; 3] 3 boot
        = Ret (2, [1; 2; 3]) w').
Proof.
  pose proof (busy_path_outputs (H := sample_header) busy_device boot)
    as [Hdigits Hserial].
  split; eexists.
  - exact (Hdigits 7 _ eq_refl eq_refl).
  - exact (Hserial [1; 2; 3] 3 _ eq_refl eq_refl).
Defined.

(** Mode 4 and packet length 20 are refused on the spot; packet length 19
    puts the frame 1, 4, 2, 19 on the bus. *)
Lemma out_of_range_is_local_witness :
  liballuris_set_mode (H := sample_header) cyclic_accepted 4 boot
    = Ret 4 (log (Stderr ModeError) boot)
  /\ liballuris_cyclic_measurement (H := sample_header) cyclic_accepted 1 20 boot
    = Ret 4 (log (Stderr PacketlenError) boot)
  /\ (exists r w' later,
      liballuris_cyclic_measurement (H := sample_header) cyclic_accepted 1 19 boot
        = Ret r w'
      /\ trace w' = later ++ [BulkOut [1; 4; 2; 19] 50]
      /\ (0 < xfers w')%nat).
Proof.
  pose proof (out_of_range_is_local (H := sample_header) cyclic_accepted boot)
    as (Hmode & Hlen & Hgo).
  split; [|split].
  - apply (Hmode 4). lia.
  - apply (Hlen 1 20). lia.
  - apply (Hgo 1); cbn; lia.
Defined.

(** [mode_refused] echoes mode 1 to a request for mode 2: the call returns
    [LIBALLURIS_DEVICE_BUSY] although the transaction returned 0. *)
Lemma set_mode_checks_echo_witness :
  exists w',
    liballuris_device_bulk_transfer (H := sample_header) mode_refused 3 50 3 100
      (set_out_buf (frame3 4 3 2) boot) = Ret 0 w'
    /\ load (in_buf w') 2 = 1
    /\ liballuris_set_mode (H := sample_header) mode_refused 2 boot = Ret 2 w'.
Proof.
  destruct (set_mode_checks_echo (H := sample_header) mode_refused 2 boot)
    as (ret & w' & Hret & Hbusy & _); [cbn; lia ..|].
  exists w'.
  assert (Hw : Ret ret w' =
               Ret 0 (World (frame3 4 3 2 (out_buf boot))
                        ([4; 3; 1] ++ replicate 61 0) 2
                        [BulkIn 3 100; BulkOut [4; 3; 2] 50])).
  { rewrite <- Hret. vm_compute. reflexivity. }
  injection Hw as -> ->.
  split; [exact Hret|]. split; [reflexivity|].
  apply Hbusy. vm_compute. discriminate.
Defined.

(** ** Sample runs *)

(** A device that measures at the first state read: start returns 0 after
    four transfers and without a sleep. *)
Example start_measurement_first_read :
  exists w,
    liballuris_start_measurement (H := sample_header)
      (scripted 0 ([wrote 3; got [28; 3; 1]] ++ state_reply 0 0 128)) boot = Ret 0 w
    /\ trace w = [BulkIn 6 600; BulkOut [70; 3; 2] 50; BulkIn 3 100; BulkOut [28; 3; 1] 50].
Proof. eexists. split; vm_compute; reflexivity. Qed.

(** A device that measures at the 19th state read: start returns 0. *)
Example start_measurement_read_19 :
  exists w,
    liballuris_start_measurement (H := sample_header)
      (scripted 0 ([wrote 3; got [28; 3; 1]] ++ idle_reads 18 ++ state_reply 0 0 128)) boot
      = Ret 0 w
    /\ xfers w = 40%nat.
Proof. eexists. split; vm_compute; reflexivity. Qed.

(** A device that never measures: start returns device-busy after 20 reads
    and 20 sleeps. *)
Example start_measurement_never :
  exists w,
    liballuris_start_measurement (H := sample_header)
      (scripted 0 ([wrote 3; got [28; 3; 1]] ++ idle_reads 20)) boot = Ret 2 w
    /\ xfers w = 42%nat
    /\ length (List.filter (fun ev => match ev with Usleep _ => true | _ => false end) (trace w))
       = 20%nat.
Proof.
  eexists. split; [vm_compute; reflexivity|]. split; vm_compute; reflexivity.
Qed.

(** A state read that fails before the last pass ends the loop with its
    code: here the second read times out. *)
Example start_measurement_read_error :
  exists w,
    liballuris_start_measurement (H := sample_header)
      (scripted 0 ([wrote 3; got [28; 3; 1]] ++ idle_reads 1)) boot
      = Ret LIBUSB_ERROR_TIMEOUT w
    /\ xfers w = 5%nat.
Proof. eexists. split; vm_compute; reflexivity. Qed.

(** The serial number P.25412, in a buffer of ten characters and cut to a
    buffer of five. *)
Example serial_number_P_25412 :
  exists w,
    liballuris_serial_number (H := sample_header)
      (scripted 0 [wrote 3; got [8; 6; 0; 68; 99; 15]]) (replicate 10 7) 10 boot
      = Ret (0, chars "P.25412" ++ [0; 7; 7]) w.
Proof. eexists. vm_compute. reflexivity. Qed.

Example serial_number_cut :
  exists w,
    liballuris_serial_number (H := sample_header)
      (scripted 0 [wrote 3; got [8; 6; 0; 68; 99; 15]]) (replicate 10 7) 5 boot
      = Ret (0, chars "P.25" ++ [0; 7; 7; 7; 7; 7]) w.
Proof. eexists. vm_compute. reflexivity. Qed.

(** A read that delivers three bytes of eleven and is reported with
    [LIBUSB_SUCCESS]: the poll returns 0 and decodes the two samples from
    what [in_buf] held. *)
Example poll_measurement_short_read :
  exists w,
    liballuris_poll_measurement (H := sample_header)
      (scripted 0 [Xfer LIBUSB_SUCCESS 3 [2; 11; 0]]) [7; 7; 7] 2 boot
      = Ret (0, [0; 0; 7]) w
    /\ trace w = [Stderr ReadError; BulkIn 11 2100].
Proof. eexists. split; vm_compute; reflexivity. Qed.

(** * Further properties of the library *)

(** ** Decoders *)

(** [char_to_uint16] reads two bytes as a little-endian two's complement
    number: the result lies in the range of a [short], and it is the busy
    sentinel -1 for the bytes 255, 255 and for no others. *)
Theorem char_to_uint16_little_endian (b0 b1 : Z) :
  0 <= b0 < 256 -> 0 <= b1 < 256 ->
  char_to_uint16 [b0; b1]
    = (if b1 <? 128 then b0 + 256 * b1 else b0 + 256 * b1 - 65536)
  /\ -32768 <= char_to_uint16 [b0; b1] <= 32767
  /\ (char_to_uint16 [b0; b1] = -1 <-> b0 = 255 /\ b1 = 255).
Proof.
  intros H0 H1.
  assert (Heq : char_to_uint16 [b0; b1]
                = if b1 <? 128 then b0 + 256 * b1 else b0 + 256 * b1 - 65536).
  { unfold char_to_uint16, to_short, signed, load. simpl lookup. simpl default.
    change (2 ^ 16) with 65536. change (2 ^ (16 - 1)) with 32768.
    rewrite Z.mod_small by lia.
    destruct (Z.ltb_spec (b0 + 256 * b1) 32768); destruct (Z.ltb_spec b1 128); lia. }
  rewrite Heq. split; [reflexivity|].
  destruct (Z.ltb_spec b1 128); repeat split; lia.
Qed.

Lemma char_to_uint16_little_endian_witness :
  char_to_uint16 [68; 99] = (if 99 <? 128 then 68 + 256 * 99 else 68 + 256 * 99 - 65536)
  /\ -32768 <= char_to_uint16 [68; 99] <= 32767
  /\ (char_to_uint16 [68; 99] = -1 <-> 68 = 255 /\ 99 = 255).
Proof. apply (char_to_uint16_little_endian 68 99); lia. Defined.

(** With [hi] left in the fourth byte of its [ret], [char_to_int24] inverts
    the limit setters' encoding on the whole range of 24-bit signed values
    exactly when [hi] is 0. *)
Theorem char_to_int24_round_trip_iff (hi : Z) :
  0 <= hi < 256 ->
  (forall v, -8388608 <= v <= 8388607 ->
     char_to_int24 hi (drop 3 (memcpy_int3 3 v [24; 6; 0; 0; 0; 0])) = v)
  <-> hi = 0.
Proof.
  intros Hhi. split.
  - intros Hall. destruct (Z.eq_dec hi 0) as [|Hne]; [assumption|].
    destruct (char_to_int24_round_trip_needs_zero hi) as (v & Hv & Hbad); [lia|].
    exfalso. apply Hbad, Hall, Hv.
  - intros -> v Hv. apply char_to_int24_round_trip_zeroed; [exact Hv | simpl; lia].
Qed.

Lemma char_to_int24_round_trip_iff_witness :
  (forall v, -8388608 <= v <= 8388607 ->
     char_to_int24 0 (drop 3 (memcpy_int3 3 v [24; 6; 0; 0; 0; 0])) = v)
  <-> 0 = 0.
Proof. apply (char_to_int24_round_trip_iff 0). lia. Defined.

(** The three bytes 255, 255, 255 decode to the busy sentinel -1 when the
    fourth byte of [ret] holds 0 or 255, and to another number for every
    other content of it; no other three bytes decode to -1. *)
Theorem char_to_int24_sentinel (hi b0 b1 b2 : Z) :
  0 <= hi < 256 -> 0 <= b0 < 256 -> 0 <= b1 < 256 -> 0 <= b2 < 256 ->
  char_to_int24 hi [b0; b1; b2] = -1
  <-> b0 = 255 /\ b1 = 255 /\ b2 = 255 /\ (hi = 0 \/ hi = 255).
Proof.
  intros Hhi H0 H1 H2.
  unfold char_to_int24, char_to_uint24, to_int, signed, load. simpl lookup. simpl default.
  change (2 ^ 32) with 4294967296. change (2 ^ (32 - 1)) with 2147483648.
  rewrite Z.mod_small by lia.
  destruct (Z.ltb_spec (b0 + 256 * b1 + 65536 * b2 + 16777216 * hi) 2147483648);
    match goal with
    | |- context [8388607 <? ?x] => destruct (Z.ltb_spec 8388607 x)
    end; split; intros; lia.
Qed.

Lemma char_to_int24_sentinel_witness :
  char_to_int24 255 [255; 255; 255] = -1
  <-> 255 = 255 /\ 255 = 255 /\ 255 = 255 /\ (255 = 0 \/ 255 = 255).
Proof. apply (char_to_int24_sentinel 255 255 255 255); lia. Defined.

(** ** Transaction engine, further *)

Section TransactionEngineMore.
Context `{Header}.

Ltac engine :=
  unfold liballuris_device_bulk_transfer, bulk_in, bulk_out, log; simpl.

Ltac branch :=
  match goal with
  | |- context [if ?b then _ else _] => destruct b eqn:?; simpl
  end.

(** A transaction that returns has not written to [out_buf], has kept the
    length of [in_buf], has made at most two transfers, and has only added
    to the trace. *)
Theorem bulk_transfer_footprint (e : env) (send_len st reply_len rt : Z) (w w' : world) (r : Z) :
  liballuris_device_bulk_transfer e send_len st reply_len rt w = Ret r w' ->
  out_buf w' = out_buf w
  /\ length (in_buf w') = length (in_buf w)
  /\ (xfers w <= xfers w' <= xfers w + 2)%nat
  /\ exists later, trace w' = later ++ trace w.
Proof.
  engine. repeat branch; intros Heq; inversion Heq; subst; simpl;
    rewrite ?length_blit; (split; [reflexivity|]); (split; [reflexivity|]);
    (split; [lia|]);
    first [ solve [exists []; reflexivity] | solve [eexists [_]; reflexivity]
          | solve [eexists [_; _]; reflexivity]
          | solve [eexists [_; _; _]; reflexivity]
          | solve [eexists [_; _; _; _]; reflexivity] ].
Qed.

(** The code libusb gives for a failed transfer is what the transaction
    returns. A failed write ends the call after that one transfer, with
    [in_buf] as it was. A failed read, after a complete write or with
    nothing to send, ends the call with the read's code, never with the
    malformed-reply code. *)
Theorem transport_error_passes_through (e : env) (send_len st reply_len rt : Z) (w : world) :
  send_len <= DEFAULT_SEND_BUF_LEN -> reply_len <= DEFAULT_RECV_BUF_LEN ->
  (0 < send_len -> load (out_buf w) 1 = send_len) ->
  (0 < send_len -> rc (usb e (xfers w)) <> LIBUSB_SUCCESS ->
     exists w',
       liballuris_device_bulk_transfer e send_len st reply_len rt w
         = Ret (rc (usb e (xfers w))) w'
       /\ in_buf w' = in_buf w /\ xfers w' = S (xfers w))
  /\ (0 < reply_len ->
      (0 < send_len ->
         rc (usb e (xfers w)) = LIBUSB_SUCCESS /\ actual (usb e (xfers w)) = send_len) ->
      let i := if 0 <? send_len then S (xfers w) else xfers w in
      rc (usb e i) <> LIBUSB_SUCCESS ->
      exists w',
        liballuris_device_bulk_transfer e send_len st reply_len rt w = Ret (rc (usb e i)) w'
        /\ xfers w' = S i).
Proof.
  intros Hs Hr Hframe. split.
  - intros Hpos Hrc. eexists. split.
    + apply bulk_transfer_write_failure; auto; lia.
    + split; reflexivity.
  - intros Hpos Hsent i Hrc. subst i. engine.
    destruct (Z.ltb_spec DEFAULT_SEND_BUF_LEN send_len); [lia|].
    destruct (Z.ltb_spec DEFAULT_RECV_BUF_LEN reply_len); [lia|].
    destruct (Z.ltb_spec 0 send_len) as [Hsl|Hsl].
    + destruct (Hsent Hsl) as [Hrc0 Hact0].
      rewrite (Hframe Hsl), Hrc0, Hact0, !Z.eqb_refl. simpl.
      destruct (Z.ltb_spec 0 reply_len); [|lia].
      apply Z.eqb_neq in Hrc. unfold LIBUSB_SUCCESS in Hrc. rewrite Hrc. simpl.
      repeat branch; eexists; (split; [reflexivity|]); reflexivity.
    + simpl. destruct (Z.ltb_spec 0 reply_len); [|lia].
      apply Z.eqb_neq in Hrc. unfold LIBUSB_SUCCESS in Hrc. rewrite Hrc. simpl.
      repeat branch; eexists; (split; [reflexivity|]); reflexivity.
Qed.

End TransactionEngineMore.

Lemma bulk_transfer_footprint_witness :
  out_buf digits_exchanged = out_buf (set_out_buf (frame3 8 3 3) boot)
  /\ length (in_buf digits_exchanged) = length (in_buf (set_out_buf (frame3 8 3 3) boot))
  /\ (xfers (set_out_buf (frame3 8 3 3) boot) <= xfers digits_exchanged
      <= xfers (set_out_buf (frame3 8 3 3) boot) + 2)%nat
  /\ exists later, trace digits_exchanged
                   = later ++ trace (set_out_buf (frame3 8 3 3) boot).
Proof.
  apply (bulk_transfer_footprint (H := sample_header) three_digits 3 50 6 100
           (set_out_buf (frame3 8 3 3) boot) digits_exchanged 0).
  vm_compute. reflexivity.
Defined.

(** The digits query on a complete exchange with [three_digits]. *)
Lemma bulk_transfer_success_framing_witness :
  rc (usb three_digits 0) = 0
  /\ rc (usb three_digits 1) = 0
  /\ load (in_buf digits_exchanged) 0 = load (out_buf (set_out_buf (frame3 8 3 3) boot)) 0
  /\ load (in_buf digits_exchanged) 1 = actual (usb three_digits 1).
Proof.
  apply (bulk_transfer_success_framing (H := sample_header) three_digits 3 50 6 100
           (set_out_buf (frame3 8 3 3) boot) digits_exchanged);
    first [ reflexivity | cbn; lia | vm_compute; reflexivity | vm_compute; discriminate ].
Defined.

(** On [unplugged] the write times out; on [silent_after_write] the read
    does. *)
Lemma transport_error_passes_through_witness :
  (exists w',
      liballuris_device_bulk_transfer (H := sample_header) unplugged 3 50 6 100
        (set_out_buf (frame3 8 3 3) boot) = Ret LIBUSB_ERROR_TIMEOUT w'
      /\ in_buf w' = in_buf boot /\ xfers w' = 1%nat)
  /\ (exists w',
      liballuris_device_bulk_transfer (H := sample_header) silent_after_write 3 50 6 100
        (set_out_buf (frame3 8 3 3) boot) = Ret LIBUSB_ERROR_TIMEOUT w'
      /\ xfers w' = 2%nat).
Proof.
  split.
  - apply (transport_error_passes_through (H := sample_header) unplugged 3 50 6 100
             (set_out_buf (frame3 8 3 3) boot));
      first [ reflexivity | cbn; lia | vm_compute; discriminate ].
  - apply (transport_error_passes_through (H := sample_header) silent_after_write 3 50 6 100
             (set_out_buf (frame3 8 3 3) boot));
      first [ reflexivity | cbn; lia | vm_compute; discriminate
            | intros _; split; reflexivity ].
Defined.

(** ** What a run does at most *)

(** A property of every event of an explicit list: [tac] proves it of the
    events for which it is not [True]. *)
Ltac events_ok tac :=
  repeat first [apply Forall_nil_2 | apply Forall_cons_2; [first [exact I | tac] |]].

Section Effects.
Context `{Header}.

Lemma bind_ret_inv {A B : Type} (m : outcome A) (k : A -> world -> outcome B)
    (b : B) (w' : world) :
  bind m k = Ret b w' -> exists a w1, m = Ret a w1 /\ k a w1 = Ret b w'.
Proof. destruct m as [a w1|c w1|w1]; simpl; try discriminate. eauto. Qed.

Lemma sleeps_app (t1 t2 : list event) : sleeps (t1 ++ t2) = (sleeps t1 + sleeps t2)%nat.
Proof.
  induction t1 as [|ev t1 IH]; simpl; [reflexivity|].
  destruct ev; simpl; rewrite IH; reflexivity.
Qed.

Lemma effect_refl (w : world) : effect 0 0 w w.
Proof.
  repeat split; try lia. exists [].
  repeat split; [constructor | constructor | simpl; lia].
Qed.

Lemma effect_trans (n1 s1 n2 s2 : nat) (w w1 w' : world) :
  effect n1 s1 w w1 -> effect n2 s2 w1 w' -> effect (n1 + n2) (s1 + s2) w w'.
Proof.
  intros (Ho1 & Hi1 & Hx1 & l1 & Ht1 & Hw1 & Hn1 & Hs1)
         (Ho2 & Hi2 & Hx2 & l2 & Ht2 & Hw2 & Hn2 & Hs2).
  repeat split; try congruence; try lia.
  exists (l2 ++ l1). repeat split.
  - rewrite Ht2, Ht1. now rewrite app_assoc.
  - intros Hlen. apply Forall_app. split; [apply Hw2; congruence | now apply Hw1].
  - apply Forall_app. split; assumption.
  - rewrite sleeps_app. lia.
Qed.

Lemma effect_weaken (n s n' s' : nat) (w w' : world) :
  effect n s w w' -> (n <= n')%nat -> (s <= s')%nat -> effect n' s' w w'.
Proof.
  intros (Ho & Hi & Hx & l & Ht & Hw & Hnap & Hs) Hn Hs'.
  repeat split; try assumption; try lia.
  exists l. repeat split; try assumption. lia.
Qed.

Lemma effect_log_stderr (m : message) (w : world) : effect 0 0 w (log (Stderr m) w).
Proof.
  repeat split; simpl; try lia. exists [Stderr m].
  repeat split; [repeat constructor | repeat constructor | simpl; lia].
Qed.

Lemma effect_log_usleep (w : world) : effect 0 1 w (log (Usleep 20000) w).
Proof.
  repeat split; simpl; try lia. exists [Usleep 20000].
  repeat split; [repeat constructor | repeat constructor | simpl; lia].
Qed.

Lemma effect_of_ret {A : Type} (a : A) (w : world) : effect_of 0 0 w (Ret a w).
Proof. intros a' w' Heq. inversion Heq; subst. apply effect_refl. Qed.

Lemma effect_of_weaken {A : Type} (n s n' s' : nat) (w : world) (o : outcome A) :
  effect_of n s w o -> (n <= n')%nat -> (s <= s')%nat -> effect_of n' s' w o.
Proof. intros Ho Hn Hs a w' Heq. eapply effect_weaken; eauto. Qed.

Lemma effect_of_bind {A B : Type} (n1 s1 n2 s2 : nat) (w : world)
    (m : outcome A) (k : A -> world -> outcome B) :
  effect_of n1 s1 w m ->
  (forall a w1, m = Ret a w1 -> effect n1 s1 w w1 -> effect_of n2 s2 w1 (k a w1)) ->
  effect_of (n1 + n2) (s1 + s2) w (bind m k).
Proof.
  intros Hm Hk b w' Heq. apply bind_ret_inv in Heq as (a & w1 & Hma & Hka).
  eapply effect_trans; [eapply Hm; eassumption|].
  eapply Hk; eauto.
Qed.

(** Storing into [out_buf] is no effect in this sense, as long as the
    buffer keeps its length. *)
Lemma effect_of_set_out_buf {A : Type} (n s : nat) (f : list Z -> list Z) (w : world)
    (o : outcome A) :
  length (f (out_buf w)) = length (out_buf w) ->
  effect_of n s (set_out_buf f w) o -> effect_of n s w o.
Proof.
  intros Hlen Ho a w' Heq.
  destruct (Ho a w' Heq) as (Ho' & Hi & Hx & l & Ht & Hw & Hnap & Hs).
  simpl in *. repeat split; try congruence; try lia.
  exists l. repeat split; try assumption. intros Hcap. apply Hw. congruence.
Qed.

Lemma wire_ok_frame (buf : list Z) (n st : Z) :
  2 <= n <= Z.of_nat (length buf) -> load buf 1 = n ->
  wire_ok (BulkOut (take (Z.to_nat n) buf) st).
Proof.
  intros Hn Hbyte. simpl. unfold load in *.
  rewrite lookup_take_lt by lia. rewrite Hbyte, length_take. lia.
Qed.

Ltac engine :=
  unfold liballuris_device_bulk_transfer, bulk_in, bulk_out, log; simpl.

Ltac branch :=
  match goal with
  | |- context [if ?b then _ else _] => destruct b eqn:?; simpl
  end.

(** The transaction engine: at most two transfers, no sleep, and a frame
    that carries its length when it has at least two bytes. *)
Lemma effect_of_bulk_transfer (e : env) (send_len st reply_len rt : Z) (w : world) :
  (0 < send_len -> 2 <= send_len) ->
  effect_of 2 0 w (liballuris_device_bulk_transfer e send_len st reply_len rt w).
Proof.
  intros Hlen r w'. engine.
  destruct (Z.ltb_spec DEFAULT_SEND_BUF_LEN send_len); [discriminate|].
  destruct (Z.ltb_spec DEFAULT_RECV_BUF_LEN reply_len); [discriminate|].
  destruct (Z.ltb_spec 0 send_len) as [Hpos|Hpos]; simpl.
  - destruct (Z.eqb_spec (load (out_buf w) 1) send_len) as [Hbyte|]; [|discriminate].
    assert (Hwire : Z.of_nat (length (out_buf w)) = DEFAULT_SEND_BUF_LEN ->
                    wire_ok (BulkOut (take (Z.to_nat send_len) (out_buf w)) st)).
    { intros Hcap. apply wire_ok_frame; [|assumption]. specialize (Hlen Hpos). lia. }
    repeat branch; intros Heq; inversion Heq; subst; unfold effect; simpl;
      rewrite ?length_blit; (split; [reflexivity|]); (split; [reflexivity|]);
      (split; [lia|]);
      first
        [ solve [eexists [_]; split; [reflexivity|]; split; [|split];
                 [intros Hcap; events_ok ltac:(apply Hwire; exact Hcap)
                 | events_ok fail | simpl; lia]]
        | solve [eexists [_; _]; split; [reflexivity|]; split; [|split];
                 [intros Hcap; events_ok ltac:(apply Hwire; exact Hcap)
                 | events_ok fail | simpl; lia]]
        | solve [eexists [_; _; _]; split; [reflexivity|]; split; [|split];
                 [intros Hcap; events_ok ltac:(apply Hwire; exact Hcap)
                 | events_ok fail | simpl; lia]]
        | solve [eexists [_; _; _; _]; split; [reflexivity|]; split; [|split];
                 [intros Hcap; events_ok ltac:(apply Hwire; exact Hcap)
                 | events_ok fail | simpl; lia]] ].
  - repeat branch; intros Heq; inversion Heq; subst; unfold effect; simpl;
      rewrite ?length_blit; (split; [reflexivity|]); (split; [reflexivity|]);
      (split; [lia|]);
      first
        [ solve [exists []; split; [reflexivity|]; split; [|split];
                 [intros Hcap; events_ok fail | events_ok fail | simpl; lia]]
        | solve [eexists [_]; split; [reflexivity|]; split; [|split];
                 [intros Hcap; events_ok fail | events_ok fail | simpl; lia]]
        | solve [eexists [_; _]; split; [reflexivity|]; split; [|split];
                 [intros Hcap; events_ok fail | events_ok fail | simpl; lia]]
        | solve [eexists [_; _; _]; split; [reflexivity|]; split; [|split];
                 [intros Hcap; events_ok fail | events_ok fail | simpl; lia]] ].
Qed.

End Effects.

Section CommandEffects.
Context `{Header}.

Lemma effect_of_forget {A : Type} (n s : nat) (w : world) (o : outcome A) :
  effect_of n s w o -> effect_of n s w (forget o).
Proof.
  intros Ho b w' Heq. apply bind_ret_inv in Heq as (a & w1 & Hoa & Hk).
  inversion Hk; subst. eapply Ho; reflexivity.
Qed.

Lemma effect_of_pre {A : Type} (n0 s0 n s : nat) (w w1 : world) (o : outcome A) :
  effect n0 s0 w w1 -> effect_of n s w1 o -> effect_of (n0 + n) (s0 + s) w o.
Proof. intros Hpre Ho a w' Heq. eapply effect_trans; [eassumption | eapply Ho; eassumption]. Qed.

Lemma effect_of_ret_stderr {A : Type} (a : A) (m : message) (w : world) :
  effect_of 0 0 w (Ret a (log (Stderr m) w)).
Proof. intros a' w' Heq. inversion Heq; subst. apply effect_log_stderr. Qed.

(** With nothing to send the engine makes at most one transfer. *)
Lemma effect_of_bulk_receive_only (e : env) (st reply_len rt : Z) (w : world) :
  effect_of 1 0 w (liballuris_device_bulk_transfer e 0 st reply_len rt w).
Proof.
  intros r w'. unfold liballuris_device_bulk_transfer, bulk_in, log. simpl.
  destruct (DEFAULT_SEND_BUF_LEN <? 0); [discriminate|].
  destruct (DEFAULT_RECV_BUF_LEN <? reply_len); [discriminate|].
  destruct (0 <? reply_len); simpl; rewrite ?andb_false_r; simpl;
  repeat match goal with
         | |- context [if ?b then _ else _] => destruct b eqn:?; simpl
         end;
    intros Heq; inversion Heq; subst; unfold effect; simpl;
    rewrite ?length_blit; (split; [reflexivity|]); (split; [reflexivity|]);
    (split; [lia|]);
    first
      [ solve [exists []; split; [reflexivity|]; split; [|split];
               [intros Hcap; events_ok fail | events_ok fail | simpl; lia]]
      | solve [eexists [_]; split; [reflexivity|]; split; [|split];
               [intros Hcap; events_ok fail | events_ok fail | simpl; lia]]
      | solve [eexists [_; _]; split; [reflexivity|]; split; [|split];
               [intros Hcap; events_ok fail | events_ok fail | simpl; lia]] ].
Qed.

Ltac stores_keep_length :=
  simpl; unfold frame3, memcpy_int3; rewrite ?length_store; reflexivity.

Ltac under_frame :=
  match goal with
  | |- effect_of _ _ ?w ?o =>
      match o with
      | context [set_out_buf ?f w] =>
          apply (effect_of_set_out_buf _ _ f); [stores_keep_length|]
      end
  end.

Ltac returns_only :=
  intros; simpl;
  repeat match goal with
         | |- context [if ?b then _ else _] => destruct b
         end;
  apply effect_of_ret.

(** A command that stores a frame, makes one transaction and returns. *)
Ltac one_transaction :=
  cbv zeta; under_frame;
  first
    [ apply effect_of_bulk_transfer; lia
    | eapply effect_of_weaken;
      [ eapply effect_of_bind; [apply effect_of_bulk_transfer; lia | returns_only]
      | lia | lia ] ].

Lemma effect_of_read_state (e : env) (k : nat) (state timeout : Z) (w : world) :
  effect_of 2 0 w (liballuris_read_state e k state timeout w).
Proof. unfold liballuris_read_state. one_transaction. Qed.

Lemma effect_of_start_poll (e : env) (timeout : nat) :
  forall state w, effect_of (2 * timeout) timeout w (start_poll e timeout state w).
Proof.
  induction timeout as [|timeout IH]; intros state w; cbn [start_poll].
  - apply effect_of_ret.
  - eapply effect_of_weaken;
      [eapply (effect_of_bind 2 0 (2 * timeout) (S timeout));
       [apply effect_of_read_state|] | |].
    + intros [ret state'] w1 _ _. cbv zeta.
      destruct (negb (measuring state')).
      * apply (effect_of_pre 0 1 (2 * timeout) timeout w1 (log (Usleep 20000) w1));
          [apply effect_log_usleep|].
        destruct (_ && _); [apply IH|].
        eapply effect_of_weaken; [apply effect_of_ret | lia | lia].
      * destruct (_ && _);
          [eapply effect_of_weaken; [apply IH | lia | lia]|].
        eapply effect_of_weaken; [apply effect_of_ret | lia | lia].
    + lia.
    + lia.
Qed.

Lemma effect_of_stop_poll (e : env) (timeout : nat) :
  forall state w, effect_of (2 * timeout) timeout w (stop_poll e timeout state w).
Proof.
  induction timeout as [|timeout IH]; intros state w; cbn [stop_poll].
  - apply effect_of_ret.
  - eapply effect_of_weaken;
      [eapply (effect_of_bind 2 0 (2 * timeout) (S timeout));
       [apply effect_of_read_state|] | |].
    + intros [ret state'] w1 _ _. cbv zeta.
      destruct (measuring state').
      * apply (effect_of_pre 0 1 (2 * timeout) timeout w1 (log (Usleep 20000) w1));
          [apply effect_log_usleep|].
        destruct (_ && _); [apply IH|].
        eapply effect_of_weaken; [apply effect_of_ret | lia | lia].
      * destruct (_ && _);
          [eapply effect_of_weaken; [apply IH | lia | lia]|].
        eapply effect_of_weaken; [apply effect_of_ret | lia | lia].
    + lia.
    + lia.
Qed.

(** Every command stays within its budget of transfers and sleeps, keeps
    the buffers at their lengths, and only sends frames that carry their
    length. *)
Lemma effect_of_run (e : env) (c : command) (w : world) :
  effect_of (transfer_budget c) (sleep_budget c) w (run e c w).
Proof.
  destruct c; simpl;
    try (apply effect_of_forget;
         unfold liballuris_serial_number, liballuris_digits, liballuris_raw_value,
           liballuris_raw_pos_peak, liballuris_raw_neg_peak, liballuris_read_state,
           liballuris_tare, liballuris_clear_pos_peak,
           liballuris_clear_neg_peak, liballuris_set_pos_limit, liballuris_set_neg_limit,
           liballuris_get_pos_limit, liballuris_get_neg_limit, liballuris_get_mode;
         one_transaction).
  - intros a w' Heq. unfold liballuris_clear_RX in Heq. inversion Heq; subst.
    unfold effect; simpl. repeat split; try lia.
    exists [BulkIn 64 timeout].
    repeat split; [repeat constructor | repeat constructor | simpl; lia].
  - apply effect_of_forget. unfold liballuris_cyclic_measurement.
    destruct (_ || _).
    + eapply effect_of_weaken; [apply effect_of_ret_stderr | lia | lia].
    + one_transaction.
  - apply effect_of_forget. unfold liballuris_poll_measurement.
    eapply effect_of_weaken;
      [ eapply effect_of_bind; [apply effect_of_bulk_receive_only | returns_only]
      | lia | lia ].
  - apply effect_of_forget. unfold liballuris_start_measurement. cbv zeta. under_frame.
    eapply effect_of_weaken;
      [ eapply effect_of_bind; [apply effect_of_bulk_transfer; lia|] | |].
    + intros ret w1 _ _. destruct (ret =? LIBALLURIS_SUCCESS).
      * eapply effect_of_weaken;
          [ eapply effect_of_bind; [apply (effect_of_start_poll e 20)|] | |].
        -- intros [r t] w2 _ _. destruct (Nat.eqb t 0); apply effect_of_ret.
        -- apply Nat.le_refl.
        -- apply Nat.le_refl.
      * eapply effect_of_weaken; [apply effect_of_ret | lia | lia].
    + simpl. lia.
    + simpl. lia.
  - apply effect_of_forget. unfold liballuris_stop_measurement. cbv zeta. under_frame.
    eapply effect_of_weaken;
      [ eapply effect_of_bind; [apply effect_of_bulk_transfer; lia|] | |].
    + intros ret w1 _ _. destruct (ret =? LIBUSB_SUCCESS).
      * eapply effect_of_weaken;
          [ eapply effect_of_bind; [apply (effect_of_stop_poll e 10)|] | |].
        -- intros [r t] w2 _ _. destruct (Nat.eqb t 0); apply effect_of_ret.
        -- apply Nat.le_refl.
        -- apply Nat.le_refl.
      * eapply effect_of_weaken; [apply effect_of_ret | lia | lia].
    + simpl. lia.
    + simpl. lia.
  - apply effect_of_forget. unfold liballuris_set_mode.
    destruct (_ || _).
    + eapply effect_of_weaken; [apply effect_of_ret_stderr | lia | lia].
    + one_transaction.
Qed.

End CommandEffects.

Section Budgets.
Context `{Header}.

(** Every command makes a bounded number of bus transfers and sleeps: at
    most two transfers and no sleep for a plain command, one transfer for
    [liballuris_clear_RX] and [liballuris_poll_measurement], 42 transfers
    and 20 sleeps for start, 22 transfers and 10 sleeps for stop. Every
    sleep is a [usleep] of 20000 microseconds; the two buffers keep their
    lengths and the trace is only extended. *)
Theorem commands_stay_within_budget (e : env) (c : command) (w w' : world) :
  run e c w = Ret tt w' ->
  length (out_buf w') = length (out_buf w)
  /\ length (in_buf w') = length (in_buf w)
  /\ (xfers w <= xfers w' <= xfers w + transfer_budget c)%nat
  /\ exists later,
       trace w' = later ++ trace w
       /\ (sleeps later <= sleep_budget c)%nat
       /\ (forall usec, In (Usleep usec) later -> usec = 20000).
Proof.
  intros Hrun. destruct (effect_of_run e c w tt w' Hrun)
    as (Ho & Hi & Hx & later & Ht & _ & Hnap & Hs).
  repeat split; try assumption; try lia.
  exists later. repeat split; try assumption.
  intros usec Hin. rewrite List.Forall_forall in Hnap. exact (Hnap _ Hin).
Qed.

(** On the bus, every frame any command sends has at least two bytes and
    carries its own length in its second byte, given an [out_buf] of the
    declared capacity. *)
Theorem outgoing_frames_declare_length (e : env) (c : command) (w w' : world) :
  Z.of_nat (length (out_buf w)) = DEFAULT_SEND_BUF_LEN ->
  run e c w = Ret tt w' ->
  exists later,
    trace w' = later ++ trace w
    /\ forall data timeout,
         In (BulkOut data timeout) later ->
         (2 <= length data)%nat /\ load data 1 = Z.of_nat (length data).
Proof.
  intros Hcap Hrun. destruct (effect_of_run e c w tt w' Hrun)
    as (_ & _ & _ & later & Ht & Hw & _).
  exists later. split; [exact Ht|].
  intros data timeout Hin. specialize (Hw Hcap).
  rewrite List.Forall_forall in Hw. exact (Hw _ Hin).
Qed.

End Budgets.

(** Start on [measuring_at_read_3]: eight transfers and two sleeps. *)
Lemma commands_stay_within_budget_witness :
  length (out_buf started) = length (out_buf boot)
  /\ length (in_buf started) = length (in_buf boot)
  /\ (xfers boot <= xfers started <= xfers boot + 42)%nat
  /\ exists later,
       trace started = later ++ trace boot
       /\ (sleeps later <= 20)%nat
       /\ (forall usec, In (Usleep usec) later -> usec = 20000).
Proof.
  apply (commands_stay_within_budget (H := sample_header) measuring_at_read_3
           StartMeasurement boot started).
  vm_compute. reflexivity.
Defined.

(** The frames of a start on [measuring_at_read_3]. *)
Lemma outgoing_frames_declare_length_witness :
  exists later,
    trace started = later ++ trace boot
    /\ forall data timeout,
         In (BulkOut data timeout) later ->
         (2 <= length data)%nat /\ load data 1 = Z.of_nat (length data).
Proof.
  apply (outgoing_frames_declare_length (H := sample_header) measuring_at_read_3
           StartMeasurement boot started); vm_compute; reflexivity.
Defined.

(** ** Commands come back *)

Section Returns.
Context `{Header}.

Lemma returns_ret {A : Type} (a : A) (w : world) : returns (Ret a w).
Proof. now exists a, w. Qed.

Lemma returns_bind {A B : Type} (m : outcome A) (k : A -> world -> outcome B) :
  returns m -> (forall a w1, m = Ret a w1 -> returns (k a w1)) -> returns (bind m k).
Proof. intros (a & w1 & ->) Hk. simpl. now apply Hk. Qed.

Lemma returns_forget {A : Type} (o : outcome A) : returns o -> returns (forget o).
Proof. intros Ho. apply returns_bind; [exact Ho|]. intros. apply returns_ret. Qed.

Lemma returns_bulk_transfer (e : env) (send_len st reply_len rt : Z) (w : world) :
  send_len <= DEFAULT_SEND_BUF_LEN -> reply_len <= DEFAULT_RECV_BUF_LEN ->
  (0 < send_len -> load (out_buf w) 1 = send_len) ->
  returns (liballuris_device_bulk_transfer e send_len st reply_len rt w).
Proof.
  intros Hs Hr Hframe.
  destruct (bulk_transfer_returns e send_len st reply_len rt w Hs Hr Hframe)
    as (r & w' & Hret & _).
  now exists r, w'.
Qed.

Ltac frame_byte :=
  intros; simpl; unfold frame3, memcpy_int3; simpl;
  rewrite ?load_store_ne by lia; apply load_store_eq; rewrite ?length_store; lia.

Ltac branches_return :=
  intros; simpl;
  repeat match goal with
         | |- context [if ?b then _ else _] => destruct b
         end;
  apply returns_ret.

Ltac transaction_returns :=
  first
    [ apply returns_bulk_transfer; [lia | lia | frame_byte]
    | apply returns_bind;
      [ apply returns_bulk_transfer; [lia | lia | frame_byte] | branches_return ] ].

Lemma returns_read_state (e : env) (k : nat) (state timeout : Z) (w : world) :
  3 <= DEFAULT_SEND_BUF_LEN -> 6 <= DEFAULT_RECV_BUF_LEN ->
  Z.of_nat (length (out_buf w)) = DEFAULT_SEND_BUF_LEN ->
  returns (liballuris_read_state e k state timeout w).
Proof. intros Hs Hr Hcap. unfold liballuris_read_state. cbv zeta. transaction_returns. Qed.

Lemma returns_start_poll (e : env) (timeout : nat) :
  3 <= DEFAULT_SEND_BUF_LEN -> 6 <= DEFAULT_RECV_BUF_LEN ->
  forall state w,
    Z.of_nat (length (out_buf w)) = DEFAULT_SEND_BUF_LEN ->
    returns (start_poll e timeout state w).
Proof.
  intros Hs Hr. induction timeout as [|timeout IH]; intros state w Hcap; cbn [start_poll].
  - apply returns_ret.
  - apply returns_bind; [now apply returns_read_state|].
    intros [ret state'] w1 Hread. apply read_state_out_buf in Hread. cbv zeta.
    destruct (_ && _); [|apply returns_ret].
    apply IH. destruct (negb (measuring state')); simpl; now rewrite Hread.
Qed.

Lemma returns_stop_poll (e : env) (timeout : nat) :
  3 <= DEFAULT_SEND_BUF_LEN -> 6 <= DEFAULT_RECV_BUF_LEN ->
  forall state w,
    Z.of_nat (length (out_buf w)) = DEFAULT_SEND_BUF_LEN ->
    returns (stop_poll e timeout state w).
Proof.
  intros Hs Hr. induction timeout as [|timeout IH]; intros state w Hcap; cbn [stop_poll].
  - apply returns_ret.
  - apply returns_bind; [now apply returns_read_state|].
    intros [ret state'] w1 Hread. apply read_state_out_buf in Hread. cbv zeta.
    destruct (_ && _); [|apply returns_ret].
    apply IH. destruct (measuring state'); simpl; now rewrite Hread.
Qed.

(** With buffers of at least six bytes, every command comes back to its
    caller, whatever the device does: none ends the process through the
    capacity check or the frame-length assertion. For the buffered-sample
    poll this holds while its receive length fits [in_buf]. *)
Theorem commands_return (e : env) (c : command) (w : world) :
  6 <= DEFAULT_SEND_BUF_LEN -> 6 <= DEFAULT_RECV_BUF_LEN < 2147483648 ->
  Z.of_nat (length (out_buf w)) = DEFAULT_SEND_BUF_LEN ->
  within_capacity c ->
  exists w', run e c w = Ret tt w'.
Proof.
  intros Hs Hr Hcap Hfit.
  enough (Hret : returns (run e c w)) by (destruct Hret as ([] & w' & Hw'); eauto).
  destruct c; simpl;
    try (apply returns_forget;
         unfold liballuris_serial_number, liballuris_digits, liballuris_raw_value,
           liballuris_raw_pos_peak, liballuris_raw_neg_peak, liballuris_read_state,
           liballuris_tare, liballuris_clear_pos_peak,
           liballuris_clear_neg_peak, liballuris_set_pos_limit, liballuris_set_neg_limit,
           liballuris_get_pos_limit, liballuris_get_neg_limit, liballuris_get_mode;
         cbv zeta; transaction_returns).
  - apply returns_ret.
  - apply returns_forget. unfold liballuris_cyclic_measurement.
    destruct (_ || _); [apply returns_ret|]. cbv zeta. transaction_returns.
  - apply returns_forget. unfold liballuris_poll_measurement. cbv zeta.
    simpl in Hfit. destruct Hfit as [Hpos Hfit].
    replace (to_int (to_size_t (5 + length * 3))) with (5 + 3 * length).
    + apply returns_bind; [apply returns_bulk_transfer; lia | branches_return].
    + rewrite <- (Z2Nat.id length) by lia. symmetry. apply poll_reply_len.
      rewrite Z2Nat.id by lia. lia.
  - apply returns_forget. unfold liballuris_start_measurement. cbv zeta.
    apply returns_bind; [apply returns_bulk_transfer; [lia | lia | frame_byte]|].
    intros ret w1 Hcmd. apply bulk_transfer_frame in Hcmd as [Hout _].
    destruct (ret =? LIBALLURIS_SUCCESS); [|apply returns_ret].
    apply returns_bind.
    + apply returns_start_poll; try lia. rewrite Hout. simpl. now rewrite length_frame3.
    + intros [r t] w2 _. destruct (Nat.eqb t 0); apply returns_ret.
  - apply returns_forget. unfold liballuris_stop_measurement. cbv zeta.
    apply returns_bind; [apply returns_bulk_transfer; [lia | lia | frame_byte]|].
    intros ret w1 Hcmd. apply bulk_transfer_frame in Hcmd as [Hout _].
    destruct (ret =? LIBUSB_SUCCESS); [|apply returns_ret].
    apply returns_bind.
    + apply returns_stop_poll; try lia. rewrite Hout. simpl. now rewrite length_frame3.
    + intros [r t] w2 _. destruct (Nat.eqb t 0); apply returns_ret.
  - apply returns_forget. unfold liballuris_set_mode.
    destruct (_ || _); [apply returns_ret|]. cbv zeta. transaction_returns.
Qed.

End Returns.

(** Stop on a device that is not there comes back (with a timeout). *)
Lemma commands_return_witness :
  exists w', run (H := sample_header) unplugged StopMeasurement boot = Ret tt w'.
Proof.
  apply (commands_return (H := sample_header) unplugged StopMeasurement boot);
    first [ exact I | reflexivity | cbn; lia ].
Defined.

(** ** Return codes *)

Section ReturnCodes.
Context `{Header}.

Variable e : env.

Lemma from_libusb_widen (w0 w w' w1 : world) (r : Z) :
  (xfers w0 <= xfers w)%nat -> (xfers w' <= xfers w1)%nat ->
  from_libusb e w w' r -> from_libusb e w0 w1 r.
Proof. intros Hlo Hhi (i & Hi & Hr). exists i. split; [lia | exact Hr]. Qed.

Lemma bulk_transfer_code_source (send_len st reply_len rt : Z) (w w' : world) (r : Z) :
  liballuris_device_bulk_transfer e send_len st reply_len rt w = Ret r w' ->
  r = 0 \/ from_libusb e w w' r \/ r = LIBALLURIS_MALFORMED_REPLY.
Proof.
  unfold liballuris_device_bulk_transfer, bulk_in, bulk_out, log, from_libusb. simpl.
  repeat match goal with
         | |- context [if ?b then _ else _] => destruct b; simpl
         end;
    intros Heq; inversion Heq; subst; simpl;
    first
      [ now left
      | right; left; exists (xfers w); split; [lia | reflexivity]
      | right; left; exists (S (xfers w)); split; [lia | reflexivity]
      | now right; right ].
Qed.

(** With nothing to send the malformed-reply code has no path. *)
Lemma receive_only_code_source (st reply_len rt : Z) (w w' : world) (r : Z) :
  liballuris_device_bulk_transfer e 0 st reply_len rt w = Ret r w' ->
  r = 0 \/ from_libusb e w w' r.
Proof.
  unfold liballuris_device_bulk_transfer, bulk_in, log, from_libusb. simpl.
  destruct (DEFAULT_SEND_BUF_LEN <? 0); [discriminate|].
  destruct (DEFAULT_RECV_BUF_LEN <? reply_len); [discriminate|].
  destruct (0 <? reply_len); simpl; rewrite ?andb_false_r; simpl;
    repeat match goal with
           | |- context [if ?b then _ else _] => destruct b; simpl
           end;
    intros Heq; inversion Heq; subst; simpl;
    first [ now left | right; exists (xfers w); split; [lia | reflexivity] ].
Qed.

Lemma read_state_code_source (k : nat) (state timeout : Z) (w w' : world) (ret s : Z) :
  liballuris_read_state e k state timeout w = Ret (ret, s) w' ->
  ret = 0 \/ from_libusb e w w' ret \/ ret = LIBALLURIS_MALFORMED_REPLY.
Proof.
  unfold liballuris_read_state. cbv zeta. intros Hrun.
  apply bind_ret_inv in Hrun as (r & w1 & Hbulk & Hk).
  apply bulk_transfer_code_source in Hbulk.
  destruct (r =? LIBALLURIS_SUCCESS); inversion Hk; subst; exact Hbulk.
Qed.

Lemma start_poll_code_source (timeout : nat) :
  forall state w w' ret t,
    start_poll e timeout state w = Ret (ret, t) w' ->
    ret = 0 \/ from_libusb e w w' ret \/ ret = LIBALLURIS_MALFORMED_REPLY.
Proof.
  induction timeout as [|timeout IH]; intros state w w' ret t; cbn [start_poll].
  - intros Heq. inversion Heq. auto.
  - intros Hrun. apply bind_ret_inv in Hrun as ([r s] & w1 & Hread & Hk).
    pose proof (effect_of_read_state e timeout state 600 w _ _ Hread) as (_ & _ & Hx1 & _).
    apply read_state_code_source in Hread. cbv zeta in Hk.
    set (w2 := if negb (measuring s) then log (Usleep 20000) w1 else w1) in Hk.
    assert (Hx2 : xfers w2 = xfers w1) by (subst w2; destruct (negb (measuring s)); reflexivity).
    destruct (_ && _).
    + pose proof (effect_of_start_poll e timeout s w2 _ _ Hk) as (_ & _ & Hx3 & _).
      apply IH in Hk. destruct Hk as [Hk|[Hk|Hk]]; auto.
      right; left. eapply from_libusb_widen; [| |exact Hk]; lia.
    + inversion Hk; subst. destruct Hread as [Hr|[Hr|Hr]]; auto.
      right; left. eapply from_libusb_widen; [| |exact Hr]; lia.
Qed.

Lemma stop_poll_code_source (timeout : nat) :
  forall state w w' ret t,
    stop_poll e timeout state w = Ret (ret, t) w' ->
    ret = 0 \/ from_libusb e w w' ret \/ ret = LIBALLURIS_MALFORMED_REPLY.
Proof.
  induction timeout as [|timeout IH]; intros state w w' ret t; cbn [stop_poll].
  - intros Heq. inversion Heq. auto.
  - intros Hrun. apply bind_ret_inv in Hrun as ([r s] & w1 & Hread & Hk).
    pose proof (effect_of_read_state e timeout state 200 w _ _ Hread) as (_ & _ & Hx1 & _).
    apply read_state_code_source in Hread. cbv zeta in Hk.
    set (w2 := if measuring s then log (Usleep 20000) w1 else w1) in Hk.
    assert (Hx2 : xfers w2 = xfers w1) by (subst w2; destruct (measuring s); reflexivity).
    destruct (_ && _).
    + pose proof (effect_of_stop_poll e timeout s w2 _ _ Hk) as (_ & _ & Hx3 & _).
      apply IH in Hk. destruct Hk as [Hk|[Hk|Hk]]; auto.
      right; left. eapply from_libusb_widen; [| |exact Hk]; lia.
    + inversion Hk; subst. destruct Hread as [Hr|[Hr|Hr]]; auto.
      right; left. eapply from_libusb_widen; [| |exact Hr]; lia.
Qed.

Ltac transaction_code H :=
  first
    [ apply bulk_transfer_code_source in H
    | let r := fresh "r" in
      let w1 := fresh "w" in
      let Hbulk := fresh "Hbulk" in
      apply bind_ret_inv in H as (r & w1 & Hbulk & H);
      apply bulk_transfer_code_source in Hbulk;
      simpl in H;
      repeat match type of H with
             | context [if ?b then _ else _] => destruct b
             end;
      inversion H; subst; simpl ].

Lemma command_codes (c : command) (w w' : world) (r : Z) :
  status e c w = Ret (Some r) w' ->
  r = 0 \/ from_libusb e w w' r
  \/ (r = LIBALLURIS_MALFORMED_REPLY /\ may_be_malformed c)
  \/ (r = LIBALLURIS_DEVICE_BUSY /\ may_be_busy c)
  \/ (r = LIBALLURIS_OUT_OF_RANGE /\ may_be_out_of_range c).
Proof.
  intros Hrun. unfold status in Hrun.
  destruct c; apply bind_ret_inv in Hrun as (a & w1 & Hcmd & Hk);
    inversion Hk; subst; clear Hk;
    try solve
      [ unfold liballuris_serial_number, liballuris_digits, liballuris_raw_value,
          liballuris_raw_pos_peak, liballuris_raw_neg_peak, liballuris_read_state,
          liballuris_tare, liballuris_clear_pos_peak,
          liballuris_clear_neg_peak, liballuris_set_pos_limit, liballuris_set_neg_limit,
          liballuris_get_pos_limit, liballuris_get_neg_limit, liballuris_get_mode
          in Hcmd;
        cbv zeta in Hcmd; transaction_code Hcmd;
        simpl; intuition auto ].
  - unfold liballuris_cyclic_measurement in Hcmd.
    destruct (_ || _).
    + inversion Hcmd; subst. simpl. intuition auto.
    + cbv zeta in Hcmd. transaction_code Hcmd. simpl. intuition auto.
  - unfold liballuris_poll_measurement in Hcmd. cbv zeta in Hcmd.
    apply bind_ret_inv in Hcmd as (r0 & w2 & Hbulk & Hk).
    apply receive_only_code_source in Hbulk. inversion Hk; subst. simpl. intuition auto.
  - unfold liballuris_start_measurement in Hcmd. cbv zeta in Hcmd.
    apply bind_ret_inv in Hcmd as (r0 & w2 & Hbulk & Hk).
    pose proof (effect_of_bulk_transfer e 3 DEFAULT_SEND_TIMEOUT 3 DEFAULT_RECEIVE_TIMEOUT
                  _ ltac:(lia) _ _ Hbulk) as (_ & _ & Hx1 & _).
    apply bulk_transfer_code_source in Hbulk. simpl in Hx1.
    destruct (r0 =? LIBALLURIS_SUCCESS).
    + apply bind_ret_inv in Hk as ([r' t] & w3 & Hpoll & Hk).
      pose proof (effect_of_start_poll e 20 _ _ _ _ Hpoll) as (_ & _ & Hx2 & _).
      apply start_poll_code_source in Hpoll.
      destruct (Nat.eqb t 0); inversion Hk; subst; simpl; [intuition auto|].
      destruct Hpoll as [Hp|[Hp|Hp]]; [intuition auto | | intuition auto].
      right; left. eapply from_libusb_widen; [| |exact Hp]; lia.
    + inversion Hk; subst. simpl.
      destruct Hbulk as [Hb|[Hb|Hb]]; [intuition auto | | intuition auto].
      right; left. eapply from_libusb_widen; [| |exact Hb]; simpl; lia.
  - unfold liballuris_stop_measurement in Hcmd. cbv zeta in Hcmd.
    apply bind_ret_inv in Hcmd as (r0 & w2 & Hbulk & Hk).
    pose proof (effect_of_bulk_transfer e 3 DEFAULT_SEND_TIMEOUT 3 DEFAULT_RECEIVE_TIMEOUT
                  _ ltac:(lia) _ _ Hbulk) as (_ & _ & Hx1 & _).
    apply bulk_transfer_code_source in Hbulk. simpl in Hx1.
    destruct (r0 =? LIBUSB_SUCCESS).
    + apply bind_ret_inv in Hk as ([r' t] & w3 & Hpoll & Hk).
      pose proof (effect_of_stop_poll e 10 _ _ _ _ Hpoll) as (_ & _ & Hx2 & _).
      apply stop_poll_code_source in Hpoll.
      destruct (Nat.eqb t 0); inversion Hk; subst; simpl; [intuition auto|].
      destruct Hpoll as [Hp|[Hp|Hp]]; [intuition auto | | intuition auto].
      right; left. eapply from_libusb_widen; [| |exact Hp]; lia.
    + inversion Hk; subst. simpl.
      destruct Hbulk as [Hb|[Hb|Hb]]; [intuition auto | | intuition auto].
      right; left. eapply from_libusb_widen; [| |exact Hb]; simpl; lia.
  - unfold liballuris_set_mode in Hcmd.
    destruct (_ || _).
    + inversion Hcmd; subst. simpl. intuition auto.
    + cbv zeta in Hcmd. transaction_code Hcmd; simpl; intuition auto.
Qed.

(** The codes of the library. A command returns 0, the code libusb gave
    for one of the transfers of this very call, or one of the library's own
    codes, and each of those only from the commands that have a path to
    it: malformed-reply from every command but the buffered-sample poll,
    device-busy from the serial-number and digits queries, start, stop and
    the mode setter, out-of-range from the cyclic-measurement and mode
    setters. *)
Theorem return_codes (c : command) (w w' : world) (r : Z) :
  status e c w = Ret (Some r) w' ->
  r = 0 \/ from_libusb e w w' r
  \/ (r = LIBALLURIS_MALFORMED_REPLY /\ may_be_malformed c)
  \/ (r = LIBALLURIS_DEVICE_BUSY /\ may_be_busy c)
  \/ (r = LIBALLURIS_OUT_OF_RANGE /\ may_be_out_of_range c).
Proof. apply command_codes. Qed.

(** Every code a command returns has a name. Where libusb reports its
    errors as negative codes and the library's own codes are positive,
    [liballuris_error_name] maps the code a command returned to
    LIBALLURIS_SUCCESS for 0, to libusb's name of a transfer of this call for
    a negative code, and to one of the library's three error names
    otherwise; it falls through to the unknown name only where libusb's own
    naming does. *)
Theorem returned_code_is_named (libusb_error_name : Z -> string)
    (c : command) (w w' : world) (r : Z) :
  (forall i, rc (usb e i) <= 0) ->
  0 < LIBALLURIS_MALFORMED_REPLY -> 0 < LIBALLURIS_DEVICE_BUSY ->
  0 < LIBALLURIS_OUT_OF_RANGE ->
  status e c w = Ret (Some r) w' ->
  let name := liballuris_error_name libusb_error_name r in
  (r = 0 /\ name = "LIBALLURIS_SUCCESS"%string)
  \/ (r < 0 /\ from_libusb e w w' r /\ name = libusb_error_name r)
  \/ (0 < r
      /\ In name ["LIBALLURIS_MALFORMED_REPLY"%string; "LIBALLURIS_DEVICE_BUSY"%string;
                  "LIBALLURIS_OUT_OF_RANGE"%string]).
Proof.
  intros Hcodes Hm Hb Ho Hrun name. subst name.
  apply command_codes in Hrun. unfold liballuris_error_name, LIBALLURIS_SUCCESS.
  assert (Hzero : r = 0 ->
            (if r <? 0 then libusb_error_name r
             else if r =? 0 then "LIBALLURIS_SUCCESS"%string
             else if r =? LIBALLURIS_MALFORMED_REPLY then "LIBALLURIS_MALFORMED_REPLY"%string
             else if r =? LIBALLURIS_DEVICE_BUSY then "LIBALLURIS_DEVICE_BUSY"%string
             else if r =? LIBALLURIS_OUT_OF_RANGE then "LIBALLURIS_OUT_OF_RANGE"%string
             else "**UNKNOWN**"%string) = "LIBALLURIS_SUCCESS"%string).
  { intros ->. reflexivity. }
  assert (Hown : 0 < r ->
            r = LIBALLURIS_MALFORMED_REPLY \/ r = LIBALLURIS_DEVICE_BUSY
            \/ r = LIBALLURIS_OUT_OF_RANGE ->
            In (if r <? 0 then libusb_error_name r
                else if r =? 0 then "LIBALLURIS_SUCCESS"%string
                else if r =? LIBALLURIS_MALFORMED_REPLY
                     then "LIBALLURIS_MALFORMED_REPLY"%string
                else if r =? LIBALLURIS_DEVICE_BUSY then "LIBALLURIS_DEVICE_BUSY"%string
                else if r =? LIBALLURIS_OUT_OF_RANGE then "LIBALLURIS_OUT_OF_RANGE"%string
                else "**UNKNOWN**"%string)
               ["LIBALLURIS_MALFORMED_REPLY"%string; "LIBALLURIS_DEVICE_BUSY"%string;
                "LIBALLURIS_OUT_OF_RANGE"%string]).
  { intros Hpos Hr.
    destruct (Z.ltb_spec r 0); [lia|].
    destruct (Z.eqb_spec r 0); [lia|].
    destruct (Z.eqb_spec r LIBALLURIS_MALFORMED_REPLY); [now left|].
    destruct (Z.eqb_spec r LIBALLURIS_DEVICE_BUSY); [now right; left|].
    destruct (Z.eqb_spec r LIBALLURIS_OUT_OF_RANGE); [now right; right; left|].
    lia. }
  destruct Hrun as [Hr|[Hr|[[Hr _]|[[Hr _]|[Hr _]]]]].
  - left. split; [exact Hr | exact (Hzero Hr)].
  - pose proof Hr as (i & _ & Hi). specialize (Hcodes i). rewrite <- Hi in Hcodes.
    destruct (Z.eq_dec r 0) as [Hr0|Hr0].
    + left. split; [exact Hr0 | exact (Hzero Hr0)].
    + right; left. repeat split; [lia | exact Hr |].
      destruct (Z.ltb_spec r 0); [reflexivity | lia].
  - right; right. split; [lia | apply Hown; [lia | tauto]].
  - right; right. split; [lia | apply Hown; [lia | tauto]].
  - right; right. split; [lia | apply Hown; [lia | tauto]].
Qed.

End ReturnCodes.

Lemma scripted_codes (hi : Z) (script : list xfer) :
  Forall (fun x => rc x <= 0) script ->
  forall i, rc (usb (scripted hi script) i) <= 0.
Proof.
  intros Hall i. simpl. destruct (script !! i) as [x|] eqn:Hx; simpl.
  - eapply Forall_lookup_1 in Hall; eauto.
  - unfold LIBUSB_ERROR_TIMEOUT. lia.
Qed.

(** The digits query on [busy_device] returns device-busy. *)
Lemma return_codes_witness :
  exists w',
    status (H := sample_header) busy_device (Digits 7) boot = Ret (Some 2) w'
    /\ (2 = 0 \/ from_libusb busy_device boot w' 2
        \/ (2 = LIBALLURIS_MALFORMED_REPLY (Header := sample_header)
            /\ may_be_malformed (Digits 7))
        \/ (2 = LIBALLURIS_DEVICE_BUSY (Header := sample_header) /\ may_be_busy (Digits 7))
        \/ (2 = LIBALLURIS_OUT_OF_RANGE (Header := sample_header)
            /\ may_be_out_of_range (Digits 7))).
Proof.
  eexists. split; [vm_compute; reflexivity|].
  apply (return_codes (H := sample_header) busy_device (Digits 7) boot).
  vm_compute. reflexivity.
Defined.

(** The state read on [unplugged] fails with libusb's timeout code, which
    [timeout_name] names. *)
Lemma returned_code_is_named_witness :
  exists w',
    status (H := sample_header) unplugged (ReadState 0 600) boot = Ret (Some (-7)) w'
    /\ liballuris_error_name (H := sample_header) timeout_name (-7)
       = "LIBUSB_ERROR_TIMEOUT"%string.
Proof.
  eexists. split; [vm_compute; reflexivity|].
  destruct (returned_code_is_named (H := sample_header) unplugged timeout_name
              (ReadState 0 600) boot _ (-7)
              (scripted_codes 0 [] (Forall_nil_2 _))
              ltac:(cbn; lia) ltac:(cbn; lia) ltac:(cbn; lia) eq_refl)
    as [[Hr _]|[(_ & _ & Hname)|[Hr _]]]; [lia | | lia].
  rewrite Hname. reflexivity.
Defined.

(** ** Output locations *)

Section OutputLocations.
Context `{Header}.

(** A query with an [int] output location writes it only on the way to
    success: when the call returns another code than 0 (and, for the digits
    query, than device-busy) the location holds what it held before, and
    when it returns 0 the location holds the field decoded from the reply
    in [in_buf]. *)
Theorem int_output_written_on_success_only (e : env) (c : command) (w w' : world)
    (old ret out : Z) :
  int_query e c w = Some (old, Ret (ret, out) w') ->
  (ret <> LIBALLURIS_SUCCESS ->
   match c with Digits _ => ret <> LIBALLURIS_DEVICE_BUSY | _ => True end ->
   out = old)
  /\ (ret = LIBALLURIS_SUCCESS -> LIBALLURIS_DEVICE_BUSY <> LIBALLURIS_SUCCESS ->
      out = reply_field e c w').
Proof.
  intros Hq.
  destruct c; simpl in Hq; try discriminate; injection Hq as <- Hrun;
    unfold liballuris_digits, liballuris_raw_value, liballuris_raw_pos_peak,
      liballuris_raw_neg_peak, liballuris_read_state, liballuris_get_pos_limit,
      liballuris_get_neg_limit, liballuris_get_mode in Hrun;
    cbv zeta in Hrun;
    apply bind_ret_inv in Hrun as (r & w1 & _ & Hk);
    destruct (Z.eqb_spec r LIBALLURIS_SUCCESS) as [Hr|Hr];
    repeat match type of Hk with
           | context [if ?b then _ else _] => destruct b
           end;
    inversion Hk; subst; simpl; split; intros; congruence.
Qed.

End OutputLocations.

(** The digits query on [unplugged] leaves the 7 in its output location. *)
Lemma int_output_written_on_success_only_witness :
  exists w',
    liballuris_digits (H := sample_header) unplugged 7 boot = Ret (LIBUSB_ERROR_TIMEOUT, 7) w'
    /\ (LIBUSB_ERROR_TIMEOUT <> LIBALLURIS_SUCCESS ->
        LIBUSB_ERROR_TIMEOUT <> LIBALLURIS_DEVICE_BUSY (Header := sample_header) ->
        7 = 7)
    /\ (LIBUSB_ERROR_TIMEOUT = LIBALLURIS_SUCCESS ->
        LIBALLURIS_DEVICE_BUSY (Header := sample_header) <> LIBALLURIS_SUCCESS ->
        7 = reply_field unplugged (Digits 7) w').
Proof.
  eexists. split; [vm_compute; reflexivity|].
  apply (int_output_written_on_success_only (H := sample_header) unplugged (Digits 7) boot).
  vm_compute. reflexivity.
Defined.

(** ** Limit setters *)

Section LimitSetters.
Context `{Header}.

Lemma take_6_limit_frame (sub limit : Z) (buf : list Z) :
  (6 <= length buf)%nat ->
  take 6 (memcpy_int3 3 limit (frame3 24 6 sub buf))
    = [24; 6; sub; int_byte limit 0; int_byte limit 1; int_byte limit 2].
Proof.
  intros Hlen.
  destruct buf as [|a0 [|a1 [|a2 [|a3 [|a4 [|a5 buf]]]]]]; simpl in Hlen; try lia.
  reflexivity.
Qed.

Lemma int_byte_wraps (limit k : Z) (i : nat) :
  (i < 3)%nat -> int_byte (limit + 16777216 * k) i = int_byte limit i.
Proof.
  intros Hi. unfold int_byte.
  destruct i as [|[|[|i]]]; try lia.
  - change (2 ^ (8 * Z.of_nat 0)) with 1. rewrite !Z.div_1_r.
    replace (limit + 16777216 * k) with (limit + (65536 * k) * 256) by ring.
    now rewrite Z.mod_add by lia.
  - change (2 ^ (8 * Z.of_nat 1)) with 256.
    replace (limit + 16777216 * k) with (limit + (65536 * k) * 256) by ring.
    rewrite Z.div_add by lia.
    replace (limit / 256 + 65536 * k) with (limit / 256 + (256 * k) * 256) by ring.
    now rewrite Z.mod_add by lia.
  - change (2 ^ (8 * Z.of_nat 2)) with 65536.
    replace (limit + 16777216 * k) with (limit + (256 * k) * 65536) by ring.
    rewrite Z.div_add by lia.
    replace (limit / 65536 + 256 * k) with (limit / 65536 + k * 256) by ring.
    now rewrite Z.mod_add by lia.
Qed.

(** A limit setter puts on the bus the frame 0x18, 6, selector (0 for the
    positive limit, 1 for the negative one) and the three low-order bytes
    of the limit, least significant first. It checks no range: limits that
    differ by a multiple of 2^24 give the same run. A limit of the 24-bit
    signed range is read back from the frame by a decoder whose [ret]
    starts zeroed. *)
Theorem limit_setters_frame (e : env) (limit : Z) (w : world) :
  6 <= DEFAULT_SEND_BUF_LEN -> 6 <= DEFAULT_RECV_BUF_LEN ->
  (6 <= length (out_buf w))%nat ->
  let frame sub := [24; 6; sub; int_byte limit 0; int_byte limit 1; int_byte limit 2] in
  (exists r w' later,
      liballuris_set_pos_limit e limit w = Ret r w'
      /\ trace w' = later ++ BulkOut (frame 0) DEFAULT_SEND_TIMEOUT :: trace w)
  /\ (exists r w' later,
      liballuris_set_neg_limit e limit w = Ret r w'
      /\ trace w' = later ++ BulkOut (frame 1) DEFAULT_SEND_TIMEOUT :: trace w)
  /\ (forall k,
      liballuris_set_pos_limit e (limit + 16777216 * k) w = liballuris_set_pos_limit e limit w
      /\ liballuris_set_neg_limit e (limit + 16777216 * k) w
         = liballuris_set_neg_limit e limit w)
  /\ (-8388608 <= limit <= 8388607 ->
      char_to_int24 0 (drop 3 (frame 0)) = limit
      /\ char_to_int24 0 (drop 3 (frame 1)) = limit).
Proof.
  intros Hs Hr Hlen frame.
  assert (Hsend : forall sub,
    exists r w' later,
      liballuris_device_bulk_transfer e 6 DEFAULT_SEND_TIMEOUT 6 500
        (set_out_buf (fun b => memcpy_int3 3 limit (frame3 24 6 sub b)) w) = Ret r w'
      /\ trace w' = later ++ BulkOut (frame sub) DEFAULT_SEND_TIMEOUT :: trace w).
  { intros sub.
    destruct (bulk_transfer_sends e 6 DEFAULT_SEND_TIMEOUT 6 500
                (set_out_buf (fun b => memcpy_int3 3 limit (frame3 24 6 sub b)) w))
      as (r & w' & later & Hret & Htrace & _).
    - lia.
    - lia.
    - simpl. unfold memcpy_int3, frame3. rewrite !load_store_ne by lia.
      apply load_store_eq. rewrite length_store. lia.
    - exists r, w', later. split; [exact Hret|].
      rewrite Htrace. simpl out_buf. change (Z.to_nat 6) with 6%nat.
      now rewrite take_6_limit_frame by exact Hlen. }
  split; [apply (Hsend 0)|]. split; [apply (Hsend 1)|]. split.
  - intros k. unfold liballuris_set_pos_limit, liballuris_set_neg_limit, memcpy_int3.
    now rewrite !int_byte_wraps by lia.
  - intros Hrange.
    pose proof (char_to_int24_round_trip_zeroed limit [24; 6; 0; 0; 0; 0] Hrange) as H0.
    pose proof (char_to_int24_round_trip_zeroed limit [24; 6; 1; 0; 0; 0] Hrange) as H1.
    simpl in H0, H1. split; [apply H0 | apply H1]; lia.
Qed.

End LimitSetters.

(** The limit 5 on [limit_accepted]. *)
Lemma limit_setters_frame_witness :
  (exists r w' later,
      liballuris_set_pos_limit (H := sample_header) limit_accepted 5 boot = Ret r w'
      /\ trace w' = later ++ [BulkOut [24; 6; 0; int_byte 5 0; int_byte 5 1; int_byte 5 2] 50])
  /\ (-8388608 <= 5 <= 8388607 ->
      char_to_int24 0 (drop 3 [24; 6; 0; int_byte 5 0; int_byte 5 1; int_byte 5 2]) = 5
      /\ char_to_int24 0 (drop 3 [24; 6; 1; int_byte 5 0; int_byte 5 1; int_byte 5 2]) = 5).
Proof.
  destruct (limit_setters_frame (H := sample_header) limit_accepted 5 boot)
    as (Hpos & _ & _ & Hback); [cbn; lia ..|].
  split; [exact Hpos | exact Hback].
Defined.

(** ** What success of start and stop means *)

Section PollerSuccess.
Context `{Header}.







End PollerSuccess.


(** ** The serial-number buffer *)

Section SerialBuffer.
Context `{Header}.

Lemma lookup_blit_ge (src : list Z) :
  forall dst i, (length src <= i)%nat -> blit src dst !! i = dst !! i.
Proof.
  induction src as [|s src IH]; intros [|d dst] i Hi; simpl in *; try reflexivity.
  destruct i as [|i]; [lia|]. simpl. apply IH. lia.
Qed.

Lemma lookup_blit_lt (src : list Z) :
  forall dst i, (i < length src)%nat -> (i < length dst)%nat -> blit src dst !! i = src !! i.
Proof.
  induction src as [|s src IH]; intros [|d dst] i Hs Hd; simpl in *; try lia.
  destruct i as [|i]; [reflexivity|]. simpl. apply IH; lia.
Qed.

Lemma snprintf_within (buf : list Z) (len c i : Z) :
  0 <= len ->
  length (snprintf_c_dot_i buf len c i) = length buf
  /\ (forall k, len <= Z.of_nat k -> snprintf_c_dot_i buf len c i !! k = buf !! k)
  /\ (0 < len <= Z.of_nat (length buf) ->
      exists k, Z.of_nat k < len /\ snprintf_c_dot_i buf len c i !! k = Some 0).
Proof.
  intros Hlen. unfold snprintf_c_dot_i.
  destruct (Z.eqb_spec len 0) as [->|Hne].
  - repeat split; try reflexivity. lia.
  - set (text := to_uchar c :: _).
    assert (Hcut : (length (take (Z.to_nat (len - 1)) text) <= Z.to_nat (len - 1))%nat)
      by (rewrite length_take; lia).
    split; [apply length_blit|]. split.
    + intros k Hk. apply lookup_blit_ge. rewrite length_app. simpl. lia.
    + intros Hfit. exists (length (take (Z.to_nat (len - 1)) text)). split; [lia|].
      rewrite lookup_blit_lt.
      * rewrite lookup_app_r by lia. now rewrite Nat.sub_diag.
      * rewrite length_app. simpl. lia.
      * lia.
Qed.

(** [liballuris_serial_number] writes into the caller's buffer only within
    its first [length] characters and only when it returns 0; the text it
    writes then ends in a NUL inside those characters. *)
Theorem serial_number_writes_within_length (e : env) (buf buf' : list Z) (len ret : Z)
    (w w' : world) :
  0 <= len ->
  liballuris_serial_number e buf len w = Ret (ret, buf') w' ->
  length buf' = length buf
  /\ (forall k, len <= Z.of_nat k -> buf' !! k = buf !! k)
  /\ (ret <> LIBALLURIS_SUCCESS -> buf' = buf)
  /\ (ret = LIBALLURIS_SUCCESS -> LIBALLURIS_DEVICE_BUSY <> LIBALLURIS_SUCCESS ->
      0 < len <= Z.of_nat (length buf) ->
      exists k, Z.of_nat k < len /\ buf' !! k = Some 0).
Proof.
  intros Hlen. unfold liballuris_serial_number. cbv zeta. intros Hrun.
  apply bind_ret_inv in Hrun as (r & w1 & _ & Hk).
  destruct (Z.eqb_spec r LIBALLURIS_SUCCESS) as [Hr|Hr].
  - destruct (char_to_uint16 (drop 3 (in_buf w1)) =? -1); inversion Hk; subst.
    + repeat split; auto. intros; congruence.
    + destruct (snprintf_within buf len (load (in_buf w') 5 + 65)
                  (char_to_uint16 (drop 3 (in_buf w'))) Hlen) as (Hl & Hout & Hnul).
      repeat split; auto. intros; congruence.
  - inversion Hk; subst. repeat split; auto. intros; congruence.
Qed.

End SerialBuffer.

(** P.25412 into the first five characters of a buffer of ten. *)
Lemma serial_number_writes_within_length_witness :
  exists w',
    liballuris_serial_number (H := sample_header) serial_P_25412 (replicate 10 7) 5 boot
      = Ret (0, chars "P.25" ++ [0; 7; 7; 7; 7; 7]) w'
    /\ length (chars "P.25" ++ [0; 7; 7; 7; 7; 7]) = length (replicate 10 7)
    /\ (forall k, 5 <= Z.of_nat k ->
          (chars "P.25" ++ [0; 7; 7; 7; 7; 7]) !! k = replicate 10 7 !! k).
Proof.
  eexists. split; [vm_compute; reflexivity|].
  destruct (serial_number_writes_within_length (H := sample_header) serial_P_25412
              (replicate 10 7) (chars "P.25" ++ [0; 7; 7; 7; 7; 7]) 5 0 boot
              _ ltac:(lia) ltac:(vm_compute; reflexivity)) as (Hl & Hout & _).
  split; [exact Hl | exact Hout].
Defined.

(** ** Cyclic measurement and mode *)

Section CyclicAndMode.
Context `{Header}.

(** For every packet length from 0 to 19 the cyclic-measurement command
    writes the frame 1, 4, flag, length, where the flag is 2 for any
    non-zero [enable] and 0 otherwise. When libusb reports that write as
    complete, one read of four bytes follows and nothing else goes over the
    bus; after a failed or short write no read is made, and the call returns
    the code of the write. *)
Theorem cyclic_measurement_frame (e : env) (enable len : Z) (w : world) :
  0 <= len <= 19 ->
  4 <= DEFAULT_SEND_BUF_LEN -> 4 <= DEFAULT_RECV_BUF_LEN ->
  (4 <= length (out_buf w))%nat ->
  let sent := usb e (xfers w) in
  let write := BulkOut [1; 4; if enable =? 0 then 0 else 2; len] DEFAULT_SEND_TIMEOUT in
  (rc sent = LIBUSB_SUCCESS /\ actual sent = 4 ->
   exists r msgs w',
     liballuris_cyclic_measurement e enable len w = Ret r w'
     /\ xfers w' = S (S (xfers w))
     /\ trace w' = map Stderr msgs ++ BulkIn 4 DEFAULT_RECEIVE_TIMEOUT :: write :: trace w)
  /\ (rc sent <> LIBUSB_SUCCESS \/ actual sent <> 4 ->
      exists w',
        liballuris_cyclic_measurement e enable len w = Ret (rc sent) w'
        /\ xfers w' = S (xfers w)
        /\ in_buf w' = in_buf w
        /\ trace w' = Stderr WriteError :: write :: trace w).
Proof.
  intros Hrange Hs Hr Hlen. cbv zeta. unfold liballuris_cyclic_measurement.
  destruct (Z.ltb_spec len 0); [lia|]. destruct (Z.ltb_spec 19 len); [lia|]. simpl.
  set (w1 := set_out_buf _ w).
  assert (Hout : take (Z.to_nat 4) (out_buf w1) = [1; 4; if enable =? 0 then 0 else 2; len]).
  { subst w1. simpl. unfold to_uchar. rewrite Z.mod_small by lia.
    destruct (out_buf w) as [|a [|b [|c [|d l]]]]; simpl in Hlen; try lia.
    reflexivity. }
  assert (Hframe : load (out_buf w1) 1 = 4).
  { subst w1. simpl. rewrite !load_store_ne by lia.
    apply load_store_eq. rewrite length_store. lia. }
  split.
  - intros [Hrc Hact].
    destruct (bulk_transfer_exchange e 4 DEFAULT_SEND_TIMEOUT 4 DEFAULT_RECEIVE_TIMEOUT w1)
      as (r & msgs & Hret & _); [lia | lia | exact Hframe | exact Hrc | exact Hact |].
    rewrite Hret, Hout. eexists r, msgs, _. repeat split.
  - intros Hfail.
    rewrite bulk_transfer_write_failure; [| lia | lia | exact Hframe | exact Hfail].
    rewrite Hout. eexists. repeat split.
Qed.

(** The mode setter hides a failed write. When libusb reports the write of
    the frame as failed, nothing is read, and the call compares the mode
    with what [in_buf[2]] held before: it returns libusb's code when they
    agree and device-busy when they differ. *)
Theorem set_mode_after_failed_write (e : env) (mode : Z) (w : world) :
  0 <= mode <= 3 ->
  3 <= DEFAULT_SEND_BUF_LEN -> 3 <= DEFAULT_RECV_BUF_LEN ->
  (3 <= length (out_buf w))%nat ->
  rc (usb e (xfers w)) <> LIBUSB_SUCCESS ->
  exists w',
    liballuris_set_mode e mode w
      = Ret (if load (in_buf w) 2 =? mode then rc (usb e (xfers w))
             else LIBALLURIS_DEVICE_BUSY) w'
    /\ in_buf w' = in_buf w /\ xfers w' = S (xfers w).
Proof.
  intros Hmode Hs Hr Hlen Hrc. unfold liballuris_set_mode, to_uchar.
  destruct (Z.ltb_spec mode 0); [lia|]. destruct (Z.ltb_spec 3 mode); [lia|]. simpl.
  rewrite Z.mod_small by lia.
  rewrite bulk_transfer_write_failure.
  - simpl. destruct (load (in_buf w) 2 =? mode); simpl; eexists; repeat split.
  - lia.
  - lia.
  - simpl. apply load_frame3_length. lia.
  - left. exact Hrc.
Qed.

End CyclicAndMode.

(** Packet length 0 on [cyclic_accepted]: the frame 1, 4, 2, 0 goes out
    and four bytes are read. *)
Lemma cyclic_measurement_frame_witness :
  exists r msgs w',
    liballuris_cyclic_measurement (H := sample_header) cyclic_accepted 1 0 boot = Ret r w'
    /\ xfers w' = 2%nat
    /\ trace w' = map Stderr msgs ++ [BulkIn 4 100; BulkOut [1; 4; 2; 0] 50].
Proof.
  apply (cyclic_measurement_frame (H := sample_header) cyclic_accepted 1 0 boot);
    first [ cbn; lia | split; reflexivity ].
Defined.

(** Mode 1 on [unplugged]: [in_buf[2]] holds 0, the call returns
    device-busy and not the timeout. *)
Lemma set_mode_after_failed_write_witness :
  exists w',
    liballuris_set_mode (H := sample_header) unplugged 1 boot = Ret 2 w'
    /\ in_buf w' = in_buf boot /\ xfers w' = 1%nat.
Proof.
  apply (set_mode_after_failed_write (H := sample_header) unplugged 1 boot);
    first [ cbn; lia | vm_compute; discriminate ].
Defined.

(** * Device enumeration *)

Lemma claimed_app (a b : list bus_event) : claimed (a ++ b) = claimed b ++ claimed a.
Proof.
  induction a as [|ev a IH]; simpl; [now rewrite app_nil_r|].
  destruct ev; try exact IH. destruct (r =? 0); [|exact IH].
  rewrite IH. now rewrite app_assoc.
Qed.

Lemma closed_app (a b : list bus_event) : closed (a ++ b) = closed b ++ closed a.
Proof.
  induction a as [|ev a IH]; simpl; [now rewrite app_nil_r|].
  destruct ev; try exact IH. rewrite IH. now rewrite app_assoc.
Qed.

Lemma unreferenced_app (a b : list bus_event) :
  unreferenced (a ++ b) = unreferenced b ++ unreferenced a.
Proof.
  induction a as [|ev a IH]; simpl; [now rewrite app_nil_r|].
  destruct ev; try exact IH. rewrite IH. now rewrite app_assoc.
Qed.

Section Listing.
Context `{Header} `{Descriptions}.

Variable bus : libusb.
Variable e : env.
Variable read_serial : Z.

(** What one round of the loop does to the count, the array and the
    handles, when the element it may write exists. *)
Lemma visit_round (d : device) (num : nat) (slots : list alluris_device_description)
    (t : list bus_event) (w w' : world)
    (res : option (bool * nat * list alluris_device_description * list bus_event)) :
  visit bus e read_serial d num slots t w = Ret res w' ->
  (num < length slots)%nat ->
  exists tested num' slots' later,
    res = Some (tested, num', slots', later ++ t)
    /\ length slots' = length slots
    /\ (forall r, ~ In (BusStderr (ClaimError r)) later)
    /\ closed later = claimed later
    /\ ((num' = num /\ claimed later = []
         /\ take num (map dev slots') = take num (map dev slots))
        \/ (num' = S num /\ tested = true /\ claimed later = [d]
            /\ take (S num) (map dev slots') = take num (map dev slots) ++ [Some d]
            /\ exists r, 0 <= r /\ In (GetDeviceDescriptor d r 0x04d8 0xfc30) later)).
Proof.
  intros Hrun Hnum. unfold visit in Hrun.
  destruct (get_device_descriptor bus d (length t)) as [r [[idVendor idProduct] iProduct]].
  destruct (lookup_lt_is_Some_2 slots num Hnum) as [slot Hslot].
  assert (Hkeep : forall x, take num (map dev (<[num := x]> slots)) = take num (map dev slots)).
  { intros x. change (take num (dev <$> <[num := x]> slots) = take num (dev <$> slots)).
    rewrite list_fmap_insert. now apply take_insert_ge. }
  destruct (Z.ltb_spec r 0) as [Hr|Hr].
  - inversion Hrun; subst.
    exists false, num, slots, [BusStderr (DescriptorError r); GetDeviceDescriptor d r idVendor idProduct].
    repeat split; auto.
    intros r' [Hin|[Hin|[]]]; discriminate.
  - destruct (Z.eqb_spec idVendor 0x04d8) as [->|Hv]; cbn [andb] in Hrun.
    2:{ inversion Hrun; subst.
        exists true, num, slots, [UnrefDevice d; GetDeviceDescriptor d r idVendor idProduct].
        repeat split; auto. intros r' [Hin|[Hin|[]]]; discriminate. }
    destruct (Z.eqb_spec idProduct 0xfc30) as [->|Hp]; cbn [andb] in Hrun.
    2:{ inversion Hrun; subst.
        exists true, num, slots, [UnrefDevice d; GetDeviceDescriptor d r 0x04d8 idProduct].
        repeat split; auto. intros r' [Hin|[Hin|[]]]; discriminate. }
    rewrite Hslot in Hrun. cbv zeta in Hrun.
    set (t1 := GetDeviceDescriptor d r 0x04d8 0xfc30 :: t) in Hrun.
    destruct (Z.eqb_spec (open bus d (length t1)) LIBUSB_SUCCESS) as [Hopen|Hopen].
    2:{ inversion Hrun; subst.
        exists true, num, (<[num := set_dev (Some d) slot]> slots),
          [BusStderr (OpenError (open bus d (length t1))); Open d (open bus d (length t1));
           GetDeviceDescriptor d r 0x04d8 0xfc30].
        rewrite length_insert. repeat split; auto.
        intros r' [Hin|[Hin|[Hin|[]]]]; discriminate. }
    set (t2 := Open d (open bus d (length t1)) :: t1) in Hrun.
    destruct (Z.eqb_spec (claim_interface bus d (length t2)) LIBUSB_SUCCESS) as [Hclaim|Hclaim].
    2:{ change (LIBUSB_ERROR_BUSY =? 0) with false in Hrun. cbn [negb] in Hrun.
        inversion Hrun; subst.
        exists true, num, (<[num := set_dev (Some d) slot]> slots),
          [ClaimInterface d (claim_interface bus d (length t2));
           Open d (open bus d (length t1)); GetDeviceDescriptor d r 0x04d8 0xfc30].
        rewrite length_insert. unfold LIBUSB_SUCCESS in Hclaim.
        apply Z.eqb_neq in Hclaim. cbn [claimed closed app]. rewrite Hclaim.
        repeat split; auto.
        intros r' [Hin|[Hin|[Hin|[]]]]; discriminate. }
    assert (Hgrow : forall x, dev x = Some d ->
              take (S num) (map dev (<[num := x]> (<[num := set_dev (Some d) slot]> slots)))
              = take num (map dev slots) ++ [Some d]).
    { intros x Hx. rewrite list_insert_insert_eq.
      change (take (S num) (dev <$> <[num := x]> slots) = take num (dev <$> slots) ++ [Some d]).
      rewrite list_fmap_insert, Hx.
      erewrite take_S_r by (apply list_lookup_insert_eq; now rewrite length_fmap).
      now rewrite take_insert_ge by lia. }
    unfold LIBUSB_SUCCESS in Hclaim. subst t1 t2. simpl in Hclaim.
    destruct (negb (iProduct =? 0));
      (destruct (negb (read_serial =? 0));
       [ destruct (liballuris_serial_number e (serial_number (set_dev (Some d) slot))
                     (Z.of_nat sizeof_serial_number) w) as [[ret buf] w1|c w1|w1];
         simpl in Hrun; try discriminate
       | simpl in Hrun ]);
      inversion Hrun; subst;
      first
        [ eexists true, (S num), _,
            [Close d; ReleaseInterface d; GetStringDescriptor d iProduct;
             ClaimInterface d _; Open d _; GetDeviceDescriptor d r 0x04d8 0xfc30];
          split; [reflexivity|]
        | eexists true, (S num), _,
            [Close d; ReleaseInterface d;
             ClaimInterface d _; Open d _; GetDeviceDescriptor d r 0x04d8 0xfc30];
          split; [reflexivity|] ];
      rewrite !length_insert; cbn [claimed closed app]; rewrite Hclaim; cbn [Z.eqb app];
      (repeat split; auto;
       [ intros r' Hin; repeat (destruct Hin as [Hin|Hin]; [discriminate|]); exact Hin
       | right; repeat split; auto;
         exists r; split; [lia | simpl; tauto] ]).
Qed.

(** Without the serial read a round makes no bulk transfer and cannot
    leave the process. *)
Lemma visit_quiet (d : device) (num : nat) (slots : list alluris_device_description)
    (t : list bus_event) (w : world) :
  read_serial = 0 ->
  exists res, visit bus e read_serial d num slots t w = Ret res w.
Proof.
  intros ->. unfold visit.
  destruct (get_device_descriptor bus d (length t)) as [r [[idVendor idProduct] iProduct]].
  change (negb (0 =? 0)) with false. cbv iota.
  repeat match goal with
         | |- context [if ?b then _ else _] => destruct b
         | |- context [match ?x with Some _ => _ | None => _ end] => destruct x
         end;
    simpl; eexists; reflexivity.
Qed.

Lemma scan_quiet (devs : list device) :
  read_serial = 0 ->
  forall num slots t w, exists res, scan bus e read_serial devs num slots t w = Ret res w.
Proof.
  intros Hrs. induction devs as [|d devs IH]; intros num slots t w; cbn [scan].
  - eexists; reflexivity.
  - destruct (visit_quiet d num slots t w Hrs) as [round ->]. cbn [bind].
    destruct round as [[[[tested num1] slots1] t1]|]; [|eexists; reflexivity].
    destruct (tested && _); [eexists; reflexivity | apply IH].
Qed.

(** The loop invariant: the count is the number of interfaces claimed so
    far, the counted elements hold the claimed devices in order, and a
    handle is closed exactly when its interface was claimed. *)
Lemma scan_listing (devs : list device) :
  forall num slots t w w' res,
    scan bus e read_serial devs num slots t w = Ret res w' ->
    (num < length slots)%nat ->
    exists num' slots' later,
      res = Some (num', slots', later ++ t)
      /\ length slots' = length slots
      /\ (num' <= length slots)%nat
      /\ (forall r, ~ In (BusStderr (ClaimError r)) later)
      /\ closed later = claimed later
      /\ num' = (num + length (claimed later))%nat
      /\ take num' (map dev slots') = take num (map dev slots) ++ map Some (claimed later)
      /\ (forall d, In d (claimed later) ->
          exists r, 0 <= r /\ In (GetDeviceDescriptor d r 0x04d8 0xfc30) later).
Proof.
  induction devs as [|d devs IH]; intros num slots t w w' res; cbn [scan]; intros Hrun Hnum.
  - inversion Hrun; subst. exists num, slots, []. simpl.
    rewrite app_nil_r, Nat.add_0_r. repeat split; auto; try lia; tauto.
  - apply bind_ret_inv in Hrun as (round & w1 & Hvisit & Hk).
    apply visit_round in Hvisit as
        (tested & num1 & slots1 & later1 & -> & Hlen1 & Hmsg1 & Hclosed1 & Hcases);
      [|exact Hnum].
    assert (Hstep : (num1 <= length slots)%nat
                    /\ num1 = (num + length (claimed later1))%nat
                    /\ take num1 (map dev slots1)
                       = take num (map dev slots) ++ map Some (claimed later1)
                    /\ (forall d', In d' (claimed later1) ->
                        exists r, 0 <= r /\ In (GetDeviceDescriptor d' r 0x04d8 0xfc30) later1)).
    { destruct Hcases as [(-> & Hc & Htake)|(-> & _ & Hc & Htake & Hdesc)]; rewrite Hc; simpl.
      - rewrite app_nil_r, Nat.add_0_r. repeat split; auto; try lia; tauto.
      - repeat split; auto; try lia; intros d' [<-|[]]; exact Hdesc. }
    destruct Hstep as (Hle1 & Hnum1 & Htake1 & Hdesc1).
    destruct (tested && Nat.eqb num1 (length slots1)) eqn:Htest.
    + inversion Hk; subst res w'. exists num1, slots1, later1. repeat split; auto.
    + assert (Hlt : (num1 < length slots1)%nat).
      { destruct Hcases as [(-> & _)|(-> & -> & _)]; [lia|].
        cbn [andb] in Htest. apply Nat.eqb_neq in Htest. lia. }
      apply IH in Hk as
          (num2 & slots2 & later2 & -> & Hlen2 & Hle2 & Hmsg2 & Hclosed2 & Hnum2 & Htake2 & Hdesc2);
        [|exact Hlt].
      exists num2, slots2, (later2 ++ later1).
      rewrite claimed_app, closed_app, Hclosed1, Hclosed2, length_app, map_app.
      repeat split.
      * now rewrite app_assoc.
      * congruence.
      * lia.
      * intros r Hin. apply in_app_or in Hin as [Hin|Hin]; [eapply Hmsg2 | eapply Hmsg1]; eauto.
      * lia.
      * rewrite Htake2, Htake1. now rewrite app_assoc.
      * intros d' Hin. apply in_app_or in Hin as [Hin|Hin].
        -- destruct (Hdesc1 d' Hin) as (r & Hr & Hd). exists r. split; [exact Hr|].
           apply in_or_app. now right.
        -- destruct (Hdesc2 d' Hin) as (r & Hr & Hd). exists r. split; [exact Hr|].
           apply in_or_app. now left.
Qed.

End Listing.

Lemma to_int_size_t_small (z : Z) : 0 <= z < 2 ^ 31 -> to_int (to_size_t z) = z.
Proof.
  intros Hz. unfold to_int, to_size_t, signed.
  rewrite (Z.mod_small z (2 ^ 64)) by lia.
  rewrite (Z.mod_small z (2 ^ 32)) by lia.
  destruct (Z.ltb_spec z (2 ^ (32 - 1))); [reflexivity | simpl in *; lia].
Qed.

Section ListingCalls.
Context `{Header} `{Descriptions}.

Variable bus : libusb.
Variable e : env.

Lemma get_device_list_listing (alluris_devs : list alluris_device_description)
    (read_serial : Z) (t : list bus_event) (w w' : world)
    (res : option (Z * list alluris_device_description * list bus_event)) :
  (1 <= length alluris_devs)%nat ->
  Z.of_nat (length alluris_devs) < 2 ^ 31 ->
  liballuris_get_device_list bus e alluris_devs read_serial t w = Ret res w' ->
  exists n slots later,
    res = Some (Z.of_nat n, slots, later ++ t)
    /\ (n <= length alluris_devs)%nat
    /\ length slots = length alluris_devs
    /\ n = length (claimed later)
    /\ take n (map dev slots) = map Some (claimed later)
    /\ (forall d, In d (claimed later) ->
        exists r, 0 <= r /\ In (GetDeviceDescriptor d r 0x04d8 0xfc30) later)
    /\ closed later = claimed later
    /\ (forall r, ~ In (BusStderr (ClaimError r)) later).
Proof.
  intros Hlen Hint Hrun. unfold liballuris_get_device_list in Hrun.
  destruct (get_device_list bus (length t)) as [cnt devs].
  destruct (0 <? cnt).
  - apply bind_ret_inv in Hrun as (found & w1 & Hscan & Hk).
    apply scan_listing in Hscan as
        (num & slots & later & -> & Hl & Hle & Hmsg & Hclosed & Hnum & Htake & Hdesc);
      [|rewrite length_map; lia].
    rewrite length_map in Hl, Hle. simpl in Hnum, Htake.
    inversion Hk; subst res w'.
    exists num, slots, (later ++ [GetDeviceList]).
    rewrite claimed_app, closed_app. simpl.
    rewrite to_int_size_t_small by lia.
    repeat split; auto.
    + now rewrite <- app_assoc.
    + intros d Hin. destruct (Hdesc d Hin) as (r & Hr & Hd). exists r.
      split; [exact Hr|]. apply in_or_app. now left.
    + intros r Hin. apply in_app_or in Hin as [Hin|[Hin|[]]]; [|discriminate].
      exact (Hmsg r Hin).
  - inversion Hrun; subst res w'.
    exists 0%nat, (map (set_dev None) alluris_devs), [GetDeviceList]. simpl.
    rewrite length_map. repeat split; auto; try lia; try tauto.
    intros r [Hin|[]]. discriminate.
Qed.

(** Without the serial read the listing makes no bulk transfer and always
    returns. *)
Lemma get_device_list_quiet (alluris_devs : list alluris_device_description)
    (t : list bus_event) (w : world) :
  exists res, liballuris_get_device_list bus e alluris_devs 0 t w = Ret res w.
Proof.
  unfold liballuris_get_device_list.
  destruct (get_device_list bus (length t)) as [cnt devs].
  destruct (0 <? cnt); [|eexists; reflexivity].
  destruct (scan_quiet bus e 0 devs eq_refl 0 (map (set_dev None) alluris_devs)
              (GetDeviceList :: t) w) as [found ->].
  cbn [bind]. destruct found as [[[num slots] t1]|]; eexists; reflexivity.
Qed.

(** The listing holds what could be opened and claimed. For an array of
    at least one and fewer than 2^31 elements, the returned count [n] is at
    most the length of the array and is the number of interfaces the call
    claimed; the first [n] elements hold, in bus order, the devices whose
    interface was claimed, and each of them had shown the vendor and product
    identifiers 0x04d8 and 0xfc30 in a descriptor read without error. *)
Theorem get_device_list_lists_claimed (alluris_devs : list alluris_device_description)
    (read_serial : Z) (t : list bus_event) (w w' : world)
    (res : option (Z * list alluris_device_description * list bus_event)) :
  (1 <= length alluris_devs)%nat ->
  Z.of_nat (length alluris_devs) < 2 ^ 31 ->
  liballuris_get_device_list bus e alluris_devs read_serial t w = Ret res w' ->
  exists n slots later,
    res = Some (Z.of_nat n, slots, later ++ t)
    /\ (n <= length alluris_devs)%nat
    /\ length slots = length alluris_devs
    /\ n = length (claimed later)
    /\ take n (map dev slots) = map Some (claimed later)
    /\ (forall d, In d (claimed later) ->
        exists r, 0 <= r /\ In (GetDeviceDescriptor d r 0x04d8 0xfc30) later).
Proof.
  intros Hlen Hint Hrun.
  destruct (get_device_list_listing _ _ _ _ _ _ Hlen Hint Hrun)
    as (n & slots & later & Hres & Hle & Hl & Hn & Htake & Hdesc & _).
  exists n, slots, later. repeat split; assumption.
Qed.

(** Handles of the listing. A handle is closed exactly when its interface
    was claimed: the handles closed during the call are those of the
    claimed devices, in the same order, so that a handle whose claim failed
    is left open; and the message for a failed claim is never printed,
    whatever code the claim returned, since the branch before it tests the
    constant [LIBUSB_ERROR_BUSY]. *)
Theorem get_device_list_closes_claimed_only (alluris_devs : list alluris_device_description)
    (read_serial : Z) (t : list bus_event) (w w' : world)
    (res : option (Z * list alluris_device_description * list bus_event)) :
  (1 <= length alluris_devs)%nat ->
  Z.of_nat (length alluris_devs) < 2 ^ 31 ->
  liballuris_get_device_list bus e alluris_devs read_serial t w = Ret res w' ->
  exists cnt slots later,
    res = Some (cnt, slots, later ++ t)
    /\ closed later = claimed later
    /\ (forall r, ~ In (BusStderr (ClaimError r)) later).
Proof.
  intros Hlen Hint Hrun.
  destruct (get_device_list_listing _ _ _ _ _ _ Hlen Hint Hrun)
    as (n & slots & later & Hres & _ & _ & _ & _ & _ & Hclosed & Hmsg).
  exists (Z.of_nat n), slots, later. repeat split; assumption.
Qed.

(** An array of no element. When libusb lists at least one device and the
    descriptor of the first is read without error, the call with length 0
    either finds an Alluris device and writes [alluris_devs[0].dev], an
    element the array does not have, or drops its reference to the device
    and returns 0 at once, without looking at the devices after it. *)
Theorem get_device_list_empty_array (read_serial : Z) (t : list bus_event) (w : world)
    (cnt : Z) (d : device) (devs : list device) (r idVendor idProduct iProduct : Z) :
  get_device_list bus (length t) = (cnt, d :: devs) ->
  0 < cnt ->
  get_device_descriptor bus d (S (length t)) = (r, (idVendor, idProduct, iProduct)) ->
  0 <= r ->
  liballuris_get_device_list bus e [] read_serial t w
  = if (idVendor =? 0x04d8) && (idProduct =? 0xfc30) then Ret None w
    else Ret (Some (0, [], [UnrefDevice d; GetDeviceDescriptor d r idVendor idProduct;
                            GetDeviceList] ++ t)) w.
Proof.
  intros Hlist Hcnt Hdesc Hr. unfold liballuris_get_device_list.
  rewrite Hlist. destruct (Z.ltb_spec 0 cnt); [|lia].
  cbn [scan map]. unfold visit. cbn [length]. rewrite Hdesc.
  destruct (Z.ltb_spec r 0); [lia|].
  destruct ((idVendor =? 0x04d8) && (idProduct =? 0xfc30)); reflexivity.
Qed.

End ListingCalls.

(** On [sample_bus] the listing counts device 2 only. *)
Lemma get_device_list_lists_claimed_witness :
  exists n slots later,
    sample_listed = Some (Z.of_nat n, slots, later ++ [])
    /\ (n <= length (on_stack (H0 := sample_descriptions) zeroed_stack))%nat
    /\ length slots = length (on_stack (H0 := sample_descriptions) zeroed_stack)
    /\ n = length (claimed later)
    /\ take n (map dev slots) = map Some (claimed later)
    /\ (forall d, In d (claimed later) ->
        exists r, 0 <= r /\ In (GetDeviceDescriptor d r 0x04d8 0xfc30) later).
Proof.
  apply (get_device_list_lists_claimed (H := sample_header) (H0 := sample_descriptions)
           sample_bus unplugged (on_stack (H0 := sample_descriptions) zeroed_stack) 0 []
           boot boot sample_listed);
    [cbn; lia | cbn; lia | vm_compute; reflexivity].
Defined.

(** On [sample_bus] the handle of device 1, whose claim fails, stays
    open. *)
Lemma get_device_list_closes_claimed_only_witness :
  exists cnt slots later,
    sample_listed = Some (cnt, slots, later ++ [])
    /\ closed later = claimed later
    /\ (forall r, ~ In (BusStderr (ClaimError r)) later).
Proof.
  apply (get_device_list_closes_claimed_only (H := sample_header)
           (H0 := sample_descriptions)
           sample_bus unplugged (on_stack (H0 := sample_descriptions) zeroed_stack) 0 []
           boot boot sample_listed);
    [cbn; lia | cbn; lia | vm_compute; reflexivity].
Defined.

(** With length 0 on [sample_bus], whose first device is a hub, the call
    drops the hub and returns 0. *)
Lemma get_device_list_empty_array_witness :
  liballuris_get_device_list (H := sample_header) (H0 := sample_descriptions)
    sample_bus unplugged [] 0 [] boot
  = Ret (Some (0, [], [UnrefDevice 0%nat; GetDeviceDescriptor 0%nat 0 0x1d6b 0x0002;
                       GetDeviceList])) boot.
Proof.
  exact (get_device_list_empty_array (H := sample_header) (H0 := sample_descriptions)
           sample_bus unplugged 0 [] boot 3 0%nat [1; 2]%nat 0 0x1d6b 0x0002 0
           eq_refl ltac:(lia) eq_refl ltac:(lia)).
Defined.

(** ** Dropping the references and opening a device *)

Lemma free_device_list_unrefs (slots : list alluris_device_description) :
  forall t,
    liballuris_free_device_list slots t
    = (map (set_dev None) slots, rev (map UnrefDevice (omap dev slots)) ++ t).
Proof.
  induction slots as [|[[d|] p s] slots IH]; intros t; simpl; [reflexivity| |].
  - rewrite IH. unfold set_dev at 1. simpl. now rewrite <- app_assoc.
  - rewrite IH. reflexivity.
Qed.

(** [liballuris_free_device_list] drops each reference once. It calls
    [libusb_unref_device] once for every element that holds a device, in the
    order of the array, and for nothing else; it nulls every [dev] and leaves
    the texts as they are; a second call on the result does nothing. *)
Theorem free_device_list_drops_each_reference (slots : list alluris_device_description)
    (t : list bus_event) :
  let freed := liballuris_free_device_list slots t in
  freed = (map (set_dev None) slots, rev (map UnrefDevice (omap dev slots)) ++ t)
  /\ unreferenced (snd freed) = unreferenced t ++ omap dev slots
  /\ liballuris_free_device_list (fst freed) (snd freed) = freed.
Proof.
  cbv zeta. rewrite !free_device_list_unrefs. cbn [fst snd].
  split; [reflexivity|]. split.
  - rewrite unreferenced_app. f_equal.
    induction (omap dev slots) as [|d ds IH]; simpl; [reflexivity|].
    rewrite unreferenced_app, IH. reflexivity.
  - f_equal.
    + rewrite map_map. apply map_ext. reflexivity.
    + replace (omap dev (map (set_dev None) slots)) with (@nil device); [reflexivity|].
      induction slots as [|s slots IH]; simpl; [reflexivity | exact IH].
Qed.

(** The loop of the open functions keeps the last wanted device among the
    counted elements. *)
Lemma select_last (test : device -> bool) (n : nat) :
  forall slots ds found,
    take n (map dev slots) = map Some ds ->
    select (fun slot => match dev slot with Some d => test d | None => false end)
      slots n found
    = match last (List.filter test ds) with
      | Some d => Some d
      | None => found
      end.
Proof.
  induction n as [|n IH]; intros slots ds found Htake.
  - destruct ds; [|discriminate]. destruct slots; reflexivity.
  - destruct slots as [|s slots].
    + destruct ds; [reflexivity | discriminate].
    + destruct ds as [|d ds]; [discriminate|].
      simpl in Htake. injection Htake as Hd Hrest.
      cbn [select]. rewrite (IH slots ds _ Hrest), Hd. cbn [List.filter].
      destruct (test d); [|reflexivity].
      rewrite last_cons. destruct (last (List.filter test ds)); reflexivity.
Qed.

Section Opening.
Context `{Header} `{Descriptions}.

Variable bus : libusb.
Variable e : env.
Variable s : stack.

Lemma length_on_stack : length (on_stack s) = MAX_NUM_DEVICES.
Proof. unfold on_stack. now rewrite length_map, length_seq. Qed.

(** Opening the first available device. With a null [serial_number] the
    call makes no bulk transfer and always returns. It returns
    [LIBUSB_ERROR_NOT_FOUND], without opening anything and without dropping
    the references the listing left in the array, exactly when the listing
    could claim no interface; otherwise it opens the first device the listing
    claimed, returns the code of that [libusb_open], and drops every
    reference the array holds. *)
Theorem open_device_first_available (t : list bus_event) (w : world) :
  (1 <= MAX_NUM_DEVICES)%nat ->
  Z.of_nat MAX_NUM_DEVICES < 2 ^ 31 ->
  exists cnt listed listing,
    liballuris_get_device_list bus e (on_stack s) 0 t w
    = Ret (Some (cnt, listed, listing ++ t)) w
    /\ liballuris_open_device bus e s None t w
       = match claimed listing with
         | [] => Ret (Some (LIBUSB_ERROR_NOT_FOUND, listed, listing ++ t)) w
         | d :: _ =>
             let ret := open bus d (length (listing ++ t)) in
             Ret (Some (ret, map (set_dev None) listed,
                        rev (map UnrefDevice (omap dev listed))
                        ++ Open d ret :: listing ++ t)) w
         end.
Proof.
  intros Hmax Hint.
  destruct (get_device_list_quiet bus e (on_stack s) t w) as [res Hres].
  destruct (get_device_list_listing bus e (on_stack s) 0 t w w res) as
      (n & listed & listing & -> & Hle & Hlen & Hn & Htake & _);
    [rewrite length_on_stack; lia | rewrite length_on_stack; lia | exact Hres |].
  exists (Z.of_nat n), listed, listing. split; [exact Hres|].
  unfold liballuris_open_device. rewrite Hres. cbn [bind].
  destruct (claimed listing) as [|d ds] eqn:Hclaimed.
  - simpl in Hn. subst n. reflexivity.
  - simpl in Hn. subst n.
    destruct (Z.leb_spec 1 (Z.of_nat (S (length ds)))); [|lia].
    destruct listed as [|slot listed]; [discriminate|].
    simpl in Htake. injection Htake as Hd _.
    cbn [lookup list_lookup mbind option_bind]. rewrite Hd.
    unfold open_found. rewrite free_device_list_unrefs. reflexivity.
Qed.

(** Opening by bus number and address. The call makes no bulk transfer
    and always returns. Among the devices the listing claimed it picks the
    last one whose bus number and address are the wanted ones: it opens that
    device, returns the code of that [libusb_open] and drops every reference
    the array holds; where no claimed device matches it returns
    [LIBUSB_ERROR_NOT_FOUND] without opening anything. *)
Theorem open_device_with_id_last_match (bus_id device_id : Z) (t : list bus_event)
    (w : world) :
  (1 <= MAX_NUM_DEVICES)%nat ->
  Z.of_nat MAX_NUM_DEVICES < 2 ^ 31 ->
  exists cnt listed listing,
    liballuris_get_device_list bus e (on_stack s) 0 t w
    = Ret (Some (cnt, listed, listing ++ t)) w
    /\ liballuris_open_device_with_id bus e s bus_id device_id t w
       = match last (List.filter
                       (fun d => (get_bus_number bus d =? bus_id)
                                 && (get_device_address bus d =? device_id))
                       (claimed listing)) with
         | None => Ret (Some (LIBUSB_ERROR_NOT_FOUND, listed, listing ++ t)) w
         | Some d =>
             let ret := open bus d (length (listing ++ t)) in
             Ret (Some (ret, map (set_dev None) listed,
                        rev (map UnrefDevice (omap dev listed))
                        ++ Open d ret :: listing ++ t)) w
         end.
Proof.
  intros Hmax Hint.
  destruct (get_device_list_quiet bus e (on_stack s) t w) as [res Hres].
  destruct (get_device_list_listing bus e (on_stack s) 0 t w w res) as
      (n & listed & listing & -> & Hle & Hlen & Hn & Htake & _);
    [rewrite length_on_stack; lia | rewrite length_on_stack; lia | exact Hres |].
  exists (Z.of_nat n), listed, listing. split; [exact Hres|].
  unfold liballuris_open_device_with_id. rewrite Hres. cbn [bind].
  rewrite Nat2Z.id.
  rewrite (select_last _ n listed (claimed listing) None Htake).
  destruct (Z.leb_spec 1 (Z.of_nat n)) as [Hpos|Hzero].
  - destruct (last _) as [d|]; [|reflexivity].
    unfold open_found. rewrite free_device_list_unrefs. reflexivity.
  - assert (Hnone : claimed listing = []) by (destruct (claimed listing); [reflexivity | simpl in Hn; lia]).
    rewrite Hnone. reflexivity.
Qed.

End Opening.

(** On [sample_bus] device 2 is opened. *)
Lemma open_device_first_available_witness :
  exists cnt listed listing,
    liballuris_get_device_list (H := sample_header) (H0 := sample_descriptions)
      sample_bus unplugged (on_stack (H0 := sample_descriptions) zeroed_stack) 0 [] boot
    = Ret (Some (cnt, listed, listing ++ [])) boot
    /\ liballuris_open_device (H := sample_header) (H0 := sample_descriptions)
         sample_bus unplugged zeroed_stack None [] boot
       = match claimed listing with
         | [] => Ret (Some (LIBUSB_ERROR_NOT_FOUND, listed, listing ++ [])) boot
         | d :: _ =>
             let ret := open sample_bus d (length (listing ++ [])) in
             Ret (Some (ret, map (set_dev None) listed,
                        rev (map UnrefDevice (omap dev listed))
                        ++ Open d ret :: listing ++ [])) boot
         end.
Proof.
  apply (open_device_first_available (H := sample_header) (H0 := sample_descriptions)
           sample_bus unplugged zeroed_stack [] boot); cbn; lia.
Defined.

(** On [sample_bus], where device 2 has bus number 1 and address 4. *)
Lemma open_device_with_id_last_match_witness :
  exists cnt listed listing,
    liballuris_get_device_list (H := sample_header) (H0 := sample_descriptions)
      sample_bus unplugged (on_stack (H0 := sample_descriptions) zeroed_stack) 0 [] boot
    = Ret (Some (cnt, listed, listing ++ [])) boot
    /\ liballuris_open_device_with_id (H := sample_header) (H0 := sample_descriptions)
         sample_bus unplugged zeroed_stack 1 4 [] boot
       = match last (List.filter
                       (fun d => (get_bus_number sample_bus d =? 1)
                                 && (get_device_address sample_bus d =? 4))
                       (claimed listing)) with
         | None => Ret (Some (LIBUSB_ERROR_NOT_FOUND, listed, listing ++ [])) boot
         | Some d =>
             let ret := open sample_bus d (length (listing ++ [])) in
             Ret (Some (ret, map (set_dev None) listed,
                        rev (map UnrefDevice (omap dev listed))
                        ++ Open d ret :: listing ++ [])) boot
         end.
Proof.
  apply (open_device_with_id_last_match (H := sample_header) (H0 := sample_descriptions)
           sample_bus unplugged zeroed_stack 1 4 [] boot); cbn; lia.
Defined.
